(** * web-ext: the path filter and the build command

    A shallow embedding of [src/util/file-filter.js] (the minimatch based
    [FileFilter]) and of the build command module ([safeFileName],
    [getDefaultLocalizedName], [defaultPackageCreator], [build] and the
    [ignore] based [FileFilter] declared beside them), with the properties
    the specification states about them.

    Strings are sequences of code units below 256 ([ascii]).  The Node
    [path] module is modelled in its POSIX flavour ([path.sep] is the
    slash). *)

From stdpp Require Import base list strings gmap.
From Stdlib Require Import Ascii String Bool Arith Lia Permutation.

#[local] Arguments String.append !_ _ : simpl nomatch.

(** ** Strings, as the JavaScript string methods used by the sources *)

Module Str.

Definition is_empty (s : string) : bool :=
  match s with
  | EmptyString => true
  | String _ _ => false
  end.

(** [s.charAt(0) === c] *)
Definition starts_with_char (c : ascii) (s : string) : bool :=
  match s with
  | EmptyString => false
  | String d _ => Ascii.eqb d c
  end.

(** [s.charAt(s.length - 1) === c] *)
Fixpoint ends_with_char (c : ascii) (s : string) : bool :=
  match s with
  | EmptyString => false
  | String d EmptyString => Ascii.eqb d c
  | String _ s' => ends_with_char c s'
  end.

(** [s.startsWith(p)] *)
Fixpoint startsWith (p s : string) : bool :=
  match p with
  | EmptyString => true
  | String c p' =>
      match s with
      | EmptyString => false
      | String d s' => Ascii.eqb c d && startsWith p' s'
      end
  end.

(** [s.split(sep)] for a separator of one character: the result is never
    empty, and [''.split(sep)] is [['']]. *)
Fixpoint split (sep : ascii) (s : string) : list string :=
  match s with
  | EmptyString => [EmptyString]
  | String c s' =>
      if Ascii.eqb c sep then EmptyString :: split sep s'
      else match split sep s' with
           | [] => [String c EmptyString]
           | seg :: segs => String c seg :: segs
           end
  end.

(** [segs.join(sep)] *)
Definition join (sep : string) (segs : list string) : string :=
  String.concat sep segs.

Fixpoint forall_chars (P : ascii -> bool) (s : string) : bool :=
  match s with
  | EmptyString => true
  | String c s' => P c && forall_chars P s'
  end.

Fixpoint map_chars (f : ascii -> ascii) (s : string) : string :=
  match s with
  | EmptyString => EmptyString
  | String c s' => String (f c) (map_chars f s')
  end.

(** [s] does not hold the character [sep]. *)
Definition without (sep : ascii) (s : string) : bool :=
  forall_chars (fun c => negb (Ascii.eqb c sep)) s.

End Str.

(** ** Node's [path] module, POSIX flavour *)

Module Path.

Definition sep : string := "/".

Definition isAbsolute (p : string) : bool := Str.starts_with_char "/" p.

(** [normalizeString]: the segments between slashes are read from left to
    right; empty segments and [.] are dropped, [..] removes the segment
    before it (or is kept when there is none to remove and
    [allowAboveRoot] holds).  [acc] is the result so far, last segment
    first. *)
Fixpoint normalize_segs (allowAboveRoot : bool) (acc segs : list string)
  : list string :=
  match segs with
  | [] => rev acc
  | s :: rest =>
      if String.eqb s "" || String.eqb s "." then
        normalize_segs allowAboveRoot acc rest
      else if String.eqb s ".." then
        match acc with
        | top :: acc' =>
            if String.eqb top ".." then
              normalize_segs allowAboveRoot
                (if allowAboveRoot then ".." :: acc else acc) rest
            else normalize_segs allowAboveRoot acc' rest
        | [] =>
            normalize_segs allowAboveRoot
              (if allowAboveRoot then [".."] else []) rest
        end
      else normalize_segs allowAboveRoot (s :: acc) rest
  end.

(** A segment that [normalize_segs] keeps as it is. *)
Definition clean (seg : string) : Prop :=
  seg <> "" /\ seg <> "." /\ seg <> ".." /\ Str.without "/" seg = true.

Definition normalizeString (p : string) (allowAboveRoot : bool) : string :=
  Str.join "/" (normalize_segs allowAboveRoot [] (Str.split "/" p)).

Section Process.

(** [process.cwd()] *)
Variable cwd : string.

(** The loop of [path.resolve]: arguments are taken from the last to the
    first, then the working directory, until an absolute one is met;
    empty ones are skipped.  [rargs] is the argument list reversed. *)
Fixpoint resolve_loop (rargs : list string) (resolvedPath : string)
  : string * bool :=
  match rargs with
  | [] =>
      if Str.is_empty cwd then (resolvedPath, false)
      else (cwd +:+ "/" +:+ resolvedPath, isAbsolute cwd)
  | p :: rest =>
      if Str.is_empty p then resolve_loop rest resolvedPath
      else if isAbsolute p then (p +:+ "/" +:+ resolvedPath, true)
      else resolve_loop rest (p +:+ "/" +:+ resolvedPath)
  end.

(** [path.resolve(...args)] *)
Definition resolve (args : list string) : string :=
  let '(resolvedPath, resolvedAbsolute) := resolve_loop (rev args) "" in
  let normalized := normalizeString resolvedPath (negb resolvedAbsolute) in
  if resolvedAbsolute then "/" +:+ normalized
  else if Str.is_empty normalized then "." else normalized.

(** The segments of a resolved path. *)
Definition path_segs (p : string) : list string :=
  List.filter (fun s => negb (Str.is_empty s)) (Str.split "/" p).

Fixpoint drop_common (xs ys : list string) : list string * list string :=
  match xs, ys with
  | x :: xs', y :: ys' =>
      if String.eqb x y then drop_common xs' ys' else (xs, ys)
  | _, _ => (xs, ys)
  end.

(** [path.relative(from, to)]: both are resolved, their common leading
    segments are dropped, and the result climbs out of what is left of
    [from] and descends into what is left of [to]. *)
Definition relative (from to : string) : string :=
  if String.eqb from to then ""
  else
    let from' := resolve [from] in
    let to' := resolve [to] in
    if String.eqb from' to' then ""
    else
      let '(fromRest, toRest) :=
        drop_common (path_segs from') (path_segs to') in
      Str.join "/" (map (fun _ => "..") fromRest ++ toRest).

End Process.

(** [path.normalize(p)] *)
Definition normalize (p : string) : string :=
  if Str.is_empty p then "."
  else
    let isAbs := isAbsolute p in
    let trailingSeparator := Str.ends_with_char "/" p in
    let q := normalizeString p (negb isAbs) in
    if Str.is_empty q then
      if isAbs then "/" else if trailingSeparator then "./" else "."
    else
      let q' := if trailingSeparator then q +:+ "/" else q in
      if isAbs then "/" +:+ q' else q'.

(** [path.join(...args)] *)
Definition join (args : list string) : string :=
  match List.filter (fun a => negb (Str.is_empty a)) args with
  | [] => "."
  | nonempty => normalize (Str.join "/" nonempty)
  end.

End Path.

(** ** The [minimatch] library (3.x, default options)

    [minimatch(p, pattern)] on the patterns the filter needs: literal
    characters, [*] inside a segment and the segment [**].  A pattern with
    any other metacharacter (brace sets, character classes, [?], extended
    globs, escapes, a leading [!] or [#]), with a control character, or
    with a blank or a no-break space in front or at the end (the library
    trims the pattern) is not interpreted here: it is handed to
    [other_globs], about which nothing is assumed. *)

Module Minimatch.

(** Characters of the interpreted fragment: every character from the
    blank on, the delete character apart, that is none of the further
    metacharacters.  Blanks, commas (there is no brace), [^] and [$] (the
    library escapes them) stand for themselves. *)
Definition plain_char (c : ascii) : bool :=
  let n := nat_of_ascii c in
  (32 <=? n)%nat && negb (n =? 127)%nat
  && negb (existsb (Ascii.eqb c)
             ["\"; "?"; "["; "]"; "{"; "}"; "("; ")"; "!"; "+"; "@"; "|";
              "#"]%char).

Definition plain (s : string) : bool := Str.forall_chars plain_char s.

(** [pattern.trim() === pattern], for a pattern without control
    character: neither the blank nor the no-break space in front or at the
    end. *)
Definition trimmed (pattern : string) : bool :=
  negb (Str.starts_with_char " " pattern
        || Str.starts_with_char "160" pattern
        || Str.ends_with_char " " pattern
        || Str.ends_with_char "160" pattern).

Definition in_fragment (pattern : string) : bool :=
  plain pattern && trimmed pattern.

(** One segment of a pattern after [parse]. *)
Inductive tok : Type :=
| Star
| Chr (c : ascii).

Inductive part : Type :=
| GLOBSTAR
| Literal (s : string)
| Magic (toks : list tok).

Fixpoint toks_of (s : string) : list tok :=
  match s with
  | EmptyString => []
  | String c s' =>
      (if Ascii.eqb c "*" then Star else Chr c) :: toks_of s'
  end.

Definition has_star (s : string) : bool :=
  negb (Str.forall_chars (fun c => negb (Ascii.eqb c "*")) s).

(** [parse]: [**] alone is the globstar; a segment without magic stays
    a string, compared with [===]; one with [*] becomes a regular
    expression. *)
Definition parse (s : string) : part :=
  if String.eqb s "**" then GLOBSTAR
  else if has_star s then Magic (toks_of s)
  else Literal s.

(** [s.split(/\/+/)]: runs of slashes separate; an empty string is kept
    only in front and at the end. *)
Fixpoint drop_inner_empty (l : list string) : list string :=
  match l with
  | [] => []
  | [x] => [x]
  | x :: rest =>
      if Str.is_empty x then drop_inner_empty rest
      else x :: drop_inner_empty rest
  end.

Definition slashSplit (s : string) : list string :=
  match Str.split "/" s with
  | [] => []
  | x :: rest => x :: drop_inner_empty rest
  end.

(** The regular expression of a magic segment: every [*] is [[^/]*?],
    every other character stands for itself. *)
Fixpoint re_match (toks : list tok) (s : string) : bool :=
  match toks with
  | [] => Str.is_empty s
  | Chr c :: ts =>
      match s with
      | EmptyString => false
      | String d s' => Ascii.eqb c d && re_match ts s'
      end
  | Star :: ts =>
      (fix star (s : string) : bool :=
         re_match ts s
         || match s with
            | EmptyString => false
            | String d s' => negb (Ascii.eqb d "/") && star s'
            end) s
  end.

Definition line_terminator (c : ascii) : bool :=
  Ascii.eqb c "010" || Ascii.eqb c "013".

(** [f.match(re)] with [re] the anchored expression of the segment:
    [(?=.)] refuses the empty segment, and [(?!\.)], put in front when
    the segment begins with a wildcard, refuses a leading dot. *)
Definition magic_match (toks : list tok) (f : string) : bool :=
  match f with
  | EmptyString => false
  | String d _ =>
      negb (line_terminator d)
      && match toks with
         | Star :: _ => negb (Ascii.eqb d ".")
         | _ => true
         end
      && re_match toks f
  end.

(** What a globstar never swallows (option [dot] is off). *)
Definition unswallowable (f : string) : bool :=
  String.eqb f "." || String.eqb f ".." || Str.starts_with_char "." f.

(** [matchOne(file, pattern, partial = false)] *)
Fixpoint matchOne (pattern : list part) (file : list string) : bool :=
  match pattern with
  | [] =>
      match file with
      | [] => true
      | [f] => Str.is_empty f
      | _ => false
      end
  | p :: ps =>
      match file with
      | [] => false
      | f :: fs =>
          match p with
          | GLOBSTAR =>
              match ps with
              | [] => forallb (fun x => negb (unswallowable x)) file
              | _ :: _ =>
                  (fix swallow (file : list string) : bool :=
                     match file with
                     | [] => false
                     | swallowee :: rest =>
                         matchOne ps file
                         || (negb (unswallowable swallowee) && swallow rest)
                     end) file
              end
          | Literal s => String.eqb f s && matchOne ps fs
          | Magic toks => magic_match toks f && matchOne ps fs
          end
      end
  end.

(** [new Minimatch(pattern).match(f)] for a pattern of the fragment (so
    neither a comment nor negated, and with one brace expansion: itself);
    the empty pattern matches the empty path only. *)
Definition glob (f pattern : string) : bool :=
  if Str.is_empty pattern then Str.is_empty f
  else matchOne (map parse (slashSplit pattern)) (slashSplit f).

(** A segment that [*] matches and [**] swallows: not empty, without
    slash, and beginning neither with a dot nor with a line terminator. *)
Definition visible (seg : string) : bool :=
  match seg with
  | EmptyString => false
  | String d _ => negb (Ascii.eqb d ".") && negb (line_terminator d)
  end
  && Str.without "/" seg.

(** A string of the fragment without wildcard: as a pattern it stands for
    itself.  It holds no control character, no star, question mark,
    bracket, brace, parenthesis, exclamation mark, plus, at sign, bar,
    number sign or backslash, and no blank or no-break space in front or
    at the end. *)
Definition literal (s : string) : bool :=
  in_fragment s && negb (has_star s).

Section Library.

(** The library on the patterns outside the fragment. *)
Variable other_globs : string -> string -> bool.

Definition minimatch (p pattern : string) : bool :=
  if in_fragment pattern then glob p pattern else other_globs p pattern.

End Library.

End Minimatch.

(** ** The file system, as far as the sources read it *)

Inductive FsEntry : Type :=
| Missing
| Unreadable (why : string)
| File (text : string).

Definition Fs : Type := string -> FsEntry.

(** [fs.existsSync(p)] *)
Definition existsSync (fs : Fs) (p : string) : bool :=
  match fs p with
  | Missing => false
  | _ => true
  end.

(** [fs.readFileSync(p, 'utf8')]; [None] when it throws. *)
Definition readFileSync (fs : Fs) (p : string) : option string :=
  match fs p with
  | File text => Some text
  | _ => None
  end.

(** ** [src/util/file-filter.js] *)

Module UtilFileFilter.

Record FileFilterOptions : Type := {
  baseIgnoredPatterns : option (list string);
  ignoreFiles : option (list string);
  sourceDir : string;
  artifactsDir : option string
}.

Record FileFilter : Type := {
  filesToIgnore : list string;
  this_sourceDir : string
}.

Definition default_baseIgnoredPatterns : list string :=
  [ "**/*.xpi";
    "**/*.zip";
    "**/.*";
    "**/.*/**/*";
    "**/node_modules";
    "**/node_modules/**/*" ].

Section WithProcess.

Variable cwd : string.
Variable other_globs : string -> string -> bool.

(** check if target is a sub directory of src *)
Definition isSubPath (src target : string) : bool :=
  let relate := Path.relative cwd src target in
  if Str.is_empty relate then false
  else if String.eqb relate ".." then false
  else negb (Str.startsWith (".." +:+ Path.sep) relate).

(** Resolve relative path to absolute path with sourceDir. *)
Definition resolveWithSourceDir (this : FileFilter) (file : string)
  : string :=
  Path.resolve cwd [this_sourceDir this; file].

(** Insert more files into filesToIgnore array. *)
Definition addToIgnoreList (this : FileFilter) (files : list string)
  : FileFilter :=
  fold_left
    (fun this file =>
       {| filesToIgnore :=
            filesToIgnore this ++ [resolveWithSourceDir this file];
          this_sourceDir := this_sourceDir this |})
    files this.

(** The constructor's block for [.wextignore]: its lines are added when
    the file exists and can be read; an error of the read is swallowed. *)
Definition load_ignore_file (fs : Fs) (this : FileFilter) : FileFilter :=
  if Str.is_empty (this_sourceDir this) then this
  else
    let ignoreFilePath :=
      Path.join [this_sourceDir this; ".wextignore"] in
    if existsSync fs ignoreFilePath then
      match readFileSync fs ignoreFilePath with
      | Some text => addToIgnoreList this (Str.split "010" text)
      | None => this
      end
    else this.

(** The constructor's block for the artifacts directory: the directory
    and all below it are added when it is given and lies in the source
    directory. *)
Definition ignore_artifacts (dir : option string) (this : FileFilter)
  : FileFilter :=
  match dir with
  | Some artifactsDir =>
      if negb (Str.is_empty artifactsDir)
         && isSubPath (this_sourceDir this) artifactsDir
      then
        let artifactsDir := Path.resolve cwd [artifactsDir] in
        addToIgnoreList this
          [artifactsDir; Path.join [artifactsDir; "**"; "*"]]
      else this
  | None => this
  end.

(** What the constructor adds for [.wextignore] and for the artifacts
    directory, before resolution. *)
Definition ignore_file_lines (fs : Fs) (resolvedSourceDir : string)
  : list string :=
  if Str.is_empty resolvedSourceDir then []
  else
    match fs (Path.join [resolvedSourceDir; ".wextignore"]) with
    | File text => Str.split "010" text
    | _ => []
    end.

Definition artifacts_patterns (resolvedSourceDir : string)
  (dir : option string) : list string :=
  match dir with
  | Some artifactsDir =>
      if negb (Str.is_empty artifactsDir)
         && isSubPath resolvedSourceDir artifactsDir
      then
        [Path.resolve cwd [artifactsDir];
         Path.join [Path.resolve cwd [artifactsDir]; "**"; "*"]]
      else []
  | None => []
  end.

(** [new FileFilter(options)] *)
Definition new (fs : Fs) (o : FileFilterOptions) : FileFilter :=
  let sourceDir := Path.resolve cwd [sourceDir o] in
  let this := {| filesToIgnore := []; this_sourceDir := sourceDir |} in
  let this := load_ignore_file fs this in
  let this :=
    addToIgnoreList this
      (default default_baseIgnoredPatterns (baseIgnoredPatterns o)) in
  let this := addToIgnoreList this (default [] (ignoreFiles o)) in
  ignore_artifacts (artifactsDir o) this.

(** The loop of [wantFile]: the answer, and the pattern that matched. *)
Fixpoint first_match (resolvedPath : string) (tests : list string)
  : option string :=
  match tests with
  | [] => None
  | test :: rest =>
      if Minimatch.minimatch other_globs resolvedPath test then Some test
      else first_match resolvedPath rest
  end.

(** Returns true if the file is wanted. *)
Definition wantFile (this : FileFilter) (filePath : string) : bool :=
  let resolvedPath := resolveWithSourceDir this filePath in
  match first_match resolvedPath (filesToIgnore this) with
  | Some _ => false
  | None => true
  end.

(** The debug line [wantFile] writes when it refuses a file. *)
Definition wantFile_diagnostic (this : FileFilter) (filePath : string)
  : option string :=
  let resolvedPath := resolveWithSourceDir this filePath in
  match first_match resolvedPath (filesToIgnore this) with
  | Some test =>
      Some ("FileFilter: ignoring file " +:+ resolvedPath
            +:+ " (it matched " +:+ test +:+ ")")
  | None => None
  end.

Definition createFileFilter (fs : Fs) (params : FileFilterOptions)
  : FileFilter := new fs params.

End WithProcess.

End UtilFileFilter.

(** ** Errors, the world and the monad of the asynchronous functions *)

Inductive Error : Type :=
| UsageError (message : string)
| OtherError (name message : string).

(** [String(error)], as a template literal prints an error. *)
Definition error_toString (e : Error) : string :=
  match e with
  | UsageError message => "UsageError: " +:+ message
  | OtherError name message => name +:+ ": " +:+ message
  end.

Inductive Level : Type := Debug | Info | LevelError.

Record World : Type := {
  w_fs : Fs;
  w_log : list (Level * string)
}.

Inductive Result (A : Type) : Type :=
| Ok (a : A)
| Err (e : Error).
Arguments Ok {A} a.
Arguments Err {A} e.

(** A promise that is awaited: run it in a world, get its outcome and the
    world it leaves. *)
Definition M (A : Type) : Type := World -> Result A * World.

Definition ret {A} (a : A) : M A := fun w => (Ok a, w).
Definition throw {A} (e : Error) : M A := fun w => (Err e, w).
Definition bind {A B} (m : M A) (k : A -> M B) : M B :=
  fun w =>
    match m w with
    | (Ok a, w') => k a w'
    | (Err e, w') => (Err e, w')
    end.
(** [try { m } catch (error) { h(error) }], and [m.catch(h)] *)
Definition catch {A} (m : M A) (h : Error -> M A) : M A :=
  fun w =>
    match m w with
    | (Ok a, w') => (Ok a, w')
    | (Err e, w') => h e w'
    end.

#[global] Instance M_ret : MRet M := @ret.
#[global] Instance M_bind : MBind M := fun A B k m => bind m k.

(** A function that returns a promise is called in two steps: the call
    itself runs at once and may throw; what it returns is the promise,
    which is settled when the event loop comes to it.  The work of the
    promise is counted at the time it settles. *)
Definition Promise (A : Type) : Type := M A.

(** The call of an [async] function: it never throws, the body is the
    promise. *)
Definition async {A} (body : M A) : M (Promise A) := ret body.

(** [await call] *)
Definition await {A} (call : M (Promise A)) : M A :=
  bind call (fun promise => promise).

(** The world with one more line in the log. *)
Definition logged (l : Level) (msg : string) (w : World) : World :=
  {| w_fs := w_fs w; w_log := w_log w ++ [(l, msg)] |}.

Definition log (l : Level) (msg : string) : M unit :=
  fun w => (Ok tt, logged l msg w).

(** [fs.readFile(p)] of [mz]: the promise is rejected for a file that is
    missing or cannot be read. *)
Definition readFile (p : string) : M string :=
  fun w =>
    match w_fs w p with
    | File text => (Ok text, w)
    | Missing =>
        (Err (OtherError "Error"
                ("ENOENT: no such file or directory, open '" +:+ p +:+ "'")),
         w)
    | Unreadable why => (Err (OtherError "Error" why), w)
    end.

(** ** The build command module *)

Module BuildCmd.

(** *** [safeFileName] *)

Definition in_range (lo hi : nat) (c : ascii) : bool :=
  let n := nat_of_ascii c in (lo <=? n)%nat && (n <=? hi)%nat.

(** [toLowerCase] on code units below 256, the strings of this
    development: the letters A to Z, and the capital letters of Latin-1.
    On other strings the function can give more code units than it gets
    (U+0130 becomes two), so nothing below relies on the length of a
    lower-cased name. *)
Definition toLowerCase_char (c : ascii) : ascii :=
  if in_range 65 90 c
     || (in_range 192 222 c && negb (Ascii.eqb c "215"))
  then ascii_of_nat (nat_of_ascii c + 32)
  else c.

Definition toLowerCase (s : string) : string :=
  Str.map_chars toLowerCase_char s.

(** The class [[a-z0-9\.-]]. *)
Definition safe_char (c : ascii) : bool :=
  in_range 97 122 c || in_range 48 57 c
  || Ascii.eqb c "." || Ascii.eqb c "-".

(** [s.replace(/[^a-z0-9\.-]+/g, '_')]: [in_run] tells that the
    character before was outside the class, and so already replaced. *)
Fixpoint replace_unsafe (in_run : bool) (s : string) : string :=
  match s with
  | EmptyString => EmptyString
  | String c s' =>
      if safe_char c then String c (replace_unsafe false s')
      else if in_run then replace_unsafe true s'
      else String "_" (replace_unsafe true s')
  end.

Definition safeFileName (name : string) : string :=
  replace_unsafe false (toLowerCase name).

(** [safeFileName(`${extensionName}-${manifestData.version}.zip`)] *)
Definition packageName_of (extensionName version : string) : string :=
  safeFileName (extensionName +:+ "-" +:+ version +:+ ".zip").

(** The file name as the specification words it: lower-cased, then every
    character outside the class replaced by an underscore of its own. *)
Definition replace_every_char (s : string) : string :=
  Str.map_chars (fun c => if safe_char c then c else "_"%char) s.

Definition packageName_every_char (extensionName version : string)
  : string :=
  replace_every_char
    (toLowerCase (extensionName +:+ "-" +:+ version +:+ ".zip")).

(** Runs of underscores made one. *)
Fixpoint squeeze_underscores (s : string) : string :=
  match s with
  | EmptyString => EmptyString
  | String c s' =>
      match s' with
      | String d _ =>
          if Ascii.eqb c "_" && Ascii.eqb d "_" then squeeze_underscores s'
          else String c (squeeze_underscores s')
      | EmptyString => String c EmptyString
      end
  end.

(** *** [getDefaultLocalizedName] *)

Record ExtensionManifest : Type := {
  name : string;
  version : string;
  default_locale : option string
}.

(** An entry of [_locales/<locale>/messages.json]. *)
Record LocalizedMessage : Type := {
  description : option string;
  message : option string
}.

Abbreviation LocalizedMessageData := (gmap string LocalizedMessage).

Record LocalizedNameParams : Type := {
  messageFile : string;
  p_manifestData : ExtensionManifest
}.

(** The class [[A-Za-z0-9@_]]. *)
Definition key_char (c : ascii) : bool :=
  in_range 65 90 c || in_range 97 122 c || in_range 48 57 c
  || Ascii.eqb c "@" || Ascii.eqb c "_".

Fixpoint drop (n : nat) (s : string) : string :=
  match n, s with
  | S n', String _ s' => drop n' s'
  | _, _ => s
  end.

(** [([A-Za-z0-9@_]+?)__] at the front of [s]: the quantifier is lazy,
    so the key stops at the first place where [__] follows.  Gives the
    key and what is left after the match. *)
Fixpoint key_then_close (s : string) : option (string * string) :=
  match s with
  | EmptyString => None
  | String c s' =>
      if key_char c then
        if Str.startsWith "__" s' then Some (String c EmptyString, drop 2 s')
        else
          match key_then_close s' with
          | Some (key, rest) => Some (String c key, rest)
          | None => None
          end
      else None
  end.

(** [/__MSG_([A-Za-z0-9@_]+?)__/] at the front of [s]. *)
Definition match_token (s : string) : option (string * string) :=
  if Str.startsWith "__MSG_" s then key_then_close (drop 6 s) else None.

(** [s.replace(/__MSG_([A-Za-z0-9@_]+?)__/g, (match, messageName) => ...)]
    with a callback that may throw: matches are looked for from left to
    right and do not overlap; [skip] counts the characters of the last
    match still to pass. *)
Fixpoint replace_tokens (callback : string -> Result string)
  (skip : nat) (s : string) : Result string :=
  match s with
  | EmptyString => Ok EmptyString
  | String c s' =>
      match skip with
      | S n => replace_tokens callback n s'
      | O =>
          match match_token s with
          | Some (messageName, _) =>
              match callback messageName with
              | Err e => Err e
              | Ok replacement =>
                  match
                    replace_tokens callback
                      (String.length messageName + 7) s'
                  with
                  | Ok out => Ok (replacement +:+ out)
                  | Err e => Err e
                  end
              end
          | None =>
              match replace_tokens callback 0 s' with
              | Ok out => Ok (String c out)
              | Err e => Err e
              end
          end
      end
  end.

(** The keys of the tokens that the replacement finds, in order. *)
Fixpoint scan_tokens (skip : nat) (s : string) : list string :=
  match s with
  | EmptyString => []
  | String c s' =>
      match skip with
      | S n => scan_tokens n s'
      | O =>
          match match_token s with
          | Some (messageName, _) =>
              messageName
                :: scan_tokens (String.length messageName + 7) s'
          | None => scan_tokens 0 s'
          end
      end
  end.

(** A token in the words of the specification: [__MSG_<key>__] somewhere
    in the name, the key made of letters, digits, [@] and [_]. *)
Definition contains_token (name key : string) : Prop :=
  exists before after : string,
    name = before +:+ "__MSG_" +:+ key +:+ "__" +:+ after
    /\ key <> "" /\ Str.forall_chars key_char key = true.

(** JavaScript truthiness of a field that holds a string or is absent. *)
Definition truthy (o : option string) : bool :=
  match o with
  | Some s => negb (Str.is_empty s)
  | None => false
  end.

(** The callback of the replacement. *)
Definition lookup_message (messageFile : string)
  (messageData : LocalizedMessageData) (messageName : string)
  : Result string :=
  match messageData !! messageName with
  | Some entry =>
      if truthy (message entry) then Ok (default "" (message entry))
      else
        Err (UsageError ("The locale file " +:+ messageFile
                         +:+ " is missing key: " +:+ messageName))
  | None =>
      Err (UsageError ("The locale file " +:+ messageFile
                       +:+ " is missing key: " +:+ messageName))
  end.

(** The catalog has no entry for the key, or an entry without a message
    (or with an empty one). *)
Definition missing_key (messageData : LocalizedMessageData)
  (messageName : string) : bool :=
  match messageData !! messageName with
  | Some entry => negb (truthy (message entry))
  | None => true
  end.

(** *** The [FileFilter] of this module, on the [ignore] library

    The object made by [createIgnore()] is the list of the patterns
    added to it, in order. *)

Record FileFilterOptions : Type := {
  o_filesToIgnore : option (list string);
  o_sourceDir : option string
}.

Record FileFilter : Type := {
  _ignore : list string
}.

Definition default_filesToIgnore : list string :=
  ["*.xpi"; "*.zip"; ".*"; "node_modules"].

(** Add a new path to ignore *)
Definition add (this : FileFilter) (paths : list string) : FileFilter :=
  {| _ignore := _ignore this ++ paths |}.

(** [new FileFilter({filesToIgnore, sourceDir})] *)
Definition new (fs : Fs) (o : FileFilterOptions) : FileFilter :=
  let this :=
    add {| _ignore := [] |}
      (default default_filesToIgnore (o_filesToIgnore o)) in
  if truthy (o_sourceDir o) then
    let ignoreFilePath :=
      Path.join [default "" (o_sourceDir o); ".xpiignore"] in
    if existsSync fs ignoreFilePath then
      match readFileSync fs ignoreFilePath with
      | Some text => add this (Str.split "010" text)
      | None => this
      end
    else this
  else this.

(** *** Types of the package creator and of the build command *)

Record ExtensionBuildResult : Type := {
  extensionPath : string
}.

Record PackageCreatorParams : Type := {
  pc_manifestData : option ExtensionManifest;
  pc_sourceDir : string;
  pc_fileFilter : string -> bool;
  pc_artifactsDir : string;
  pc_showReadyMessage : bool
}.

(** The body of a package creator that is an [async] function. *)
Definition PackageCreatorFn : Type :=
  PackageCreatorParams -> M ExtensionBuildResult.

(** A package creator as [build] calls it: any function that returns a
    promise, so one whose call may throw. *)
Definition PackageCreatorCall : Type :=
  PackageCreatorParams -> M (Promise ExtensionBuildResult).

Record OnSourceChangeParams : Type := {
  w_sourceDir : string;
  w_artifactsDir : string;
  onChange : M (Promise ExtensionBuildResult);
  shouldWatchFile : string -> bool
}.

(** The call of the watcher: [build] does not await what it returns. *)
Definition OnSourceChangeFn : Type := OnSourceChangeParams -> M unit.

Record BuildCmdParams : Type := {
  b_sourceDir : string;
  b_artifactsDir : string;
  asNeeded : option bool
}.

(** An object given as [fileFilter] is known by its [wantFile] method. *)
Record BuildCmdOptions : Type := {
  b_manifestData : option ExtensionManifest;
  b_fileFilter : option (string -> bool);
  b_onSourceChange : option OnSourceChangeFn;
  b_packageCreator : option PackageCreatorCall;
  b_showReadyMessage : option bool
}.

Section Collaborators.

(** [parse-json]: the catalog, or the text of the error thrown. *)
Variable parseJSON : string -> string -> string + LocalizedMessageData.
(** [ignores(path)] of the [ignore] library, for the patterns added. *)
Variable ignores : list string -> string -> bool.
(** [../util/manifest], [../util/zip-dir], the write stream,
    [../util/artifacts], [../watcher], and [error.stack]. *)
Variable getManifestId : ExtensionManifest -> option string.
Variable getValidatedManifest : string -> M ExtensionManifest.
Variable zipDir : string -> (string -> bool) -> M string.
Variable writeStream : string -> string -> M unit.
Variable prepareArtifactsDir : string -> M string.
Variable defaultSourceWatcher : OnSourceChangeFn.
Variable stack : Error -> string.

(** Returns true if the file is wanted for the ZIP archive. *)
Definition wantFile (this : FileFilter) (path : string) : bool :=
  if ignores (_ignore this) path then false else true.

Definition getDefaultLocalizedName (p : LocalizedNameParams) : M string :=
  messageContents ←
    catch (readFile (messageFile p))
      (fun error =>
         throw (UsageError ("Error reading messages.json file at "
                            +:+ messageFile p +:+ ": "
                            +:+ error_toString error)));
  match parseJSON messageContents (messageFile p) with
  | inl error =>
      throw (UsageError ("Error parsing messages.json " +:+ error))
  | inr messageData =>
      match
        replace_tokens (lookup_message (messageFile p) messageData) 0
          (name (p_manifestData p))
      with
      | Ok extensionName => ret extensionName
      | Err e => throw e
      end
  end.

(** The lines of [defaultPackageCreator] that compute [extensionName]:
    the name of the manifest, localized when the manifest declares a
    default locale. *)
Definition extensionName_of (sourceDir : string)
  (manifestData : ExtensionManifest) : M string :=
  if truthy (default_locale manifestData) then
    let messageFile :=
      Path.join [sourceDir; "_locales";
                 default "" (default_locale manifestData);
                 "messages.json"] in
    log Debug
      "Manifest declared default_locale, localizing extension name";;
    getDefaultLocalizedName
      {| messageFile := messageFile; p_manifestData := manifestData |}
  else mret (name manifestData).

Definition defaultPackageCreator : PackageCreatorFn := fun p =>
  manifestData ←
    match pc_manifestData p with
    | Some manifestData =>
        let id := getManifestId manifestData in
        log Debug ("Using manifest id="
                   +:+ (if truthy id then default "" id
                        else "[not specified]"));;
        mret manifestData
    | None => getValidatedManifest (pc_sourceDir p)
    end;
  buffer ← zipDir (pc_sourceDir p) (pc_fileFilter p);
  extensionName ← extensionName_of (pc_sourceDir p) manifestData;
  let packageName :=
    packageName_of extensionName (version manifestData) in
  let extensionPath := Path.join [pc_artifactsDir p; packageName] in
  writeStream extensionPath buffer;;
  (if pc_showReadyMessage p then
     log Info ("Your web extension is ready: " +:+ extensionPath)
   else mret tt);;
  mret {| extensionPath := extensionPath |}.

(** The filter [build] works with: the one given, or a [FileFilter] of
    this module made for the source directory. *)
Definition build_fileFilter (fs : Fs) (params : BuildCmdParams)
  (options : BuildCmdOptions) : string -> bool :=
  default
    (wantFile
       (new fs {| o_filesToIgnore := None;
                  o_sourceDir := Some (b_sourceDir params) |}))
    (b_fileFilter options).

(** [createPackage()]: the call of the package creator. *)
Definition createPackage (fs : Fs) (params : BuildCmdParams)
  (options : BuildCmdOptions) : M (Promise ExtensionBuildResult) :=
  default (fun p => async (defaultPackageCreator p))
    (b_packageCreator options)
    {| pc_manifestData := b_manifestData options;
       pc_sourceDir := b_sourceDir params;
       pc_fileFilter := build_fileFilter fs params options;
       pc_artifactsDir := b_artifactsDir params;
       pc_showReadyMessage := default true (b_showReadyMessage options) |}.

(** What [.catch] of [onChange] does with the error of a rebuild. *)
Definition rebuild_failed (error : Error) : M ExtensionBuildResult :=
  log LevelError (stack error);; throw error.

(** The [onChange] that [build] hands to the watcher:
    [() => createPackage().catch(...)].  A throw of the call of the package
    creator is not caught: [.catch] is on the promise. *)
Definition build_onChange (fs : Fs) (params : BuildCmdParams)
  (options : BuildCmdOptions) : M (Promise ExtensionBuildResult) :=
  promise ← createPackage fs params options;
  mret (catch promise rebuild_failed).

Definition build (params : BuildCmdParams) (options : BuildCmdOptions)
  : M ExtensionBuildResult := fun w =>
  (* default values of the options are computed when build is called *)
  let fs := w_fs w in
  let onSourceChange :=
    default defaultSourceWatcher (b_onSourceChange options) in
  let rebuildAsNeeded := default false (asNeeded params) in
  (log Info ("Building web extension from " +:+ b_sourceDir params);;
   prepareArtifactsDir (b_artifactsDir params);;
   result ← await (createPackage fs params options);
   (if rebuildAsNeeded then
      log Info "Rebuilding when files change...";;
      onSourceChange
        {| w_sourceDir := b_sourceDir params;
           w_artifactsDir := b_artifactsDir params;
           onChange := build_onChange fs params options;
           shouldWatchFile := build_fileFilter fs params options |}
    else mret tt);;
   mret result) w.

End Collaborators.

End BuildCmd.

(** ** Watch mode: the watcher and the rebuilds in flight

    Modelled from the spec: the watcher ([../watcher]) is not among these
    sources; in the words of the specification it is given a predicate and
    an [onChange] callback and invokes the callback on each qualifying
    change.  What it can do with the [onChange] that [build] hands to it
    is to call it, and to let the promises it gets settle; a session is a
    sequence of such events.  The rebuilds in flight are the promises that
    [onChange] has returned and that are not settled yet. *)

Module WatchSession.

(** What the watcher gets from a call of [onChange]: the call throws, or
    the promise it returned settles. *)
Inductive outcome : Type :=
| Threw (e : Error)
| Settled (r : Result BuildCmd.ExtensionBuildResult).

Record state : Type := {
  world : World;
  pending : list (nat * Promise BuildCmd.ExtensionBuildResult);
  started : nat;
  seen : list (nat * outcome)
}.

Definition init (w : World) : state :=
  {| world := w; pending := []; started := 0; seen := [] |}.

Inductive event : Type :=
| Touch (edit : Fs -> Fs)
| Change
| Settle (id : nat).

Section Session.

Variable onChange : M (Promise BuildCmd.ExtensionBuildResult).

(** The files of the source directory change. *)
Definition touch (edit : Fs -> Fs) (s : state) : state :=
  {| world := {| w_fs := edit (w_fs (world s)); w_log := w_log (world s) |};
     pending := pending s;
     started := started s;
     seen := seen s |}.

(** The watcher calls [onChange]; calls are numbered from 0. *)
Definition change (s : state) : state :=
  match onChange (world s) with
  | (Ok promise, w) =>
      {| world := w;
         pending := pending s ++ [(started s, promise)];
         started := S (started s);
         seen := seen s |}
  | (Err e, w) =>
      {| world := w;
         pending := pending s;
         started := S (started s);
         seen := seen s ++ [(started s, Threw e)] |}
  end.

(** The promise of call [id] is settled, when it is pending. *)
Definition settle (id : nat) (s : state) : state :=
  match find (fun p => Nat.eqb (fst p) id) (pending s) with
  | Some (_, promise) =>
      match promise (world s) with
      | (r, w) =>
          {| world := w;
             pending :=
               List.filter (fun p => negb (Nat.eqb (fst p) id)) (pending s);
             started := started s;
             seen := seen s ++ [(id, Settled r)] |}
      end
  | None => s
  end.

Definition step (s : state) (e : event) : state :=
  match e with
  | Touch edit => touch edit s
  | Change => change s
  | Settle id => settle id s
  end.

Definition run (s : state) (events : list event) : state :=
  fold_left step events s.

Definition in_flight (s : state) : nat := List.length (pending s).

(** The watcher holds a change back while a rebuild is pending. *)
Fixpoint watcher_waits (s : state) (events : list event) : bool :=
  match events with
  | [] => true
  | e :: rest =>
      match e with
      | Change => Nat.eqb (in_flight s) 0
      | _ => true
      end
      && watcher_waits (step s e) rest
  end.

(** At most one rebuild is in flight after every event. *)
Fixpoint single_flight (s : state) (events : list event) : bool :=
  match events with
  | [] => true
  | e :: rest =>
      (in_flight (step s e) <=? 1)%nat && single_flight (step s e) rest
  end.

End Session.


End WatchSession.


(** ** Inputs of the examples *)

Module Examples.

(** A file system without ignore files. *)
Definition empty_fs : Fs := fun _ => Missing.

(** No pattern outside the interpreted fragment matches. *)
Definition no_other_globs : string -> string -> bool := fun _ _ => false.

Definition two_patterns : UtilFileFilter.FileFilter :=
  {| UtilFileFilter.filesToIgnore := ["/src/**/*.zip"; "/src/**/.*"];
     UtilFileFilter.this_sourceDir := "/src" |}.

Definition two_patterns_swapped : UtilFileFilter.FileFilter :=
  {| UtilFileFilter.filesToIgnore := ["/src/**/.*"; "/src/**/*.zip"];
     UtilFileFilter.this_sourceDir := "/src" |}.

(** A source directory with both kinds of ignore file. *)
Definition ignore_files_fs : Fs := fun p =>
  if String.eqb p "/src/.xpiignore" then File ("docs" +:+ String "010" "*.log")
  else if String.eqb p "/src/.wextignore" then
    File ("secret" +:+ String "010" "")
  else Missing.

(** A stand-in for the [ignore] library: a rule ignores the path equal to
    it. *)
Definition literal_ignores (rules : list string) (path : string) : bool :=
  existsb (String.eqb path) rules.

Definition build_params : BuildCmd.BuildCmdParams :=
  {| BuildCmd.b_sourceDir := "/src";
     BuildCmd.b_artifactsDir := "/src/web-ext-artifacts";
     BuildCmd.asNeeded := Some true |}.

Definition no_options : BuildCmd.BuildCmdOptions :=
  {| BuildCmd.b_manifestData := None;
     BuildCmd.b_fileFilter := None;
     BuildCmd.b_onSourceChange := None;
     BuildCmd.b_packageCreator := None;
     BuildCmd.b_showReadyMessage := None |}.

(** A catalog with the one key [a]. *)
Definition catalog_a : gmap string BuildCmd.LocalizedMessage :=
  {[ "a" := {| BuildCmd.description := None;
               BuildCmd.message := Some "X" |} ]}.

Definition parse_catalog_a (contents file : string)
  : string + gmap string BuildCmd.LocalizedMessage :=
  if String.eqb contents "{}" then inr catalog_a
  else inl ("JSONError: Unexpected token in " +:+ file).

Definition locale_fs : Fs := fun p =>
  if String.eqb p "/src/_locales/en/messages.json" then File "{}"
  else Missing.

Definition locale_world : World := {| w_fs := locale_fs; w_log := [] |}.

Definition manifest_named (n : string) : BuildCmd.ExtensionManifest :=
  {| BuildCmd.name := n;
     BuildCmd.version := "1.0";
     BuildCmd.default_locale := Some "en" |}.

Definition name_params (n : string) : BuildCmd.LocalizedNameParams :=
  {| BuildCmd.messageFile := "/src/_locales/en/messages.json";
     BuildCmd.p_manifestData := manifest_named n |}.

(** Filters on [/src]: with the default options, with the artifacts
    directory inside the source directory, and that one without base
    patterns. *)
Definition options_for (base : option (list string))
  (artifacts : option string) : UtilFileFilter.FileFilterOptions :=
  {| UtilFileFilter.baseIgnoredPatterns := base;
     UtilFileFilter.ignoreFiles := None;
     UtilFileFilter.sourceDir := "/src";
     UtilFileFilter.artifactsDir := artifacts |}.

Definition default_filter : UtilFileFilter.FileFilter :=
  UtilFileFilter.new "/w" empty_fs (options_for None None).

Definition artifacts_filter : UtilFileFilter.FileFilter :=
  UtilFileFilter.new "/w" empty_fs
    (options_for None (Some "/src/web-ext-artifacts")).

Definition bare_artifacts_filter : UtilFileFilter.FileFilter :=
  UtilFileFilter.new "/w" empty_fs
    (options_for (Some []) (Some "/src/web-ext-artifacts")).

(** Collaborators of a build: a package creator that needs the manifest
    file, a watcher that only registers, and the rest. *)
Definition sample_creator : BuildCmd.PackageCreatorFn := fun p w =>
  match w_fs w (Path.join [BuildCmd.pc_sourceDir p; "manifest.json"]) with
  | File _ =>
      (Ok {| BuildCmd.extensionPath :=
               Path.join [BuildCmd.pc_artifactsDir p; "ext-1.0.zip"] |}, w)
  | _ => (Err (UsageError "no manifest.json"), w)
  end.

Definition quiet_watcher : BuildCmd.OnSourceChangeFn :=
  fun _ w => (Ok tt, w).

Definition sample_options : BuildCmd.BuildCmdOptions :=
  {| BuildCmd.b_manifestData := None;
     BuildCmd.b_fileFilter := None;
     BuildCmd.b_onSourceChange := Some quiet_watcher;
     BuildCmd.b_packageCreator := Some (fun p => async (sample_creator p));
     BuildCmd.b_showReadyMessage := None |}.

Definition prepare_ok : string -> M string := fun dir w => (Ok dir, w).

Definition no_manifest_id : BuildCmd.ExtensionManifest -> option string :=
  fun _ => None.

Definition no_validated_manifest : string -> M BuildCmd.ExtensionManifest :=
  fun _ => throw (UsageError "no manifest.json").

Definition empty_zip : string -> (string -> bool) -> M string :=
  fun _ _ => mret "".

Definition write_nothing : string -> string -> M unit :=
  fun _ _ => mret tt.

Definition manifest_fs : Fs := fun p =>
  if String.eqb p "/src/manifest.json" then File "{}" else Missing.

Definition manifest_world : World := {| w_fs := manifest_fs; w_log := [] |}.

End Examples.

Module StrMore.
(** [s.endsWith(suffix)] *)
Fixpoint endsWith (suffix s : string) : bool :=
  String.eqb s suffix
  || match s with
     | EmptyString => false
     | String _ s' => endsWith suffix s'
     end.
End StrMore.

(** ** Further inputs of examples *)

Module Samples.

(** A catalog with the keys [a] and [b]. *)
Definition catalog_ab : gmap string BuildCmd.LocalizedMessage :=
  {[ "a" := {| BuildCmd.description := None;
               BuildCmd.message := Some "X" |};
     "b" := {| BuildCmd.description := None;
               BuildCmd.message := Some "Y" |} ]}.

Definition parse_catalog_ab (contents file : string)
  : string + gmap string BuildCmd.LocalizedMessage :=
  if String.eqb contents "{}" then inr catalog_ab
  else inl ("JSONError: Unexpected token in " +:+ file).

(** A package creation with the manifest at hand. *)
Definition creator_params : BuildCmd.PackageCreatorParams :=
  {| BuildCmd.pc_manifestData := Some (Examples.manifest_named "My Ext");
     BuildCmd.pc_sourceDir := "/src";
     BuildCmd.pc_fileFilter := fun _ => true;
     BuildCmd.pc_artifactsDir := "/src/web-ext-artifacts";
     BuildCmd.pc_showReadyMessage := true |}.

Definition packaged_world : World :=
  {| w_fs := Examples.locale_fs;
     w_log :=
       [(Debug, "Using manifest id=[not specified]");
        (Debug,
         "Manifest declared default_locale, localizing extension name");
        (Info,
         "Your web extension is ready: /src/web-ext-artifacts/my_ext-1.0.zip")]
  |}.

(** An artifacts directory that cannot be made. *)
Definition prepare_fails : string -> M string := fun dir =>
  throw (OtherError "Error"
           ("EACCES: permission denied, mkdir '" +:+ dir +:+ "'")).





(** A package creator whose call throws. *)
Definition throwing_creator : BuildCmd.PackageCreatorCall := fun _ =>
  throw (OtherError "TypeError" "zipDir is not a function").

(** A package creator and a watcher that log what the filter they are
    given answers for [docs] and for [secret]. *)
Definition answers (fileFilter : string -> bool) : string :=
  (if fileFilter "docs" then "docs: yes" else "docs: no")
  +:+ (if fileFilter "secret" then ", secret: yes" else ", secret: no").

Definition probing_creator : BuildCmd.PackageCreatorCall := fun p =>
  async
    (log Debug ("package creator, " +:+ answers (BuildCmd.pc_fileFilter p));;
     mret {| BuildCmd.extensionPath :=
               Path.join [BuildCmd.pc_artifactsDir p; "ext-1.0.zip"] |}).

Definition probing_watcher : BuildCmd.OnSourceChangeFn := fun p =>
  log Debug ("watcher, " +:+ answers (BuildCmd.shouldWatchFile p)).

Definition probing_options : BuildCmd.BuildCmdOptions :=
  {| BuildCmd.b_manifestData := None;
     BuildCmd.b_fileFilter := None;
     BuildCmd.b_onSourceChange := Some probing_watcher;
     BuildCmd.b_packageCreator := Some probing_creator;
     BuildCmd.b_showReadyMessage := None |}.

Definition ignore_files_world : World :=
  {| w_fs := Examples.ignore_files_fs; w_log := [] |}.

(** A source directory named [w[1]], with a [.wextignore] that ends with
    a line feed. *)
Definition bracket_options : UtilFileFilter.FileFilterOptions :=
  {| UtilFileFilter.baseIgnoredPatterns := None;
     UtilFileFilter.ignoreFiles := None;
     UtilFileFilter.sourceDir := "/w[1]";
     UtilFileFilter.artifactsDir := None |}.

Definition bracket_fs : Fs := fun p =>
  if String.eqb p "/w[1]/.wextignore" then File ("secret" +:+ String "010" "")
  else Missing.

(** The library on the patterns of this directory: the class [[1]] stands
    for the character [1], so [/w[1]] matches [/w1] and nothing else, and
    [/w[1]/secret] matches [/w1/secret]; the default patterns, which need
    two segments more, match neither. *)
Definition bracket_globs (p pattern : string) : bool :=
  (String.eqb pattern "/w[1]" && String.eqb p "/w1")
  || (String.eqb pattern "/w[1]/secret" && String.eqb p "/w1/secret").

End Samples.

(** * Properties *)

(** ** Strings and paths *)

Section StringFacts.

Lemma append_nil_r (s : string) : s +:+ "" = s.
Proof. induction s as [|c s IH]; simpl; [reflexivity | now rewrite IH]. Qed.

Lemma append_assoc (a b c : string) : (a +:+ b) +:+ c = a +:+ (b +:+ c).
Proof. induction a as [|x a IH]; simpl; [reflexivity | now rewrite IH]. Qed.

Lemma split_not_nil (sep : ascii) (s : string) : Str.split sep s <> [].
Proof.
  destruct s as [|c s]; simpl; [discriminate|].
  destruct (Ascii.eqb c sep); [discriminate|].
  destruct (Str.split sep s); discriminate.
Qed.

Lemma split_app (sep : ascii) (a b : string) :
  Str.split sep (a +:+ String sep b) = Str.split sep a ++ Str.split sep b.
Proof.
  induction a as [|c a IH]; simpl.
  - rewrite Ascii.eqb_refl. reflexivity.
  - destruct (Ascii.eqb c sep); rewrite IH; [reflexivity|].
    pose proof (split_not_nil sep a) as Hne.
    destruct (Str.split sep a); [contradiction | reflexivity].
Qed.

Lemma split_without (sep : ascii) (s : string) :
  Str.without sep s = true -> Str.split sep s = [s].
Proof.
  induction s as [|c s IH]; simpl; [reflexivity|].
  intros H. apply andb_true_iff in H as [Hc Hs].
  apply negb_true_iff in Hc. rewrite Hc, (IH Hs). reflexivity.
Qed.

Lemma split_parts_without (sep : ascii) (s : string) :
  Forall (fun seg => Str.without sep seg = true) (Str.split sep s).
Proof.
  induction s as [|c s IH]; simpl.
  - constructor; [reflexivity | constructor].
  - destruct (Ascii.eqb c sep) eqn:Hc.
    + constructor; [reflexivity | exact IH].
    + destruct (Str.split sep s) as [|seg segs].
      * constructor; [|constructor].
        unfold Str.without. simpl. rewrite Hc. reflexivity.
      * inversion IH; subst. constructor; [|assumption].
        unfold Str.without in *. simpl. rewrite Hc. simpl. assumption.
Qed.

Lemma join_cons (sep x y : string) (l : list string) :
  Str.join sep (x :: y :: l) = x +:+ sep +:+ Str.join sep (y :: l).
Proof. reflexivity. Qed.

Lemma split_join (sep : ascii) (l : list string) :
  l <> [] ->
  Forall (fun seg => Str.without sep seg = true) l ->
  Str.split sep (Str.join (String sep "") l) = l.
Proof.
  intros Hne Hall. induction Hall as [|x l Hx Hall IH]; [contradiction|].
  destruct l as [|y l].
  - simpl. apply split_without. exact Hx.
  - rewrite join_cons.
    change (String sep "" +:+ Str.join (String sep "") (y :: l))
      with (String sep (Str.join (String sep "") (y :: l))).
    rewrite split_app, (split_without sep x Hx), IH; [reflexivity|discriminate].
Qed.

End StringFacts.

Section PathFacts.

Lemma clean_eqb (seg : string) :
  Path.clean seg ->
  String.eqb seg "" = false /\ String.eqb seg "." = false
  /\ String.eqb seg ".." = false.
Proof.
  intros (H1 & H2 & H3 & _). repeat split; apply String.eqb_neq; assumption.
Qed.

Lemma normalize_segs_app (b : bool) (l1 l2 acc : list string) :
  Path.normalize_segs b acc (l1 ++ l2)
  = Path.normalize_segs b (rev (Path.normalize_segs b acc l1)) l2.
Proof.
  revert acc. induction l1 as [|s l1 IH]; intros acc; simpl.
  - rewrite rev_involutive. reflexivity.
  - destruct (String.eqb s "" || String.eqb s "."); [apply IH|].
    destruct (String.eqb s ".."); [|apply IH].
    destruct acc as [|top acc]; [apply IH|].
    destruct (String.eqb top ".."); apply IH.
Qed.

Lemma normalize_segs_clean (b : bool) (l acc : list string) :
  Forall Path.clean l ->
  Path.normalize_segs b acc l = rev acc ++ l.
Proof.
  intros Hl. revert acc. induction Hl as [|s l Hs Hl IH]; intros acc; simpl.
  - rewrite app_nil_r. reflexivity.
  - destruct (clean_eqb s Hs) as (-> & -> & ->). simpl.
    rewrite IH. simpl. rewrite <- app_assoc. reflexivity.
Qed.

Lemma normalize_segs_keeps_clean (l acc : list string) :
  Forall (fun seg => Str.without "/" seg = true) l ->
  Forall Path.clean acc ->
  Forall Path.clean (Path.normalize_segs false acc l).
Proof.
  intros Hl. revert acc. induction Hl as [|s l Hs Hl IH]; intros acc Hacc; simpl.
  - apply Forall_rev. exact Hacc.
  - destruct (String.eqb s "") eqn:E1; [apply IH; exact Hacc|].
    destruct (String.eqb s ".") eqn:E2; [apply IH; exact Hacc|]. simpl.
    destruct (String.eqb s "..") eqn:E3.
    + destruct acc as [|top acc]; [apply IH; constructor|].
      inversion Hacc; subst.
      destruct (String.eqb top ".."); apply IH; assumption.
    + apply IH. constructor; [|exact Hacc].
      apply String.eqb_neq in E1, E2, E3. repeat split; assumption.
Qed.

Variable cwd : string.
Hypothesis cwd_absolute : Path.isAbsolute cwd = true.

Lemma resolve_loop_absolute (rargs : list string) (acc : string) :
  snd (Path.resolve_loop cwd rargs acc) = true.
Proof.
  revert acc. induction rargs as [|p rargs IH]; intros acc; simpl.
  - destruct cwd; [discriminate|]. simpl. exact cwd_absolute.
  - destruct (Str.is_empty p); [apply IH|].
    destruct (Path.isAbsolute p); [reflexivity | apply IH].
Qed.

(** A resolved path is the slash followed by clean segments. *)
Lemma resolve_form (args : list string) :
  exists segs : list string,
    Forall Path.clean segs /\ Path.resolve cwd args = "/" +:+ Str.join "/" segs.
Proof.
  unfold Path.resolve.
  pose proof (resolve_loop_absolute (rev args) "") as Habs.
  destruct (Path.resolve_loop cwd (rev args) "") as [resolvedPath abs].
  simpl in Habs. subst abs. simpl.
  exists (Path.normalize_segs false [] (Str.split "/" resolvedPath)).
  split; [|reflexivity].
  apply normalize_segs_keeps_clean; [apply split_parts_without | constructor].
Qed.

Lemma exists_last_or_nil {A : Type} (l : list A) :
  l = [] \/ exists (front : list A) (last : A), l = front ++ [last].
Proof.
  destruct l as [|x l]; [left; reflexivity | right].
  destruct (exists_last (l := x :: l)) as (front & last & H);
    [discriminate|]. exists front, last. exact H.
Qed.

Lemma normalize_after_resolved (segs : list string) (rest : string) :
  Forall Path.clean segs ->
  Path.normalize_segs false []
    (Str.split "/" (("/" +:+ Str.join "/" segs) +:+ "/" +:+ rest))
  = Path.normalize_segs false (rev segs) (Str.split "/" rest).
Proof.
  intros Hsegs.
  change (("/" +:+ Str.join "/" segs) +:+ "/" +:+ rest)
    with (String "/" (Str.join "/" segs +:+ String "/" rest)).
  cbn [Str.split]. rewrite Ascii.eqb_refl, split_app.
  change (Path.normalize_segs false [] ("" :: ?l))
    with (Path.normalize_segs false [] l).
  rewrite normalize_segs_app. f_equal. f_equal.
  destruct segs as [|x segs]; [reflexivity|].
  rewrite split_join; [|discriminate|].
  - apply (normalize_segs_clean false _ [] Hsegs).
  - eapply Forall_impl; [exact Hsegs|]. intros seg (_ & _ & _ & H). exact H.
Qed.

Lemma resolved_is_absolute (segs : list string) :
  Path.isAbsolute ("/" +:+ Str.join "/" segs) = true.
Proof. reflexivity. Qed.

(** Resolving the empty path against a resolved directory gives the
    directory. *)
Lemma resolve_empty (segs : list string) :
  Forall Path.clean segs ->
  Path.resolve cwd ["/" +:+ Str.join "/" segs; ""]
  = "/" +:+ Str.join "/" segs.
Proof.
  intros Hsegs. unfold Path.resolve. cbn [rev app Path.resolve_loop Str.is_empty].
  rewrite resolved_is_absolute.
  change (Str.is_empty ("/" +:+ Str.join "/" segs)) with false. cbn [negb].
  unfold Path.normalizeString. rewrite (normalize_after_resolved _ _ Hsegs).
  simpl. rewrite rev_involutive. reflexivity.
Qed.

(** Resolving a resolved directory against itself gives it back. *)
Lemma resolve_self (segs : list string) :
  Forall Path.clean segs ->
  Path.resolve cwd ["/" +:+ Str.join "/" segs; "/" +:+ Str.join "/" segs]
  = "/" +:+ Str.join "/" segs.
Proof.
  intros Hsegs. unfold Path.resolve. cbn [rev app Path.resolve_loop].
  rewrite resolved_is_absolute.
  change (Str.is_empty ("/" +:+ Str.join "/" segs)) with false. cbn [negb].
  unfold Path.normalizeString. rewrite (normalize_after_resolved _ _ Hsegs).
  simpl. rewrite rev_involutive. reflexivity.
Qed.

Lemma clean_without (l : list string) :
  Forall Path.clean l -> Forall (fun seg => Str.without "/" seg = true) l.
Proof.
  intros H. eapply Forall_impl; [exact H|]. intros seg (_ & _ & _ & Hw).
  exact Hw.
Qed.

Lemma join_clean_relative (ys : list string) :
  Forall Path.clean ys -> ys <> [] ->
  Str.is_empty (Str.join "/" ys) = false
  /\ Path.isAbsolute (Str.join "/" ys) = false.
Proof.
  intros Hys Hne. destruct ys as [|y ys]; [contradiction|].
  inversion Hys as [|? ? (Hy & _ & _ & Hw) _]; subst.
  destruct y as [|c y]; [contradiction|].
  unfold Str.without in Hw. simpl in Hw.
  apply andb_true_iff in Hw as [Hc _]. apply negb_true_iff in Hc.
  destruct ys; simpl; rewrite Hc; split; reflexivity.
Qed.

(** Resolving a relative path of clean segments against a resolved
    directory appends the segments. *)
Lemma resolve_under (segs ys : list string) :
  Forall Path.clean segs -> Forall Path.clean ys -> ys <> [] ->
  Path.resolve cwd ["/" +:+ Str.join "/" segs; Str.join "/" ys]
  = "/" +:+ Str.join "/" (segs ++ ys).
Proof.
  intros Hsegs Hys Hne.
  destruct (join_clean_relative ys Hys Hne) as [Hempty Hrel].
  unfold Path.resolve. cbn [rev app Path.resolve_loop].
  rewrite Hempty, Hrel, resolved_is_absolute.
  change (Str.is_empty ("/" +:+ Str.join "/" segs)) with false. cbn [negb].
  unfold Path.normalizeString. rewrite (normalize_after_resolved _ _ Hsegs).
  change (Str.join "/" ys +:+ "/" +:+ "")
    with (Str.join "/" ys +:+ String "/" "").
  rewrite split_app, (split_join "/" ys Hne (clean_without ys Hys)).
  rewrite normalize_segs_app, (normalize_segs_clean false ys _ Hys).
  simpl. rewrite !rev_involutive. reflexivity.
Qed.

(** An absolute path of clean segments resolves to itself, whatever it is
    resolved against. *)
Lemma resolve_absolute_arg (base : string) (segs : list string) :
  Forall Path.clean segs ->
  Path.resolve cwd [base; "/" +:+ Str.join "/" segs]
  = "/" +:+ Str.join "/" segs.
Proof.
  intros Hsegs. unfold Path.resolve. cbn [rev app Path.resolve_loop].
  rewrite resolved_is_absolute.
  change (Str.is_empty ("/" +:+ Str.join "/" segs)) with false. cbn [negb].
  unfold Path.normalizeString. rewrite (normalize_after_resolved _ _ Hsegs).
  simpl. rewrite rev_involutive. reflexivity.
Qed.

Lemma ends_with_char_app (c d : ascii) (a b : string) :
  Str.ends_with_char c (a +:+ String d b) = Str.ends_with_char c (String d b).
Proof.
  induction a as [|x a IH]; [reflexivity|].
  change (String x a +:+ String d b) with (String x (a +:+ String d b)).
  cbn [Str.ends_with_char]. rewrite IH.
  destruct (a +:+ String d b) eqn:E; [|reflexivity].
  destruct a; discriminate E.
Qed.

(** [path.join(dir, '**', '*')] for a resolved directory. *)
Lemma join_glob_below (segs : list string) :
  Forall Path.clean segs ->
  Path.join ["/" +:+ Str.join "/" segs; "**"; "*"]
  = "/" +:+ Str.join "/" (segs ++ ["**"; "*"]).
Proof.
  intros Hsegs. unfold Path.join.
  cbn [List.filter Str.is_empty negb String.append].
  unfold Path.normalize.
  set (joined := Str.join "/" [String "/" (Str.join "/" segs); "**"; "*"]).
  assert (Hclean : Forall Path.clean ["**"; "*"])
    by (repeat constructor; discriminate).
  assert (Hnorm :
    Path.normalizeString joined false = Str.join "/" (segs ++ ["**"; "*"])).
  { unfold Path.normalizeString.
    change joined with (("/" +:+ Str.join "/" segs) +:+ "/" +:+ "**/*").
    rewrite (normalize_after_resolved _ _ Hsegs).
    change (Str.split "/" "**/*") with ["**"; "*"].
    rewrite (normalize_segs_clean false _ _ Hclean), rev_involutive.
    reflexivity. }
  assert (Hend : Str.ends_with_char "/" joined = false).
  { change joined with (("/" +:+ Str.join "/" segs) +:+ String "/" "**/*").
    rewrite ends_with_char_app. reflexivity. }
  change (Str.is_empty joined) with false.
  change (Path.isAbsolute joined) with true.
  cbn [negb]. rewrite Hnorm, Hend.
  destruct (join_clean_relative (segs ++ ["**"; "*"])) as [Hne _].
  - apply Forall_app. split; assumption.
  - intros H. apply app_eq_nil in H as [_ H]. discriminate.
  - rewrite Hne. reflexivity.
Qed.

(** The segments of a resolved path. *)
Lemma path_segs_resolved (segs : list string) :
  Forall Path.clean segs ->
  Path.path_segs ("/" +:+ Str.join "/" segs) = segs.
Proof.
  intros Hsegs. unfold Path.path_segs.
  change ("/" +:+ Str.join "/" segs) with (String "/" (Str.join "/" segs)).
  cbn [Str.split]. rewrite Ascii.eqb_refl. cbn [List.filter Str.is_empty negb].
  destruct segs as [|x segs]; [reflexivity|].
  rewrite split_join; [|discriminate | apply clean_without; exact Hsegs].
  induction Hsegs as [|y l (Hy & _) _ IH]; [reflexivity|].
  cbn [List.filter]. destruct y; [contradiction|].
  cbn [Str.is_empty negb]. rewrite IH. reflexivity.
Qed.

Lemma resolve_single (segs : list string) :
  Forall Path.clean segs ->
  Path.resolve cwd ["/" +:+ Str.join "/" segs] = "/" +:+ Str.join "/" segs.
Proof.
  intros Hsegs. unfold Path.resolve. cbn [rev app Path.resolve_loop].
  rewrite resolved_is_absolute.
  change (Str.is_empty ("/" +:+ Str.join "/" segs)) with false. cbn [negb].
  unfold Path.normalizeString. rewrite (normalize_after_resolved _ _ Hsegs).
  simpl. rewrite rev_involutive. reflexivity.
Qed.

Lemma drop_common_prefix (xs extra : list string) :
  Path.drop_common xs (xs ++ extra) = ([], extra).
Proof.
  induction xs as [|x xs IH]; simpl.
  - destruct extra; reflexivity.
  - rewrite String.eqb_refl. exact IH.
Qed.

(** What [drop_common] leaves: the two lists without a common front. *)
Lemma drop_common_spec (xs ys xs' ys' : list string) :
  Path.drop_common xs ys = (xs', ys') ->
  exists common : list string, xs = common ++ xs' /\ ys = common ++ ys'.
Proof.
  revert ys. induction xs as [|x xs IH]; intros ys H; simpl in H.
  - injection H as <- <-. exists []. split; reflexivity.
  - destruct ys as [|y ys].
    + injection H as <- <-. exists []. split; reflexivity.
    + destruct (String.eqb x y) eqn:E.
      * apply String.eqb_eq in E. subst y.
        destruct (IH ys H) as (common & -> & ->).
        exists (x :: common). split; reflexivity.
      * injection H as <- <-. exists []. split; reflexivity.
Qed.

(** A path that climbs begins with [..]. *)
Lemma climbing_relative (f : string) (fromRest toRest : list string) :
  let relate :=
    Str.join "/" (map (fun _ : string => "..") (f :: fromRest) ++ toRest) in
  String.eqb relate ".." = true \/ Str.startsWith "../" relate = true.
Proof.
  destruct fromRest as [|g fromRest]; [destruct toRest as [|r toRest]|];
    cbn; auto.
Qed.

Lemma clean_not_dotdot (x tail : string) :
  Path.clean x -> String.eqb (x +:+ tail) ".." = false.
Proof.
  intros (Hx & Hdot & Hdots & _). apply String.eqb_neq. intros H.
  destruct x as [|a [|b [|c x]]]; cbn [String.append] in H.
  - contradiction.
  - injection H as -> _. contradiction.
  - injection H as -> -> _. contradiction.
  - discriminate H.
Qed.

Lemma clean_not_climbing (x tail : string) :
  Path.clean x -> Str.startsWith "../" (x +:+ tail) = false.
Proof.
  intros (Hx & Hdot & Hdots & Hw).
  destruct (Str.startsWith "../" (x +:+ tail)) eqn:E; [exfalso|reflexivity].
  destruct x as [|a [|b [|c x]]]; cbn [String.append Str.startsWith] in E.
  - contradiction.
  - apply andb_true_iff in E as [Ea _]. apply Ascii.eqb_eq in Ea. subst a.
    contradiction.
  - apply andb_true_iff in E as [Ea E]. apply andb_true_iff in E as [Eb _].
    apply Ascii.eqb_eq in Ea, Eb. subst a b. contradiction.
  - apply andb_true_iff in E as [_ E]. apply andb_true_iff in E as [_ E].
    apply andb_true_iff in E as [Ec _]. apply Ascii.eqb_eq in Ec. subst c.
    unfold Str.without in Hw. cbn [Str.forall_chars] in Hw.
    apply andb_true_iff in Hw as [_ Hw]. apply andb_true_iff in Hw as [_ Hw].
    apply andb_true_iff in Hw as [Hc _]. discriminate Hc.
Qed.

(** A path of clean segments does not climb. *)
Lemma descending_relative (extra : list string) :
  Forall Path.clean extra -> extra <> [] ->
  let relate := Str.join "/" extra in
  Str.is_empty relate = false
  /\ String.eqb relate ".." = false
  /\ Str.startsWith "../" relate = false.
Proof.
  intros Hextra Hne relate.
  destruct (join_clean_relative extra Hextra Hne) as [Hempty _].
  split; [exact Hempty|].
  destruct extra as [|x extra]; [contradiction|].
  inversion Hextra as [|? ? Hx _]; subst.
  assert (Hrel : exists tail : string, relate = x +:+ tail).
  { unfold relate. destruct extra as [|y extra].
    - exists "". cbn. rewrite append_nil_r. reflexivity.
    - exists ("/" +:+ Str.join "/" (y :: extra)). apply join_cons. }
  destruct Hrel as [tail ->].
  split; [apply clean_not_dotdot | apply clean_not_climbing]; exact Hx.
Qed.

End PathFacts.

(** ** Patterns that stand for themselves *)

Section GlobFacts.

Import Minimatch.

Lemma has_star_cons (c : ascii) (s : string) :
  has_star (String c s) = Ascii.eqb c "*" || has_star s.
Proof.
  unfold has_star. simpl. destruct (Ascii.eqb c "*"); reflexivity.
Qed.

Lemma split_parts_no_star (s : string) :
  has_star s = false ->
  Forall (fun seg => has_star seg = false) (Str.split "/" s).
Proof.
  induction s as [|c s IH]; intros H.
  - constructor; [reflexivity | constructor].
  - rewrite has_star_cons in H. apply orb_false_iff in H as [Hc Hs].
    specialize (IH Hs). simpl.
    destruct (Ascii.eqb c "/").
    + constructor; [reflexivity | exact IH].
    + destruct (Str.split "/" s) as [|seg segs].
      * constructor; [|constructor]. rewrite has_star_cons, Hc. reflexivity.
      * inversion IH; subst. constructor; [|assumption].
        rewrite has_star_cons, Hc. assumption.
Qed.

Lemma drop_inner_empty_Forall (P : string -> Prop) (l : list string) :
  Forall P l -> Forall P (drop_inner_empty l).
Proof.
  induction l as [|x l IH]; intros H; [constructor|].
  inversion H as [|? ? Hx Hl]; subst. specialize (IH Hl).
  cbn [drop_inner_empty]. destruct l as [|y l]; [exact H|].
  destruct (Str.is_empty x); [exact IH | constructor; assumption].
Qed.

Lemma slashSplit_no_star (s : string) :
  has_star s = false ->
  Forall (fun seg => has_star seg = false) (slashSplit s).
Proof.
  intros H. unfold slashSplit. pose proof (split_parts_no_star s H) as Hall.
  destruct (Str.split "/" s) as [|x rest]; [constructor|].
  inversion Hall; subst. constructor; [assumption|].
  apply drop_inner_empty_Forall. assumption.
Qed.

Lemma parse_no_star (s : string) : has_star s = false -> parse s = Literal s.
Proof.
  intros H. unfold parse. rewrite H.
  destruct (String.eqb s "**") eqn:E; [|reflexivity].
  apply String.eqb_eq in E. subst s. discriminate H.
Qed.

Lemma matchOne_literals (segs : list string) :
  Forall (fun seg => has_star seg = false) segs ->
  matchOne (map parse segs) segs = true.
Proof.
  induction 1 as [|seg segs Hseg Hall IH]; [reflexivity|].
  cbn [map matchOne]. rewrite (parse_no_star seg Hseg), String.eqb_refl.
  exact IH.
Qed.

(** A path without wildcard, taken as a pattern, matches itself. *)
Lemma glob_self (s : string) : has_star s = false -> glob s s = true.
Proof.
  intros H. unfold glob. destruct (Str.is_empty s); [reflexivity|].
  apply matchOne_literals, slashSplit_no_star, H.
Qed.

Lemma minimatch_self (other_globs : string -> string -> bool) (s : string) :
  literal s = true -> minimatch other_globs s s = true.
Proof.
  unfold literal, minimatch. intros H. apply andb_true_iff in H as [Hf Hs].
  rewrite Hf. apply glob_self. apply negb_true_iff. exact Hs.
Qed.

Lemma forall_chars_app (P : ascii -> bool) (a b : string) :
  Str.forall_chars P (a +:+ b)
  = Str.forall_chars P a && Str.forall_chars P b.
Proof.
  induction a as [|c a IH]; simpl; [reflexivity|].
  rewrite IH, andb_assoc. reflexivity.
Qed.

Lemma forall_chars_join (P : ascii -> bool) (l : list string) :
  P "/"%char = true ->
  Str.forall_chars P (Str.join "/" l) = forallb (Str.forall_chars P) l.
Proof.
  intros Hsep. induction l as [|x l IH]; [reflexivity|].
  destruct l as [|y l].
  - simpl. rewrite andb_true_r. reflexivity.
  - rewrite join_cons, !forall_chars_app, IH. simpl. rewrite Hsep. reflexivity.
Qed.

(** The segments of a literal resolved path are literal. *)
Lemma literal_segments (l : list string) :
  literal ("/" +:+ Str.join "/" l) = true ->
  forallb plain l = true
  /\ Forall (fun seg => has_star seg = false) l.
Proof.
  unfold literal, in_fragment, plain, has_star. intros H.
  apply andb_true_iff in H as [Hf Hs]. rewrite negb_involutive in Hs.
  apply andb_true_iff in Hf as [Hf _].
  cbn [String.append Str.forall_chars] in Hf, Hs.
  rewrite forall_chars_join in Hf, Hs by reflexivity.
  simpl in Hf. split; [exact Hf|].
  simpl in Hs. apply List.Forall_forall. intros seg Hin.
  rewrite forallb_forall in Hs. rewrite (Hs seg Hin). reflexivity.
Qed.

Lemma ends_with_char_resolved (c : ascii) (l : list string) (x : string) :
  x <> "" ->
  Str.ends_with_char c ("/" +:+ Str.join "/" (l ++ [x]))
  = Str.ends_with_char c x.
Proof.
  intros Hx. destruct x as [|d x]; [contradiction|].
  assert (Hsplit : exists a : string,
            "/" +:+ Str.join "/" (l ++ [String d x]) = a +:+ String d x).
  { induction l as [|y l [a IH]].
    - exists "/". reflexivity.
    - destruct l as [|z l].
      + exists ("/" +:+ y +:+ "/"). cbn [app]. rewrite join_cons.
        rewrite !append_assoc. reflexivity.
      + cbn [app] in *. rewrite join_cons.
        change ("/" +:+ Str.join "/" (z :: l ++ [String d x]))
          with (String "/" (Str.join "/" (z :: l ++ [String d x]))) in IH.
        exists ("/" +:+ y +:+ a).
        change ("/" +:+ Str.join "/" (z :: l ++ [String d x]))
          with (String "/" (Str.join "/" (z :: l ++ [String d x]))).
        rewrite IH, !append_assoc. reflexivity. }
  destruct Hsplit as [a ->]. apply ends_with_char_app.
Qed.

Lemma in_fragment_plain (s : string) : in_fragment s = true -> plain s = true.
Proof. unfold in_fragment. intros H. apply andb_true_iff in H. apply H. Qed.

(** A resolved directory of plain segments, followed by segments of the
    fragment, is a pattern of the fragment. *)
Lemma in_fragment_below (segs psuf : list string) :
  forallb plain segs = true ->
  forallb in_fragment psuf = true ->
  Forall Path.clean psuf -> psuf <> [] ->
  in_fragment ("/" +:+ Str.join "/" (segs ++ psuf)) = true.
Proof.
  intros Hsegs Hpsuf Hclean Hne. unfold in_fragment at 1.
  apply andb_true_iff. split.
  - unfold plain. cbn [String.append Str.forall_chars].
    rewrite forall_chars_join by reflexivity.
    change (forallb (Str.forall_chars plain_char) (segs ++ psuf))
      with (forallb plain (segs ++ psuf)).
    rewrite forallb_app, Hsegs. cbn [andb].
    rewrite forallb_forall in Hpsuf. apply andb_true_iff. split; [reflexivity|].
    apply forallb_forall. intros x Hx. apply in_fragment_plain, Hpsuf, Hx.
  - destruct (exists_last_or_nil psuf) as [->|(front & last & ->)];
      [contradiction|].
    assert (Hlast : Path.clean last /\ in_fragment last = true).
    { split.
      - apply Forall_app in Hclean as [_ Hc]. inversion Hc; assumption.
      - rewrite forallb_forall in Hpsuf. apply Hpsuf.
        apply in_or_app. right. left. reflexivity. }
    destruct Hlast as [(Hx & _) Hfrag].
    unfold in_fragment in Hfrag. apply andb_true_iff in Hfrag as [_ Ht].
    unfold trimmed in *. apply negb_true_iff in Ht.
    apply orb_false_iff in Ht as [Ht H4].
    apply orb_false_iff in Ht as [_ H3].
    rewrite app_assoc, !ends_with_char_resolved by exact Hx.
    rewrite H3, H4. reflexivity.
Qed.

Lemma drop_inner_empty_id (l : list string) :
  Forall (fun seg => Str.is_empty seg = false) l -> drop_inner_empty l = l.
Proof.
  induction 1 as [|x l Hx Hl IH]; [reflexivity|].
  cbn [drop_inner_empty]. destruct l as [|y l]; [reflexivity|].
  rewrite Hx, IH. reflexivity.
Qed.

Lemma clean_not_empty (l : list string) :
  Forall Path.clean l -> Forall (fun seg => Str.is_empty seg = false) l.
Proof.
  intros H. eapply Forall_impl; [exact H|]. intros seg (Hne & _).
  destruct seg; [contradiction | reflexivity].
Qed.

(** The segments [minimatch] sees in a resolved path. *)
Lemma slashSplit_resolved (l : list string) :
  Forall Path.clean l -> l <> [] ->
  slashSplit ("/" +:+ Str.join "/" l) = "" :: l.
Proof.
  intros Hl Hne. unfold slashSplit.
  change ("/" +:+ Str.join "/" l) with (String "/" (Str.join "/" l)).
  cbn [Str.split]. rewrite Ascii.eqb_refl.
  rewrite (split_join "/" l Hne (clean_without l Hl)).
  rewrite (drop_inner_empty_id l (clean_not_empty l Hl)). reflexivity.
Qed.

Lemma matchOne_literal_prefix (lits : list string) (ps : list part)
  (fs : list string) :
  Forall (fun seg => has_star seg = false) lits ->
  matchOne (map parse lits ++ ps) (lits ++ fs) = matchOne ps fs.
Proof.
  induction 1 as [|seg lits Hseg Hall IH]; [reflexivity|].
  cbn [map app matchOne].
  rewrite (parse_no_star seg Hseg), String.eqb_refl. exact IH.
Qed.

(** The loop of the globstar, one step. *)
Lemma globstar_unfold (p : part) (ps : list part) (x : string)
  (rest : list string) :
  matchOne (GLOBSTAR :: p :: ps) (x :: rest)
  = matchOne (p :: ps) (x :: rest)
    || (negb (unswallowable x) && matchOne (GLOBSTAR :: p :: ps) rest).
Proof. destruct rest; reflexivity. Qed.

Lemma visible_swallowable (seg : string) :
  visible seg = true -> unswallowable seg = false.
Proof.
  unfold visible, unswallowable. destruct seg as [|d seg]; [discriminate|].
  intros H. apply andb_true_iff in H as [H _].
  apply andb_true_iff in H as [Hdot _]. apply negb_true_iff in Hdot.
  cbn [Str.starts_with_char]. rewrite Hdot, orb_false_r.
  apply orb_false_iff. split; apply String.eqb_neq; intros [= -> _];
    discriminate Hdot.
Qed.

Lemma visible_clean (seg : string) : visible seg = true -> Path.clean seg.
Proof.
  intros H. pose proof (visible_swallowable seg H) as Hs.
  unfold unswallowable in Hs.
  apply orb_false_iff in Hs as [Hs _]. apply orb_false_iff in Hs as [H1 H2].
  apply String.eqb_neq in H1, H2.
  unfold visible in H. apply andb_true_iff in H as [Hd Hw].
  repeat split; try assumption.
  intros ->. discriminate Hd.
Qed.

(** A globstar swallows visible segments. *)
Lemma globstar_swallow (p : part) (ps : list part) (xs fs : list string) :
  Forall (fun seg => visible seg = true) xs ->
  fs <> [] ->
  matchOne (p :: ps) fs = true ->
  matchOne (GLOBSTAR :: p :: ps) (xs ++ fs) = true.
Proof.
  intros Hxs Hne Hm. induction Hxs as [|x xs Hx Hxs IH].
  - destruct fs as [|f fs]; [contradiction|].
    cbn [app]. rewrite globstar_unfold, Hm. reflexivity.
  - cbn [app]. rewrite globstar_unfold, IH, (visible_swallowable x Hx).
    apply orb_true_r.
Qed.

Lemma re_match_star (seg : string) :
  Str.without "/" seg = true -> re_match [Star] seg = true.
Proof.
  induction seg as [|d seg IH]; [reflexivity|].
  unfold Str.without. cbn [Str.forall_chars]. intros H.
  apply andb_true_iff in H as [Hd Hs].
  change (re_match [Star] (String d seg))
    with (re_match [] (String d seg)
          || (negb (Ascii.eqb d "/") && re_match [Star] seg)).
  rewrite Hd, (IH Hs). apply orb_true_r.
Qed.

(** [*] matches every visible segment. *)
Lemma star_matches_visible (seg : string) :
  visible seg = true -> magic_match [Star] seg = true.
Proof.
  unfold visible, magic_match. destruct seg as [|d seg]; [discriminate|].
  intros H. apply andb_true_iff in H as [H Hw].
  apply andb_true_iff in H as [Hdot Hlt].
  rewrite Hdot, Hlt, (re_match_star _ Hw). reflexivity.
Qed.

(** Below a literal directory, a path matches a pattern when what is left
    of the path matches what is left of the pattern. *)
Lemma glob_below (segs psuf fsuf : list string) :
  Forall Path.clean segs ->
  Forall (fun seg => has_star seg = false) segs ->
  Forall Path.clean psuf -> psuf <> [] ->
  Forall Path.clean fsuf -> fsuf <> [] ->
  glob ("/" +:+ Str.join "/" (segs ++ fsuf))
    ("/" +:+ Str.join "/" (segs ++ psuf))
  = matchOne (map parse psuf) fsuf.
Proof.
  intros Hsegs Hlit Hp Hpne Hf Hfne. unfold glob.
  change (Str.is_empty ("/" +:+ Str.join "/" (segs ++ psuf))) with false.
  cbv iota.
  rewrite !slashSplit_resolved;
    try (apply Forall_app; split; assumption);
    try (intros Heq; apply app_eq_nil in Heq as [_ Heq]; contradiction).
  change ("" :: segs ++ psuf) with (("" :: segs) ++ psuf).
  change ("" :: segs ++ fsuf) with (("" :: segs) ++ fsuf).
  rewrite map_app. apply matchOne_literal_prefix.
  constructor; [reflexivity | exact Hlit].
Qed.

End GlobFacts.

(** ** [wantFile] of [src/util/file-filter.js] *)

Section WantFile.

Variable cwd : string.
Variable other_globs : string -> string -> bool.

Import UtilFileFilter.

Lemma first_match_None (path : string) (tests : list string) :
  first_match other_globs path tests = None
  <-> forall test, In test tests ->
        Minimatch.minimatch other_globs path test = false.
Proof.
  induction tests as [|t tests IH]; simpl.
  - split; [intros _ test [] | reflexivity].
  - destruct (Minimatch.minimatch other_globs path t) eqn:Ht.
    + split; [discriminate|].
      intros H. specialize (H t (or_introl eq_refl)). congruence.
    + rewrite IH. split.
      * intros H test [<-|Hin]; [exact Ht | exact (H test Hin)].
      * intros H test Hin. apply H. right. exact Hin.
Qed.

Lemma first_match_Some (path : string) (tests : list string) (test : string) :
  first_match other_globs path tests = Some test ->
  In test tests /\ Minimatch.minimatch other_globs path test = true.
Proof.
  induction tests as [|t tests IH]; simpl; [discriminate|].
  destruct (Minimatch.minimatch other_globs path t) eqn:Ht.
  - intros [= <-]. split; [left; reflexivity | exact Ht].
  - intros H. destruct (IH H) as [Hin Hm]. split; [right; exact Hin | exact Hm].
Qed.

Lemma wantFile_true_iff (this : FileFilter) (filePath : string) :
  wantFile cwd other_globs this filePath = true
  <-> forall test, In test (filesToIgnore this) ->
        Minimatch.minimatch other_globs
          (resolveWithSourceDir cwd this filePath) test = false.
Proof.
  unfold wantFile. rewrite <- first_match_None.
  destruct (first_match _ _ _); split; congruence.
Qed.

Lemma wantFile_false_iff (this : FileFilter) (filePath : string) :
  wantFile cwd other_globs this filePath = false
  <-> exists test, In test (filesToIgnore this)
        /\ Minimatch.minimatch other_globs
             (resolveWithSourceDir cwd this filePath) test = true.
Proof.
  split.
  - intros H. unfold wantFile in H.
    destruct (first_match _ _ _) as [test|] eqn:Hf; [|discriminate].
    exists test. exact (first_match_Some _ _ _ Hf).
  - intros (test & Hin & Hm).
    destruct (wantFile cwd other_globs this filePath) eqn:Hw; [|reflexivity].
    rewrite wantFile_true_iff in Hw. rewrite (Hw test Hin) in Hm. discriminate.
Qed.

(** C8: the answer of [wantFile] is false exactly when some stored pattern
    matches the resolved path, so two filters on the same source directory
    whose pattern lists are permutations of each other give the same answer
    for every path; only the pattern named in the diagnostic can differ. *)
Theorem wantFile_order_independent (this1 this2 : FileFilter)
  (filePath : string) :
  this_sourceDir this1 = this_sourceDir this2 ->
  Permutation (filesToIgnore this1) (filesToIgnore this2) ->
  wantFile cwd other_globs this1 filePath
  = wantFile cwd other_globs this2 filePath
  /\ (wantFile cwd other_globs this1 filePath = false
      <-> exists test, In test (filesToIgnore this1)
            /\ Minimatch.minimatch other_globs
                 (resolveWithSourceDir cwd this1 filePath) test = true).
Proof.
  intros Hdir Hperm. split; [|apply wantFile_false_iff].
  destruct (wantFile cwd other_globs this2 filePath) eqn:H2.
  - rewrite wantFile_true_iff in *. intros test Hin.
    unfold resolveWithSourceDir in *. rewrite Hdir. apply H2.
    eapply Permutation_in; eassumption.
  - rewrite wantFile_false_iff in *. destruct H2 as (test & Hin & Hm).
    exists test. unfold resolveWithSourceDir in *. rewrite Hdir.
    split; [|exact Hm].
    eapply Permutation_in; [apply Permutation_sym|]; eassumption.
Qed.

End WantFile.

(** Two patterns in either order, and a hidden file that one of them
    matches. *)
Lemma wantFile_order_independent_witness :
  UtilFileFilter.wantFile "/w" Examples.no_other_globs
    Examples.two_patterns "a/.secret"
  = UtilFileFilter.wantFile "/w" Examples.no_other_globs
      Examples.two_patterns_swapped "a/.secret"
  /\ (UtilFileFilter.wantFile "/w" Examples.no_other_globs
        Examples.two_patterns "a/.secret" = false
      <-> exists test,
            In test (UtilFileFilter.filesToIgnore Examples.two_patterns)
            /\ Minimatch.minimatch Examples.no_other_globs
                 (UtilFileFilter.resolveWithSourceDir "/w"
                    Examples.two_patterns "a/.secret") test = true).
Proof.
  apply (wantFile_order_independent "/w" Examples.no_other_globs
           Examples.two_patterns Examples.two_patterns_swapped "a/.secret").
  - reflexivity.
  - simpl. apply perm_swap.
Defined.

(** ** [safeFileName] and the name of the archive *)

Section SafeFileName.

Import BuildCmd.

Lemma underscore_unsafe : safe_char "_" = false.
Proof. reflexivity. Qed.

Lemma safe_char_not_underscore (c : ascii) :
  safe_char c = true -> Ascii.eqb c "_" = false.
Proof.
  intros H. destruct (Ascii.eqb c "_") eqn:E; [|reflexivity].
  apply Ascii.eqb_eq in E. subst c. discriminate H.
Qed.

Lemma squeeze_cons_other (c : ascii) (s : string) :
  Ascii.eqb c "_" = false ->
  squeeze_underscores (String c s) = String c (squeeze_underscores s).
Proof.
  intros H. simpl. rewrite H. destruct s; reflexivity.
Qed.

Lemma replace_unsafe_squeeze (s : string) :
  replace_unsafe false s = squeeze_underscores (replace_every_char s)
  /\ String "_" (replace_unsafe true s)
     = squeeze_underscores (String "_" (replace_every_char s)).
Proof.
  induction s as [|c s [IHf IHt]].
  - split; reflexivity.
  - unfold replace_every_char in *. cbn [replace_unsafe Str.map_chars].
    destruct (safe_char c) eqn:Hc.
    + pose proof (safe_char_not_underscore c Hc) as Hu.
      rewrite (squeeze_cons_other c _ Hu). split.
      * rewrite IHf. reflexivity.
      * change (squeeze_underscores (String "_" (String c ?x)))
          with (if (Ascii.eqb "_" "_" && Ascii.eqb c "_")%bool
                then squeeze_underscores (String c x)
                else String "_" (squeeze_underscores (String c x))).
        rewrite Hu, andb_false_r.
        rewrite (squeeze_cons_other c _ Hu), IHf. reflexivity.
    + split; [exact IHt|].
      rewrite IHt.
      change (squeeze_underscores (String "_" (String "_" ?x)))
        with (squeeze_underscores (String "_" x)).
      reflexivity.
Qed.

Lemma replace_unsafe_chars (in_run : bool) (s : string) :
  Str.forall_chars (fun c => safe_char c || Ascii.eqb c "_")
    (replace_unsafe in_run s) = true.
Proof.
  revert in_run. induction s as [|c s IH]; intros in_run; [reflexivity|].
  cbn [replace_unsafe]. destruct (safe_char c) eqn:Hc.
  - cbn [Str.forall_chars]. rewrite Hc, IH. reflexivity.
  - destruct in_run; [apply IH|].
    cbn [Str.forall_chars]. rewrite IH. reflexivity.
Qed.

(** C4 (as amended): the archive name is the lower-cased
    [name-version.zip] in which every run of characters outside
    [[a-z0-9.-]] has become one underscore: it is what replacing each such
    character gives once the runs of underscores are made one, it holds
    only characters of the class and underscores, and for ["My Ext!"] and
    ["1.0"] it is ["my_ext_-1.0.zip"]. *)
Theorem packageName_runs_collapsed (extensionName version : string) :
  packageName_of extensionName version
  = squeeze_underscores (packageName_every_char extensionName version)
  /\ Str.forall_chars (fun c => safe_char c || Ascii.eqb c "_")
       (packageName_of extensionName version) = true
  /\ packageName_of "My Ext!" "1.0" = "my_ext_-1.0.zip".
Proof.
  split; [|split].
  - unfold packageName_of, packageName_every_char, safeFileName.
    apply replace_unsafe_squeeze.
  - apply replace_unsafe_chars.
  - reflexivity.
Qed.

(** C4 (as stated) fails: two characters outside the class in a row give
    one underscore, not one each. *)
Lemma packageName_not_every_char :
  packageName_of "My  Ext" "1.0" = "my_ext-1.0.zip"
  /\ packageName_every_char "My  Ext" "1.0" = "my__ext-1.0.zip"
  /\ packageName_of "My  Ext" "1.0" <> packageName_every_char "My  Ext" "1.0".
Proof.
  split; [reflexivity|]. split; [reflexivity|]. discriminate.
Qed.

End SafeFileName.

(** ** Localization of the extension name *)

Section Localization.

Import BuildCmd.

Lemma startsWith_app (p s : string) :
  Str.startsWith p s = true -> s = p +:+ drop (String.length p) s.
Proof.
  revert s. induction p as [|c p IH]; intros s H; simpl in *.
  - destruct s; reflexivity.
  - destruct s as [|d s]; [discriminate|].
    apply andb_true_iff in H as [Hc Hp]. apply Ascii.eqb_eq in Hc. subst d.
    simpl. f_equal. apply IH. exact Hp.
Qed.

Lemma key_then_close_sound (s key rest : string) :
  key_then_close s = Some (key, rest) ->
  s = key +:+ "__" +:+ rest
  /\ key <> "" /\ Str.forall_chars key_char key = true.
Proof.
  revert key rest.
  induction s as [|c s IH]; intros key rest H; cbn [key_then_close] in H.
  - discriminate.
  - destruct (key_char c) eqn:Hc; [|discriminate].
    destruct (Str.startsWith "__" s) eqn:Hs.
    + injection H as <- <-. split; [|split].
      * simpl. f_equal. apply (startsWith_app "__" s Hs).
      * discriminate.
      * simpl. rewrite Hc. reflexivity.
    + destruct (key_then_close s) as [[k r]|] eqn:Hk; [|discriminate].
      injection H as <- <-. destruct (IH k r eq_refl) as (Hs' & _ & Hchars).
      split; [|split].
      * simpl. f_equal. exact Hs'.
      * discriminate.
      * simpl. rewrite Hc. exact Hchars.
Qed.

(** What the regular expression matches at the front of a string is a
    token. *)
Lemma match_token_sound (s key rest : string) :
  match_token s = Some (key, rest) ->
  s = "__MSG_" +:+ key +:+ "__" +:+ rest
  /\ key <> "" /\ Str.forall_chars key_char key = true.
Proof.
  unfold match_token. intros H.
  destruct (Str.startsWith "__MSG_" s) eqn:Hs; [|discriminate].
  destruct (key_then_close_sound _ _ _ H) as (Hd & Hne & Hchars).
  split; [|split; assumption].
  rewrite (startsWith_app "__MSG_" s Hs) at 1.
  change (String.length "__MSG_") with 6. rewrite Hd. reflexivity.
Qed.

Lemma drop_0 (s : string) : drop 0 s = s.
Proof. destruct s; reflexivity. Qed.

Lemma replace_tokens_no_token (callback : string -> Result string)
  (s : string) (skip : nat) :
  scan_tokens skip s = [] ->
  replace_tokens callback skip s = Ok (drop skip s).
Proof.
  revert skip. induction s as [|c s IH]; intros skip H.
  - destruct skip; reflexivity.
  - destruct skip as [|n].
    + cbn [scan_tokens replace_tokens] in *.
      destruct (match_token (String c s)) as [[key rest]|]; [discriminate|].
      rewrite (IH 0 H), drop_0. reflexivity.
    + cbn [scan_tokens replace_tokens] in *. rewrite (IH n H). reflexivity.
Qed.

(** The replacement fails with the error of the first token that the
    callback refuses. *)
Lemma replace_tokens_first_error (callback : string -> Result string)
  (s : string) (skip : nat) (key : string) (e : Error) :
  find (fun k => match callback k with Err _ => true | Ok _ => false end)
    (scan_tokens skip s) = Some key ->
  callback key = Err e ->
  replace_tokens callback skip s = Err e.
Proof.
  revert skip. induction s as [|c s IH]; intros skip Hfind Hkey.
  - destruct skip; discriminate.
  - destruct skip as [|n]; cbn [scan_tokens replace_tokens] in *.
    + destruct (match_token (String c s)) as [[k rest]|].
      * cbn [find] in Hfind. destruct (callback k) as [out|e'] eqn:Hk.
        -- rewrite (IH _ Hfind Hkey). reflexivity.
        -- injection Hfind as ->. congruence.
      * rewrite (IH _ Hfind Hkey). reflexivity.
    + apply IH; assumption.
Qed.

Lemma find_pointwise {A : Type} (f g : A -> bool) (l : list A) :
  (forall a, f a = g a) -> find f l = find g l.
Proof.
  intros H. induction l as [|a l IH]; [reflexivity|].
  simpl. rewrite H, IH. reflexivity.
Qed.

Lemma lookup_message_missing (file : string) (md : LocalizedMessageData)
  (key : string) :
  missing_key md key = true ->
  lookup_message file md key
  = Err (UsageError ("The locale file " +:+ file
                     +:+ " is missing key: " +:+ key)).
Proof.
  unfold missing_key, lookup_message.
  destruct (md !! key) as [entry|]; [|reflexivity].
  destruct (truthy (message entry)); [discriminate | reflexivity].
Qed.

Lemma lookup_message_refuses (file : string) (md : LocalizedMessageData)
  (key : string) :
  match lookup_message file md key with Err _ => true | Ok _ => false end
  = missing_key md key.
Proof.
  unfold missing_key, lookup_message.
  destruct (md !! key) as [entry|]; [|reflexivity].
  destruct (truthy (message entry)); reflexivity.
Qed.

Lemma contains_token_cons (c : ascii) (s key : string) :
  contains_token s key -> contains_token (String c s) key.
Proof.
  intros (before & after & -> & Hne & Hchars).
  exists (String c before), after. repeat split; assumption.
Qed.

(** The tokens that the replacement finds are tokens of the name. *)
Lemma scan_tokens_contained (s key : string) (skip : nat) :
  In key (scan_tokens skip s) -> contains_token s key.
Proof.
  revert skip. induction s as [|c s IH]; intros skip Hin.
  - destruct skip; destruct Hin.
  - destruct skip as [|n]; cbn [scan_tokens] in Hin.
    + destruct (match_token (String c s)) as [[k rest]|] eqn:Hm.
      * destruct Hin as [<-|Hin].
        -- destruct (match_token_sound _ _ _ Hm) as (Hs & Hne & Hchars).
           exists "", rest. repeat split; assumption.
        -- apply contains_token_cons. exact (IH _ Hin).
      * apply contains_token_cons. exact (IH _ Hin).
    + apply contains_token_cons. exact (IH _ Hin).
Qed.

(** A name that holds no token gives nothing to replace. *)
Lemma no_token_no_scan (name : string) :
  (forall key, ~ contains_token name key) -> scan_tokens 0 name = [].
Proof.
  intros H. destruct (scan_tokens 0 name) as [|key keys] eqn:E; [reflexivity|].
  exfalso. apply (H key). apply (scan_tokens_contained name key 0).
  rewrite E. left. reflexivity.
Qed.

Variable parseJSON : string -> string -> string + LocalizedMessageData.

(** C3 (as amended): the tokens are those the replacement finds, from left
    to right and without overlap, each key ending at the first [__] after
    its first character.  When the catalog has no message for the key of
    one of them, the resolution fails as a whole with the UsageError that
    names the message file and the first such key. *)
Theorem missing_key_aborts (p : LocalizedNameParams) (w : World)
  (text : string) (messageData : LocalizedMessageData) (key : string) :
  w_fs w (messageFile p) = File text ->
  parseJSON text (messageFile p) = inr messageData ->
  In key (scan_tokens 0 (name (p_manifestData p))) ->
  missing_key messageData key = true ->
  exists first : string,
    find (missing_key messageData) (scan_tokens 0 (name (p_manifestData p)))
    = Some first
    /\ getDefaultLocalizedName parseJSON p w
       = (Err (UsageError ("The locale file " +:+ messageFile p
                           +:+ " is missing key: " +:+ first)), w).
Proof.
  intros Hfs Hparse Hin Hmiss.
  destruct (find (missing_key messageData)
              (scan_tokens 0 (name (p_manifestData p)))) as [first|] eqn:Hf.
  - exists first. split; [reflexivity|].
    apply find_some in Hf as Hfirst. destruct Hfirst as [_ Hfirst].
    unfold getDefaultLocalizedName, mbind, M_bind, bind, catch, readFile.
    rewrite Hfs, Hparse.
    rewrite (replace_tokens_first_error _ _ 0 first
               (UsageError ("The locale file " +:+ messageFile p
                            +:+ " is missing key: " +:+ first))).
    + reflexivity.
    + rewrite <- Hf. apply find_pointwise. intros k.
      apply lookup_message_refuses.
    + apply lookup_message_missing. exact Hfirst.
  - exfalso. pose proof (find_none _ _ Hf key Hin) as Hk. congruence.
Qed.

(** C5: with a default locale declared and a name without tokens, the
    message file is read and parsed all the same: the name comes back
    unchanged when both succeed, and a UsageError comes back when the file
    cannot be read or is not valid JSON, whatever the catalog would hold.
    The name is taken as it is, with nothing read, only when the manifest
    declares no default locale. *)
Theorem unused_catalog_is_still_read (sourceDir : string)
  (manifestData : ExtensionManifest) (w : World) :
  truthy (default_locale manifestData) = true ->
  scan_tokens 0 (name manifestData) = [] ->
  let file :=
    Path.join [sourceDir; "_locales";
               default "" (default_locale manifestData); "messages.json"] in
  let w' :=
    logged Debug
      "Manifest declared default_locale, localizing extension name" w in
  extensionName_of parseJSON sourceDir manifestData w
  = match w_fs w file with
    | File text =>
        match parseJSON text file with
        | inr _ => (Ok (name manifestData), w')
        | inl error =>
            (Err (UsageError ("Error parsing messages.json " +:+ error)), w')
        end
    | Missing =>
        (Err (UsageError
                ("Error reading messages.json file at " +:+ file
                 +:+ ": Error: ENOENT: no such file or directory, open '"
                 +:+ file +:+ "'")), w')
    | Unreadable why =>
        (Err (UsageError
                ("Error reading messages.json file at " +:+ file
                 +:+ ": Error: " +:+ why)), w')
    end
  /\ forall (m : ExtensionManifest) (w0 : World),
       truthy (default_locale m) = false ->
       extensionName_of parseJSON sourceDir m w0 = (Ok (name m), w0).
Proof.
  intros Hlocale Hnone file w'. split.
  - unfold extensionName_of. rewrite Hlocale.
    unfold getDefaultLocalizedName, mbind, M_bind, bind, catch, readFile, log,
      throw, mret, M_ret, ret.
    cbn [messageFile p_manifestData]. fold file. fold w'.
    change (w_fs w') with (w_fs w).
    destruct (w_fs w file) as [|why|text]; try reflexivity.
    destruct (parseJSON text file) as [error|messageData]; [reflexivity|].
    rewrite (replace_tokens_no_token _ _ 0 Hnone), drop_0. reflexivity.
  - intros m w0 Hm. unfold extensionName_of. rewrite Hm. reflexivity.
Qed.

End Localization.

(** A name with the tokens of [a], which the catalog has, and of [b],
    which it lacks. *)
Lemma missing_key_aborts_witness :
  exists first : string,
    find (BuildCmd.missing_key Examples.catalog_a)
      (BuildCmd.scan_tokens 0
         (BuildCmd.name
            (BuildCmd.p_manifestData
               (Examples.name_params "Hi __MSG_a__ __MSG_b__"))))
    = Some first
    /\ BuildCmd.getDefaultLocalizedName Examples.parse_catalog_a
         (Examples.name_params "Hi __MSG_a__ __MSG_b__")
         Examples.locale_world
       = (Err (UsageError
                 ("The locale file "
                  +:+ BuildCmd.messageFile
                        (Examples.name_params "Hi __MSG_a__ __MSG_b__")
                  +:+ " is missing key: " +:+ first)),
          Examples.locale_world).
Proof.
  apply (missing_key_aborts Examples.parse_catalog_a
           (Examples.name_params "Hi __MSG_a__ __MSG_b__")
           Examples.locale_world "{}" Examples.catalog_a "b").
  - reflexivity.
  - reflexivity.
  - vm_compute. right. left. reflexivity.
  - vm_compute. reflexivity.
Defined.

(** C3 (as stated) fails: the name holds the token of key [a__b], the
    catalog lacks that key, and the resolution succeeds, because the key
    that is looked up stops at the first [__]. *)
Lemma token_key_stops_at_first_close :
  BuildCmd.contains_token "__MSG_a__b__" "a__b"
  /\ Examples.catalog_a !! "a__b" = None
  /\ BuildCmd.getDefaultLocalizedName Examples.parse_catalog_a
       (Examples.name_params "__MSG_a__b__") Examples.locale_world
     = (Ok "Xb__", Examples.locale_world).
Proof.
  split; [|split].
  - exists "", "". repeat split. discriminate.
  - vm_compute. reflexivity.
  - vm_compute. reflexivity.
Qed.

(** The case of the specification: a token the catalog knows is replaced
    by its message. *)
Example resolve_known_token :
  BuildCmd.getDefaultLocalizedName Examples.parse_catalog_a
    (Examples.name_params "Hello __MSG_a__") Examples.locale_world
  = (Ok "Hello X", Examples.locale_world).
Proof. vm_compute. reflexivity. Qed.

(** A name without token, a default locale, and no message file. *)
Lemma unused_catalog_is_still_read_witness :
  BuildCmd.extensionName_of Examples.parse_catalog_a "/src"
    (Examples.manifest_named "Plain name")
    {| w_fs := Examples.empty_fs; w_log := [] |}
  = (Err (UsageError
            ("Error reading messages.json file at "
             +:+ "/src/_locales/en/messages.json"
             +:+ ": Error: ENOENT: no such file or directory, open '"
             +:+ "/src/_locales/en/messages.json" +:+ "'")),
     {| w_fs := Examples.empty_fs;
        w_log := [(Debug, "Manifest declared default_locale, localizing "
                          +:+ "extension name")] |}).
Proof.
  apply (unused_catalog_is_still_read Examples.parse_catalog_a "/src"
           (Examples.manifest_named "Plain name")
           {| w_fs := Examples.empty_fs; w_log := [] |}).
  - reflexivity.
  - reflexivity.
Defined.

(** ** Watch mode: sessions of a watcher *)

Section Watch.

Import WatchSession.

Variable onChange : M (Promise BuildCmd.ExtensionBuildResult).

Lemma in_flight_touch (edit : Fs -> Fs) (s : state) :
  in_flight (touch edit s) = in_flight s.
Proof. reflexivity. Qed.

Lemma in_flight_settle (id : nat) (s : state) :
  in_flight (settle id s) <= in_flight s.
Proof.
  unfold in_flight, settle.
  destruct (find _ (pending s)) as [[i promise]|]; [|lia].
  destruct (promise (world s)) as [r w]. cbn [pending].
  apply List.filter_length_le.
Qed.

(** The call of [onChange] returns a promise, as the call of an [async]
    function does. *)
Hypothesis onChange_returns :
  forall w : World, exists promise w', onChange w = (Ok promise, w').

Lemma in_flight_change (s : state) :
  in_flight (change onChange s) = S (in_flight s).
Proof.
  unfold in_flight, change.
  destruct (onChange_returns (world s)) as (promise & w' & ->).
  cbn [pending]. rewrite length_app. simpl. lia.
Qed.

Lemma in_flight_changes (n : nat) (s : state) :
  in_flight (run onChange s (repeat Change n)) = in_flight s + n.
Proof.
  revert s. induction n as [|n IH]; intros s.
  - simpl. lia.
  - change (run onChange s (repeat Change (S n)))
      with (run onChange (change onChange s) (repeat Change n)).
    rewrite IH, in_flight_change. lia.
Qed.

(** From a state with at most one rebuild in flight, at most one is in
    flight throughout exactly when the watcher waits. *)
Lemma single_flight_waits (events : list event) (s : state) :
  in_flight s <= 1 ->
  single_flight onChange s events = watcher_waits onChange s events.
Proof.
  revert s. induction events as [|e events IH]; intros s Hs; [reflexivity|].
  cbn [single_flight watcher_waits]. destruct e as [edit| |id].
  - cbn [step]. rewrite in_flight_touch.
    rewrite (proj2 (Nat.leb_le _ _) Hs).
    rewrite IH by (rewrite in_flight_touch; exact Hs). reflexivity.
  - cbn [step]. rewrite in_flight_change.
    destruct (in_flight s) as [|[|n]] eqn:E; [| |lia].
    + rewrite IH by (rewrite in_flight_change, E; lia). reflexivity.
    + reflexivity.
  - cbn [step]. pose proof (in_flight_settle id s) as Hle.
    rewrite (proj2 (Nat.leb_le _ _) (Nat.le_trans _ _ _ Hle Hs)).
    rewrite IH by lia. reflexivity.
Qed.

End Watch.

(** ** [build] *)

Section Build.

Import BuildCmd.

Variable parseJSON : string -> string -> string + LocalizedMessageData.
Variable ignores : list string -> string -> bool.
Variable getManifestId : ExtensionManifest -> option string.
Variable getValidatedManifest : string -> M ExtensionManifest.
Variable zipDir : string -> (string -> bool) -> M string.
Variable writeStream : string -> string -> M unit.
Variable prepareArtifactsDir : string -> M string.
Variable defaultSourceWatcher : OnSourceChangeFn.
Variable stack : Error -> string.

Local Abbreviation defaultPackageCreator' :=
  (defaultPackageCreator parseJSON getManifestId getValidatedManifest zipDir
     writeStream).
Local Abbreviation createPackage' :=
  (createPackage parseJSON ignores getManifestId getValidatedManifest zipDir
     writeStream).
Local Abbreviation build_onChange' :=
  (build_onChange parseJSON ignores getManifestId getValidatedManifest zipDir
     writeStream stack).
Local Abbreviation build' :=
  (build parseJSON ignores getManifestId getValidatedManifest zipDir
     writeStream prepareArtifactsDir defaultSourceWatcher stack).

(** *** The filter [build] makes for itself *)

Lemma build_fileFilter_default (fs : Fs) (params : BuildCmdParams)
  (options : BuildCmdOptions) :
  b_fileFilter options = None ->
  build_fileFilter ignores fs params options
  = fun path =>
      negb
        (ignores
           (["*.xpi"; "*.zip"; ".*"; "node_modules"]
            ++ (if Str.is_empty (b_sourceDir params) then []
                else
                  match
                    fs (Path.join [b_sourceDir params; ".xpiignore"])
                  with
                  | File text => Str.split "010" text
                  | _ => []
                  end))
           path).
Proof.
  intros Hnone. unfold build_fileFilter. rewrite Hnone. cbn [default].
  unfold wantFile, new, truthy, o_sourceDir, o_filesToIgnore, add.
  cbn [default _ignore app]. unfold default_filesToIgnore.
  unfold existsSync, readFileSync.
  destruct (Str.is_empty (b_sourceDir params)); cbn [negb]; [reflexivity|].
  destruct (fs _) as [|why|text]; reflexivity.
Qed.

(** C9: without a [fileFilter] option, the filter that [build] hands to
    the package creator, for the first package and for every rebuild, and
    to the watcher as [shouldWatchFile], is the [FileFilter] of its own
    module: it hands the path as it is to the [ignore] library, whose rules
    are [*.xpi], [*.zip], [.*], [node_modules] and then the lines of
    [<sourceDir>/.xpiignore] when that file can be read; neither the
    artifacts directory, nor [.wextignore], nor a resolution of paths take
    part. *)
Theorem build_default_fileFilter (params : BuildCmdParams)
  (options : BuildCmdOptions) (w : World) :
  b_fileFilter options = None ->
  let fileFilter := fun path : string =>
    negb
      (ignores
         (["*.xpi"; "*.zip"; ".*"; "node_modules"]
          ++ (if Str.is_empty (b_sourceDir params) then []
              else
                match
                  w_fs w (Path.join [b_sourceDir params; ".xpiignore"])
                with
                | File text => Str.split "010" text
                | _ => []
                end))
         path) in
  let packageCreator :=
    default (fun p => async (defaultPackageCreator' p))
      (b_packageCreator options) in
  let creatorParams :=
    {| pc_manifestData := b_manifestData options;
       pc_sourceDir := b_sourceDir params;
       pc_fileFilter := fileFilter;
       pc_artifactsDir := b_artifactsDir params;
       pc_showReadyMessage := default true (b_showReadyMessage options) |} in
  build' params options w
  = (log Info ("Building web extension from " +:+ b_sourceDir params);;
     prepareArtifactsDir (b_artifactsDir params);;
     result ← await (packageCreator creatorParams);
     (if default false (asNeeded params) then
        log Info "Rebuilding when files change...";;
        default defaultSourceWatcher (b_onSourceChange options)
          {| w_sourceDir := b_sourceDir params;
             w_artifactsDir := b_artifactsDir params;
             onChange :=
               (promise ← packageCreator creatorParams;
                mret (catch promise (rebuild_failed stack)));
             shouldWatchFile := fileFilter |}
      else mret tt);;
     mret result) w.
Proof.
  intros Hnone fileFilter packageCreator creatorParams.
  unfold build, build_onChange, createPackage.
  rewrite (build_fileFilter_default (w_fs w) params options Hnone).
  reflexivity.
Qed.

(** *** The outcome of [build] *)

Lemma build_onChange_call (fs : Fs) (params : BuildCmdParams)
  (options : BuildCmdOptions) (w : World) :
  build_onChange' fs params options w
  = match createPackage' fs params options w with
    | (Ok promise, w') => (Ok (catch promise (rebuild_failed stack)), w')
    | (Err e, w') => (Err e, w')
    end.
Proof.
  unfold build_onChange, mbind, M_bind, bind, mret, M_ret, ret.
  destruct (createPackage' fs params options w) as [[promise|e] w'];
    reflexivity.
Qed.






(** *** Rebuilds in flight *)

(** C7 (as amended): [build] has no guard and no queue.  With a package
    creator whose call returns a promise, as the default one does, every
    call of [onChange] calls the package creator, whatever is pending, and
    its promise is one more rebuild in flight, so [n] changes delivered in
    a row leave [n] rebuilds in flight; at most one is in flight
    throughout a session exactly when the watcher itself delivers a change
    only while none is pending. *)
Theorem single_flight_is_the_watchers (fs : Fs) (params : BuildCmdParams)
  (options : BuildCmdOptions) :
  (forall w : World, exists promise w',
     createPackage' fs params options w = (Ok promise, w')) ->
  let onChange := build_onChange' fs params options in
  (forall s : WatchSession.state, exists promise w',
     createPackage' fs params options (WatchSession.world s)
     = (Ok promise, w')
     /\ WatchSession.change onChange s
        = {| WatchSession.world := w';
             WatchSession.pending :=
               WatchSession.pending s
               ++ [(WatchSession.started s,
                    catch promise (rebuild_failed stack))];
             WatchSession.started := S (WatchSession.started s);
             WatchSession.seen := WatchSession.seen s |})
  /\ (forall (n : nat) (w : World),
        WatchSession.in_flight
          (WatchSession.run onChange (WatchSession.init w)
             (repeat WatchSession.Change n))
        = n)
  /\ (forall (events : list WatchSession.event) (w : World),
        WatchSession.single_flight onChange (WatchSession.init w) events
        = true
        <-> WatchSession.watcher_waits onChange (WatchSession.init w) events
            = true).
Proof.
  intros Hreturns onChange.
  assert (Hcall : forall w : World, exists promise w',
            onChange w = (Ok promise, w')).
  { intros w. destruct (Hreturns w) as (promise & w' & H).
    exists (catch promise (rebuild_failed stack)), w'.
    unfold onChange. rewrite build_onChange_call, H. reflexivity. }
  split; [|split].
  - intros s. destruct (Hreturns (WatchSession.world s)) as (promise & w' & H).
    exists promise, w'. split; [exact H|].
    unfold WatchSession.change, onChange.
    rewrite build_onChange_call, H. reflexivity.
  - intros n w. rewrite (in_flight_changes onChange Hcall). reflexivity.
  - intros events w.
    rewrite (single_flight_waits onChange Hcall)
      by (unfold WatchSession.in_flight; simpl; lia).
    reflexivity.
Qed.

End Build.

(** A build with [.xpiignore] and [.wextignore] in the source directory:
    the package creator and the watcher get a filter that refuses [docs],
    a line of the former, and lets [secret], a line of the latter,
    through. *)
Lemma build_default_fileFilter_witness :
  BuildCmd.build Examples.parse_catalog_a Examples.literal_ignores
    Examples.no_manifest_id Examples.no_validated_manifest Examples.empty_zip
    Examples.write_nothing Examples.prepare_ok Examples.quiet_watcher
    error_toString Examples.build_params Samples.probing_options
    Samples.ignore_files_world
  = (Ok {| BuildCmd.extensionPath := "/src/web-ext-artifacts/ext-1.0.zip" |},
     {| w_fs := Examples.ignore_files_fs;
        w_log :=
          [(Info, "Building web extension from /src");
           (Debug, "package creator, docs: no, secret: yes");
           (Info, "Rebuilding when files change...");
           (Debug, "watcher, docs: no, secret: yes")] |}).
Proof.
  exact (build_default_fileFilter Examples.parse_catalog_a
           Examples.literal_ignores Examples.no_manifest_id
           Examples.no_validated_manifest Examples.empty_zip
           Examples.write_nothing Examples.prepare_ok Examples.quiet_watcher
           error_toString Examples.build_params Samples.probing_options
           Samples.ignore_files_world eq_refl).
Defined.



(** A package creator whose call throws: the watcher gets the throw,
    and nothing is logged. *)
Example throw_of_the_call_is_not_logged :
  WatchSession.run
    (BuildCmd.build_onChange Examples.parse_catalog_a
       Examples.literal_ignores Examples.no_manifest_id
       Examples.no_validated_manifest Examples.empty_zip
       Examples.write_nothing error_toString Examples.manifest_fs
       Examples.build_params
       {| BuildCmd.b_manifestData := None;
          BuildCmd.b_fileFilter := None;
          BuildCmd.b_onSourceChange := None;
          BuildCmd.b_packageCreator := Some Samples.throwing_creator;
          BuildCmd.b_showReadyMessage := None |})
    (WatchSession.init Examples.manifest_world) [WatchSession.Change]
  = {| WatchSession.world := Examples.manifest_world;
       WatchSession.pending := [];
       WatchSession.started := 1;
       WatchSession.seen :=
         [(0, WatchSession.Threw
                (OtherError "TypeError" "zipDir is not a function"))] |}.
Proof. reflexivity. Qed.

(** The default package creator: three changes in a row, and a watcher
    that waits for the first rebuild before it delivers the second
    change. *)
Lemma single_flight_is_the_watchers_witness :
  WatchSession.in_flight
    (WatchSession.run
       (BuildCmd.build_onChange Examples.parse_catalog_a
          Examples.literal_ignores Examples.no_manifest_id
          Examples.no_validated_manifest Examples.empty_zip
          Examples.write_nothing error_toString Examples.manifest_fs
          Examples.build_params Examples.no_options)
       (WatchSession.init Examples.manifest_world)
       (repeat WatchSession.Change 3))
  = 3
  /\ (WatchSession.single_flight
        (BuildCmd.build_onChange Examples.parse_catalog_a
           Examples.literal_ignores Examples.no_manifest_id
           Examples.no_validated_manifest Examples.empty_zip
           Examples.write_nothing error_toString Examples.manifest_fs
           Examples.build_params Examples.no_options)
        (WatchSession.init Examples.manifest_world)
        [WatchSession.Change; WatchSession.Settle 0; WatchSession.Change]
      = true
      <-> WatchSession.watcher_waits
            (BuildCmd.build_onChange Examples.parse_catalog_a
               Examples.literal_ignores Examples.no_manifest_id
               Examples.no_validated_manifest Examples.empty_zip
               Examples.write_nothing error_toString Examples.manifest_fs
               Examples.build_params Examples.no_options)
            (WatchSession.init Examples.manifest_world)
            [WatchSession.Change; WatchSession.Settle 0; WatchSession.Change]
          = true).
Proof.
  destruct (single_flight_is_the_watchers Examples.parse_catalog_a
              Examples.literal_ignores Examples.no_manifest_id
              Examples.no_validated_manifest Examples.empty_zip
              Examples.write_nothing error_toString Examples.manifest_fs
              Examples.build_params Examples.no_options)
    as (_ & Hcount & Hiff).
  - intros w. eexists. eexists. reflexivity.
  - split.
    + exact (Hcount 3 Examples.manifest_world).
    + exact (Hiff [WatchSession.Change; WatchSession.Settle 0;
                   WatchSession.Change] Examples.manifest_world).
Defined.

(** C7 (as stated) fails: a change delivered while the rebuild of the
    change before is pending calls the package creator again; two rebuilds
    are in flight, and each of them makes its package. *)
Lemma overlapping_rebuilds :
  map fst
    (WatchSession.pending
       (WatchSession.run
          (BuildCmd.build_onChange Examples.parse_catalog_a
             Examples.literal_ignores Examples.no_manifest_id
             Examples.no_validated_manifest Examples.empty_zip
             Examples.write_nothing error_toString Examples.manifest_fs
             Examples.build_params Examples.sample_options)
          (WatchSession.init Examples.manifest_world)
          [WatchSession.Change; WatchSession.Change]))
  = [0; 1]
  /\ ~ WatchSession.in_flight
         (WatchSession.run
            (BuildCmd.build_onChange Examples.parse_catalog_a
               Examples.literal_ignores Examples.no_manifest_id
               Examples.no_validated_manifest Examples.empty_zip
               Examples.write_nothing error_toString Examples.manifest_fs
               Examples.build_params Examples.sample_options)
            (WatchSession.init Examples.manifest_world)
            [WatchSession.Change; WatchSession.Change])
       <= 1
  /\ WatchSession.seen
       (WatchSession.run
          (BuildCmd.build_onChange Examples.parse_catalog_a
             Examples.literal_ignores Examples.no_manifest_id
             Examples.no_validated_manifest Examples.empty_zip
             Examples.write_nothing error_toString Examples.manifest_fs
             Examples.build_params Examples.sample_options)
          (WatchSession.init Examples.manifest_world)
          [WatchSession.Change; WatchSession.Change; WatchSession.Settle 0;
           WatchSession.Settle 1])
     = [(0, WatchSession.Settled
             (Ok {| BuildCmd.extensionPath :=
                      "/src/web-ext-artifacts/ext-1.0.zip" |}));
        (1, WatchSession.Settled
             (Ok {| BuildCmd.extensionPath :=
                      "/src/web-ext-artifacts/ext-1.0.zip" |}))].
Proof.
  split; [reflexivity|]. split; [|reflexivity].
  unfold WatchSession.in_flight. simpl. lia.
Qed.

(** ** The constructor of the minimatch based [FileFilter] *)

Section Constructor.

Import UtilFileFilter.

Variable cwd : string.
Variable other_globs : string -> string -> bool.

Lemma addToIgnoreList_spec (files : list string) (this : FileFilter) :
  addToIgnoreList cwd this files
  = {| filesToIgnore :=
         filesToIgnore this
         ++ map (fun file => Path.resolve cwd [this_sourceDir this; file])
              files;
       this_sourceDir := this_sourceDir this |}.
Proof.
  unfold addToIgnoreList. revert this.
  induction files as [|file files IH]; intros this; simpl.
  - rewrite app_nil_r. destruct this; reflexivity.
  - rewrite IH. simpl. rewrite <- app_assoc. reflexivity.
Qed.

(** The patterns of a new filter, in the order of the constructor: the
    lines of [.wextignore], the base patterns, the caller's, and the
    artifacts directory; each resolved against the source directory. *)
Lemma new_spec (fs : Fs) (o : FileFilterOptions) :
  let resolved := Path.resolve cwd [sourceDir o] in
  new cwd fs o
  = {| filesToIgnore :=
         map (fun file => Path.resolve cwd [resolved; file])
           (ignore_file_lines fs resolved
            ++ default default_baseIgnoredPatterns (baseIgnoredPatterns o)
            ++ default [] (ignoreFiles o)
            ++ artifacts_patterns cwd resolved (artifactsDir o));
       this_sourceDir := resolved |}.
Proof.
  intros resolved. unfold new. fold resolved.
  assert (Hload :
    load_ignore_file cwd fs {| filesToIgnore := []; this_sourceDir := resolved |}
    = {| filesToIgnore :=
           map (fun file => Path.resolve cwd [resolved; file])
             (ignore_file_lines fs resolved);
         this_sourceDir := resolved |}).
  { unfold load_ignore_file, ignore_file_lines, existsSync, readFileSync.
    cbn [this_sourceDir].
    destruct (Str.is_empty resolved); [reflexivity|].
    destruct (fs _) as [|why|text]; try reflexivity.
    rewrite addToIgnoreList_spec. reflexivity. }
  rewrite Hload, !addToIgnoreList_spec. cbn [filesToIgnore this_sourceDir].
  unfold ignore_artifacts, artifacts_patterns.
  destruct (artifactsDir o) as [dir|]; cbn [this_sourceDir].
  - destruct (negb (Str.is_empty dir) && isSubPath cwd resolved dir).
    + rewrite addToIgnoreList_spec. cbn [filesToIgnore this_sourceDir].
      rewrite !map_app, <- !app_assoc. reflexivity.
    + rewrite !map_app, <- !app_assoc. simpl. rewrite app_nil_r. reflexivity.
  - rewrite !map_app, <- !app_assoc. simpl. rewrite app_nil_r. reflexivity.
Qed.

(** An artifacts directory that is not below the source directory leaves
    the filter as it is without one. *)
Lemma artifactsDir_outside_has_no_effect (fs : Fs) (o : FileFilterOptions)
  (dir : string) :
  isSubPath cwd (Path.resolve cwd [sourceDir o]) dir = false ->
  new cwd fs
    {| baseIgnoredPatterns := baseIgnoredPatterns o;
       ignoreFiles := ignoreFiles o;
       sourceDir := sourceDir o;
       artifactsDir := Some dir |}
  = new cwd fs
      {| baseIgnoredPatterns := baseIgnoredPatterns o;
         ignoreFiles := ignoreFiles o;
         sourceDir := sourceDir o;
         artifactsDir := None |}.
Proof.
  intros Hout. rewrite !new_spec.
  cbn [sourceDir baseIgnoredPatterns ignoreFiles artifactsDir].
  unfold artifacts_patterns. rewrite Hout, andb_false_r. reflexivity.
Qed.

Hypothesis cwd_absolute : Path.isAbsolute cwd = true.

Lemma resolved_inj (xs ys : list string) :
  Forall Path.clean xs -> Forall Path.clean ys ->
  "/" +:+ Str.join "/" xs = "/" +:+ Str.join "/" ys -> xs = ys.
Proof.
  intros Hxs Hys H.
  rewrite <- (path_segs_resolved xs Hxs), <- (path_segs_resolved ys Hys), H.
  reflexivity.
Qed.

(** [isSubPath] tells the strict descendants: the segments of the target
    are those of the source directory and then some more. *)
Lemma isSubPath_descendant (segs asegs : list string) (target : string) :
  Forall Path.clean segs -> Forall Path.clean asegs ->
  Path.resolve cwd [target] = "/" +:+ Str.join "/" asegs ->
  isSubPath cwd ("/" +:+ Str.join "/" segs) target = true
  <-> exists extra : list string, extra <> [] /\ asegs = segs ++ extra.
Proof.
  intros Hsegs Hasegs Htarget.
  assert (Hsame : asegs = segs ->
    ~ exists extra : list string, extra <> [] /\ asegs = segs ++ extra).
  { intros -> (extra & Hne & Heq). apply Hne.
    rewrite <- (app_nil_r segs) in Heq at 1.
    apply app_inv_head in Heq. congruence. }
  unfold isSubPath, Path.relative.
  destruct (String.eqb ("/" +:+ Str.join "/" segs) target) eqn:E1.
  { apply String.eqb_eq in E1. subst target.
    rewrite (resolve_single cwd segs Hsegs) in Htarget.
    apply (resolved_inj _ _ Hsegs Hasegs) in Htarget.
    split; [discriminate | intros H; exfalso; apply (Hsame (eq_sym Htarget) H)]. }
  rewrite (resolve_single cwd segs Hsegs), Htarget.
  destruct (String.eqb ("/" +:+ Str.join "/" segs) ("/" +:+ Str.join "/" asegs))
    eqn:E2.
  { apply String.eqb_eq in E2. apply (resolved_inj _ _ Hsegs Hasegs) in E2.
    split; [discriminate | intros H; exfalso; apply (Hsame (eq_sym E2) H)]. }
  rewrite !path_segs_resolved by assumption.
  destruct (Path.drop_common segs asegs) as [fromRest toRest] eqn:Hdrop.
  destruct (drop_common_spec _ _ _ _ Hdrop) as (common & Hs & Ha).
  destruct fromRest as [|f fromRest].
  - rewrite app_nil_r in Hs. subst common. cbn [map app].
    assert (Hne : toRest <> []).
    { intros ->. rewrite app_nil_r in Ha. subst asegs.
      rewrite String.eqb_refl in E2. discriminate E2. }
    assert (Hclean : Forall Path.clean toRest)
      by (rewrite Ha in Hasegs; apply Forall_app in Hasegs as [_ H]; exact H).
    destruct (descending_relative toRest Hclean Hne) as (H1 & H2 & H3).
    unfold Path.sep. cbn [String.append]. rewrite H1, H2, H3.
    split; [|reflexivity]. intros _. exists toRest. split; assumption.
  - split.
    + intros H. exfalso.
      destruct (climbing_relative f fromRest toRest) as [Hc|Hc];
        unfold Path.sep in H; cbn [String.append] in H; rewrite Hc in H.
      * destruct (Str.is_empty _); discriminate H.
      * destruct (Str.is_empty _); [discriminate H|].
        destruct (String.eqb _ ".."); discriminate H.
    + intros (extra & Hne & Hextra). exfalso.
      rewrite Hextra, drop_common_prefix in Hdrop. discriminate Hdrop.
Qed.

(** C10 (as amended): when [.wextignore] of the source directory can be
    read and has an empty line, the empty string resolves to the source
    directory, which is stored among the patterns, whatever the directory
    is; when the directory is a path that stands for itself as a pattern
    ([Minimatch.literal]), [wantFile] refuses both the source directory
    and the empty path. *)
Theorem empty_line_ignores_sourceDir (fs : Fs) (o : FileFilterOptions)
  (text : string) :
  let resolved := Path.resolve cwd [sourceDir o] in
  fs (Path.join [resolved; ".wextignore"]) = File text ->
  In "" (Str.split "010" text) ->
  (Path.resolve cwd [resolved; ""] = resolved
   /\ In resolved (filesToIgnore (new cwd fs o)))
  /\ (Minimatch.literal resolved = true ->
      wantFile cwd other_globs (new cwd fs o) resolved = false
      /\ wantFile cwd other_globs (new cwd fs o) "" = false).
Proof.
  intros resolved Hfs Hline.
  destruct (resolve_form cwd cwd_absolute [sourceDir o]) as (segs & Hsegs & Hform).
  fold resolved in Hform.
  assert (Hempty : Path.resolve cwd [resolved; ""] = resolved)
    by (rewrite Hform; apply resolve_empty; assumption).
  assert (Hself : Path.resolve cwd [resolved; resolved] = resolved)
    by (rewrite Hform; apply resolve_self; assumption).
  assert (Hin : In resolved (filesToIgnore (new cwd fs o))).
  { rewrite new_spec. fold resolved. cbn [filesToIgnore].
    rewrite <- Hempty at 1.
    apply (in_map (fun file => Path.resolve cwd [resolved; file])).
    apply in_or_app. left. unfold ignore_file_lines.
    assert (Hne : Str.is_empty resolved = false)
      by (rewrite Hform; reflexivity).
    rewrite Hne, Hfs. exact Hline. }
  assert (Hdir : this_sourceDir (new cwd fs o) = resolved)
    by (rewrite new_spec; reflexivity).
  split; [split; assumption|].
  intros Hliteral. split.
  - apply wantFile_false_iff. exists resolved. split; [exact Hin|].
    unfold resolveWithSourceDir. rewrite Hdir, Hself.
    apply minimatch_self. exact Hliteral.
  - apply wantFile_false_iff. exists resolved. split; [exact Hin|].
    unfold resolveWithSourceDir. rewrite Hdir, Hempty.
    apply minimatch_self. exact Hliteral.
Qed.

(** A base pattern refuses the paths below the source directory that its
    segments match. *)
Lemma base_pattern_refuses (fs : Fs) (o : FileFilterOptions)
  (psuf fsuf : list string) :
  Minimatch.literal (Path.resolve cwd [sourceDir o]) = true ->
  In (Str.join "/" psuf)
    (default default_baseIgnoredPatterns (baseIgnoredPatterns o)) ->
  Forall Path.clean psuf -> psuf <> [] ->
  forallb Minimatch.in_fragment psuf = true ->
  Forall Path.clean fsuf -> fsuf <> [] ->
  Minimatch.matchOne (map Minimatch.parse psuf) fsuf = true ->
  wantFile cwd other_globs (new cwd fs o) (Str.join "/" fsuf) = false.
Proof.
  intros Hliteral Hin Hp Hpne Hpf Hf Hfne Hm.
  destruct (resolve_form cwd cwd_absolute [sourceDir o])
    as (segs & Hsegs & Hform).
  rewrite Hform in Hliteral.
  destruct (literal_segments segs Hliteral) as [Hfrag Hstar].
  apply wantFile_false_iff.
  exists (Path.resolve cwd [Path.resolve cwd [sourceDir o]; Str.join "/" psuf]).
  split.
  - rewrite new_spec. cbn [filesToIgnore].
    apply (in_map (fun file =>
             Path.resolve cwd [Path.resolve cwd [sourceDir o]; file])).
    apply in_or_app. right. apply in_or_app. left. exact Hin.
  - unfold resolveWithSourceDir. rewrite new_spec. cbn [this_sourceDir].
    rewrite Hform, !resolve_under by assumption.
    unfold Minimatch.minimatch.
    rewrite in_fragment_below by assumption.
    rewrite glob_below by assumption. exact Hm.
Qed.

Lemma visible_all_clean (l : list string) :
  Forall (fun seg => Minimatch.visible seg = true) l -> Forall Path.clean l.
Proof.
  intros H. eapply Forall_impl; [exact H|]. apply visible_clean.
Qed.

(** With the default base patterns and a source directory that stands
    for itself as a pattern: a file named [.secret] or [old.zip], in the source
    directory or in visible directories below it, is refused; so are
    [node_modules] there and what lies in it under visible names. *)
Lemma default_patterns_refuse (fs : Fs) (o : FileFilterOptions)
  (dirs below : list string) :
  baseIgnoredPatterns o = None ->
  Minimatch.literal (Path.resolve cwd [sourceDir o]) = true ->
  Forall (fun seg => Minimatch.visible seg = true) dirs ->
  Forall (fun seg => Minimatch.visible seg = true) below ->
  wantFile cwd other_globs (new cwd fs o)
    (Str.join "/" (dirs ++ [".secret"])) = false
  /\ wantFile cwd other_globs (new cwd fs o)
       (Str.join "/" (dirs ++ ["old.zip"])) = false
  /\ wantFile cwd other_globs (new cwd fs o)
       (Str.join "/" (dirs ++ "node_modules" :: below)) = false.
Proof.
  intros Hbase Hliteral Hdirs Hbelow.
  pose proof (visible_all_clean dirs Hdirs) as Hdc.
  pose proof (visible_all_clean below Hbelow) as Hbc.
  assert (Hne : forall (l : list string) (x : string), l ++ [x] <> [])
    by (intros l x H; apply app_eq_nil in H as [_ H]; discriminate).
  split; [|split].
  - apply (base_pattern_refuses fs o ["**"; ".*"]); try assumption;
      try rewrite Hbase.
    + cbn. tauto.
    + repeat constructor; discriminate.
    + discriminate.
    + reflexivity.
    + apply Forall_app. split; [exact Hdc|].
      repeat constructor; discriminate.
    + apply Hne.
    + apply (globstar_swallow _ _ dirs [".secret"] Hdirs);
        [discriminate | reflexivity].
  - apply (base_pattern_refuses fs o ["**"; "*.zip"]); try assumption;
      try rewrite Hbase.
    + cbn. tauto.
    + repeat constructor; discriminate.
    + discriminate.
    + reflexivity.
    + apply Forall_app. split; [exact Hdc|].
      repeat constructor; discriminate.
    + apply Hne.
    + apply (globstar_swallow _ _ dirs ["old.zip"] Hdirs);
        [discriminate | reflexivity].
  - destruct (exists_last_or_nil below) as [->|(front & last & ->)].
    + apply (base_pattern_refuses fs o ["**"; "node_modules"]);
        try assumption; try rewrite Hbase.
      * cbn. tauto.
      * repeat constructor; discriminate.
      * discriminate.
      * reflexivity.
      * apply Forall_app. split; [exact Hdc|].
        repeat constructor; discriminate.
      * apply Hne.
      * apply (globstar_swallow _ _ dirs ["node_modules"] Hdirs);
          [discriminate | reflexivity].
    + apply Forall_app in Hbelow as [Hfront Hlast].
      inversion Hlast as [|? ? Hl _]; subst.
      apply (base_pattern_refuses fs o ["**"; "node_modules"; "**"; "*"]);
        try assumption; try rewrite Hbase.
      * cbn. tauto.
      * repeat constructor; discriminate.
      * discriminate.
      * reflexivity.
      * apply Forall_app. split; [exact Hdc|].
        constructor; [repeat constructor; discriminate | exact Hbc].
      * intros H. apply app_eq_nil in H as [_ H]. discriminate.
      * apply (globstar_swallow _ _ dirs _ Hdirs); [discriminate|].
        change (Minimatch.matchOne
                  [Minimatch.GLOBSTAR; Minimatch.Magic [Minimatch.Star]]
                  (front ++ [last]) = true).
        apply (globstar_swallow _ _ front [last] Hfront); [discriminate|].
        cbn [Minimatch.matchOne]. rewrite (star_matches_visible last Hl).
        reflexivity.
Qed.

(** With the artifacts directory below the source directory, and a path
    that stands for itself as a pattern: the directory and what lies in it
    under visible names are refused. *)
Lemma artifacts_patterns_refuse (fs : Fs) (o : FileFilterOptions)
  (dir : string) (below : list string) (filePath : string) :
  artifactsDir o = Some dir ->
  Str.is_empty dir = false ->
  isSubPath cwd (Path.resolve cwd [sourceDir o]) dir = true ->
  Minimatch.literal (Path.resolve cwd [dir]) = true ->
  Forall (fun seg => Minimatch.visible seg = true) below ->
  Path.path_segs (resolveWithSourceDir cwd (new cwd fs o) filePath)
  = Path.path_segs (Path.resolve cwd [dir]) ++ below ->
  wantFile cwd other_globs (new cwd fs o) filePath = false.
Proof.
  intros Hdir Hne Hsub Hliteral Hbelow Hpath.
  destruct (resolve_form cwd cwd_absolute [dir]) as (asegs & Hasegs & Ha).
  unfold resolveWithSourceDir in Hpath.
  destruct (resolve_form cwd cwd_absolute
              [this_sourceDir (new cwd fs o); filePath])
    as (psegs & Hpsegs & Hp).
  rewrite Hp, Ha, !path_segs_resolved in Hpath by assumption. subst psegs.
  rewrite Ha in Hliteral.
  destruct (literal_segments asegs Hliteral) as [Hfrag Hstar].
  assert (Hpats :
    artifacts_patterns cwd (Path.resolve cwd [sourceDir o]) (artifactsDir o)
    = ["/" +:+ Str.join "/" asegs;
       "/" +:+ Str.join "/" (asegs ++ ["**"; "*"])]).
  { unfold artifacts_patterns. rewrite Hdir, Hne, Hsub. cbn [negb andb].
    rewrite Ha, join_glob_below by assumption. reflexivity. }
  assert (Hin : forall test : string,
    In test (artifacts_patterns cwd (Path.resolve cwd [sourceDir o])
               (artifactsDir o)) ->
    In (Path.resolve cwd [Path.resolve cwd [sourceDir o]; test])
      (filesToIgnore (new cwd fs o))).
  { intros test Htest. rewrite new_spec. cbn [filesToIgnore].
    apply (in_map (fun file =>
             Path.resolve cwd [Path.resolve cwd [sourceDir o]; file])).
    do 3 (apply in_or_app; right). exact Htest. }
  rewrite Hpats in Hin.
  apply wantFile_false_iff. unfold resolveWithSourceDir. rewrite Hp.
  destruct (exists_last_or_nil below) as [->|(front & last & ->)].
  - exists ("/" +:+ Str.join "/" asegs). split.
    + rewrite <- (resolve_absolute_arg cwd
                    (Path.resolve cwd [sourceDir o]) asegs Hasegs) at 1.
      apply Hin. left. reflexivity.
    + rewrite app_nil_r. apply minimatch_self. exact Hliteral.
  - exists ("/" +:+ Str.join "/" (asegs ++ ["**"; "*"])).
    assert (Hclean : Forall Path.clean (asegs ++ ["**"; "*"]))
      by (apply Forall_app; split;
          [exact Hasegs | repeat constructor; discriminate]).
    split.
    + rewrite <- (resolve_absolute_arg cwd
                    (Path.resolve cwd [sourceDir o]) _ Hclean) at 1.
      apply Hin. right. left. reflexivity.
    + unfold Minimatch.minimatch.
      rewrite in_fragment_below
        by first [exact Hfrag | reflexivity | discriminate
                 | repeat constructor; discriminate].
      rewrite glob_below; try assumption.
      * apply Forall_app in Hbelow as [Hfront Hlast].
        inversion Hlast as [|? ? Hl _]; subst.
        change (map Minimatch.parse ["**"; "*"])
          with [Minimatch.GLOBSTAR; Minimatch.Magic [Minimatch.Star]].
        apply (globstar_swallow _ _ front [last] Hfront); [discriminate|].
        cbn [Minimatch.matchOne]. rewrite (star_matches_visible last Hl).
        reflexivity.
      * repeat constructor; discriminate.
      * discriminate.
      * apply visible_all_clean. exact Hbelow.
      * intros H. apply app_eq_nil in H as [_ H]. discriminate.
Qed.

(** The defect does not depend on the source directory: with the default
    options and no [.wextignore], a hidden file in a hidden directory of
    [node_modules] is wanted below every source directory that stands for
    itself as a pattern. *)
Lemma hidden_in_hidden_is_wanted_everywhere (fs : Fs)
  (o : FileFilterOptions) :
  baseIgnoredPatterns o = None ->
  ignoreFiles o = None ->
  artifactsDir o = None ->
  fs (Path.join [Path.resolve cwd [sourceDir o]; ".wextignore"]) = Missing ->
  Minimatch.literal (Path.resolve cwd [sourceDir o]) = true ->
  wantFile cwd other_globs (new cwd fs o) "node_modules/.cache/.lock" = true.
Proof.
  intros Hbase Hfiles Hart Hfs Hliteral.
  destruct (resolve_form cwd cwd_absolute [sourceDir o])
    as (segs & Hsegs & Hform).
  pose proof Hliteral as Hlit. rewrite Hform in Hlit.
  destruct (literal_segments segs Hlit) as [Hfrag Hstar].
  apply wantFile_true_iff. intros test Hin.
  unfold resolveWithSourceDir. rewrite new_spec in *.
  cbn [filesToIgnore this_sourceDir] in *.
  unfold ignore_file_lines in Hin. rewrite Hbase, Hfiles, Hart, Hfs in Hin.
  assert (Hpath : Forall Path.clean ["node_modules"; ".cache"; ".lock"])
    by (repeat constructor; discriminate).
  change "node_modules/.cache/.lock"
    with (Str.join "/" ["node_modules"; ".cache"; ".lock"]).
  rewrite Hform in *. rewrite resolve_under by (assumption || discriminate).
  assert (Hcase : forall psuf : list string,
    Forall Path.clean psuf -> psuf <> [] ->
    forallb Minimatch.in_fragment psuf = true ->
    Minimatch.matchOne (map Minimatch.parse psuf)
      ["node_modules"; ".cache"; ".lock"] = false ->
    Minimatch.minimatch other_globs
      ("/" +:+ Str.join "/" (segs ++ ["node_modules"; ".cache"; ".lock"]))
      (Path.resolve cwd ["/" +:+ Str.join "/" segs; Str.join "/" psuf])
    = false).
  { intros psuf Hp Hpne Hpf Hm. rewrite resolve_under by assumption.
    unfold Minimatch.minimatch.
    rewrite in_fragment_below by assumption.
    rewrite glob_below by (assumption || discriminate). exact Hm. }
  destruct (Str.is_empty _) in Hin;
    cbn [default app map default_baseIgnoredPatterns artifacts_patterns In]
      in Hin;
    destruct Hin as [<-|[<-|[<-|[<-|[<-|[<-|[]]]]]]].
  all: first
    [ apply (Hcase ["**"; "*.xpi"])
    | apply (Hcase ["**"; "*.zip"])
    | apply (Hcase ["**"; ".*"])
    | apply (Hcase ["**"; ".*"; "**"; "*"])
    | apply (Hcase ["**"; "node_modules"])
    | apply (Hcase ["**"; "node_modules"; "**"; "*"]) ];
    try reflexivity; try discriminate; repeat constructor; discriminate.
Qed.

End Constructor.

(** The source directory [/src] whose [.wextignore] ends with a
    newline. *)
Lemma empty_line_ignores_sourceDir_witness :
  (Path.resolve "/w" ["/src"; ""] = "/src"
   /\ In "/src"
        (UtilFileFilter.filesToIgnore
           (UtilFileFilter.new "/w" Examples.ignore_files_fs
              (Examples.options_for None None))))
  /\ UtilFileFilter.wantFile "/w" Examples.no_other_globs
       (UtilFileFilter.new "/w" Examples.ignore_files_fs
          (Examples.options_for None None)) "/src" = false
  /\ UtilFileFilter.wantFile "/w" Examples.no_other_globs
       (UtilFileFilter.new "/w" Examples.ignore_files_fs
          (Examples.options_for None None)) "" = false.
Proof.
  destruct (empty_line_ignores_sourceDir "/w" Examples.no_other_globs eq_refl
              Examples.ignore_files_fs (Examples.options_for None None)
              ("secret" +:+ String "010" "") eq_refl
              (or_intror (or_introl eq_refl)))
    as [Hstored Hrefused].
  split; [exact Hstored | apply Hrefused; reflexivity].
Defined.

(** C10 (as stated) fails: in a source directory named [w[1]] the empty
    line of [.wextignore] is stored as the pattern [/w[1]], which stands
    for [/w1]; [wantFile] lets the source directory and the empty path
    through, and refuses the sibling [/w1]. *)
Lemma bracket_sourceDir_is_wanted :
  In "" (Str.split "010" ("secret" +:+ String "010" ""))
  /\ In "/w[1]"
       (UtilFileFilter.filesToIgnore
          (UtilFileFilter.new "/w" Samples.bracket_fs
             Samples.bracket_options))
  /\ UtilFileFilter.wantFile "/w" Samples.bracket_globs
       (UtilFileFilter.new "/w" Samples.bracket_fs Samples.bracket_options)
       "/w[1]" = true
  /\ UtilFileFilter.wantFile "/w" Samples.bracket_globs
       (UtilFileFilter.new "/w" Samples.bracket_fs Samples.bracket_options)
       "" = true
  /\ UtilFileFilter.wantFile "/w" Samples.bracket_globs
       (UtilFileFilter.new "/w" Samples.bracket_fs Samples.bracket_options)
       "/w1" = false.
Proof.
  split; [right; left; reflexivity|].
  split; [right; left; reflexivity|].
  repeat split; reflexivity.
Qed.

(** ** What the default patterns let through *)

Section HiddenBelowHidden.

Import UtilFileFilter.

Variable other_globs : string -> string -> bool.

(** C1, at the failing input: with the default base patterns, a hidden
    file in a hidden directory is wanted, under [node_modules] as
    elsewhere, while the files the specification names, the other files
    of [node_modules] and the hidden directory itself are refused. *)
Theorem hidden_in_hidden_under_node_modules_is_wanted :
  wantFile "/w" other_globs Examples.default_filter
    "node_modules/.cache/.lock" = true
  /\ wantFile "/w" other_globs Examples.default_filter ".git/.secret" = true
  /\ map (wantFile "/w" other_globs Examples.default_filter)
       [".secret"; "old.zip"; "node_modules"; "node_modules/a/b.js";
        "node_modules/.cache"; "node_modules/.cache/lock";
        "node_modules/a/.lock"; ".git/old.zip"]
     = [false; false; false; false; false; false; false; false]
  /\ wantFile "/w" other_globs Examples.default_filter "src/a.js" = true.
Proof. vm_compute. repeat split. Qed.

(** C2, at the failing input: with the artifacts directory inside the
    source directory, a hidden file in a hidden directory of the artifacts
    directory is wanted, and without base patterns any hidden file of the
    artifacts directory is; the other files of the directory are refused. *)
Theorem hidden_under_artifactsDir_is_wanted :
  isSubPath "/w" "/src" "/src/web-ext-artifacts" = true
  /\ wantFile "/w" other_globs Examples.artifacts_filter
       "web-ext-artifacts/.cache/.lock" = true
  /\ wantFile "/w" other_globs Examples.bare_artifacts_filter
       "web-ext-artifacts/.DS_Store" = true
  /\ map (wantFile "/w" other_globs Examples.artifacts_filter)
       ["web-ext-artifacts"; "web-ext-artifacts/ext-1.0.zip";
        "web-ext-artifacts/old/ext.xpi"; "web-ext-artifacts/.DS_Store";
        "web-ext-artifacts/.cache/lock"]
     = [false; false; false; false; false]
  /\ map (wantFile "/w" other_globs Examples.bare_artifacts_filter)
       ["web-ext-artifacts"; "web-ext-artifacts/ext-1.0.zip";
        "web-ext-artifacts/old/ext.xpi"]
     = [false; false; false].
Proof. vm_compute. repeat split. Qed.

(** [isSubPath] on a sibling, a parent, the directory itself, and a
    descendant. *)
Example isSubPath_cases :
  map (isSubPath "/w" "/src")
    ["/artifacts"; "/"; "/src"; "/src/."; "/srcs"; "../src/dist"; "/src/..dist"]
  = [false; false; false; false; false; true; true]
  /\ isSubPath "/" "/src" "src/dist" = true.
Proof. vm_compute. split; reflexivity. Qed.

End HiddenBelowHidden.

(** * Further properties of the code *)

(** ** [isSubPath] *)

Section SubPath.

Import UtilFileFilter.

Variable cwd : string.
Hypothesis cwd_absolute : Path.isAbsolute cwd = true.

Lemma resolve_resolved (args : list string) :
  Path.resolve cwd [Path.resolve cwd args] = Path.resolve cwd args.
Proof.
  destruct (resolve_form cwd cwd_absolute args) as (segs & Hsegs & ->).
  apply resolve_single. exact Hsegs.
Qed.

(** [path.relative] resolves its first argument itself. *)
Lemma relative_of_resolved (src target : string) :
  Path.relative cwd (Path.resolve cwd [src]) target
  = Path.relative cwd src target.
Proof.
  unfold Path.relative. rewrite resolve_resolved.
  destruct (String.eqb src target) eqn:E1.
  - apply String.eqb_eq in E1. subst target.
    destruct (String.eqb (Path.resolve cwd [src]) src); [reflexivity|].
    rewrite String.eqb_refl. reflexivity.
  - destruct (String.eqb (Path.resolve cwd [src]) target) eqn:E2;
      [|reflexivity].
    apply String.eqb_eq in E2. subst target.
    rewrite resolve_resolved, String.eqb_refl. reflexivity.
Qed.

Lemma isSubPath_segments (src target : string) :
  isSubPath cwd src target = true
  <-> exists extra : list string,
        extra <> []
        /\ Path.path_segs (Path.resolve cwd [target])
           = Path.path_segs (Path.resolve cwd [src]) ++ extra.
Proof.
  assert (Hsame : isSubPath cwd src target
                  = isSubPath cwd (Path.resolve cwd [src]) target)
    by (unfold isSubPath; rewrite relative_of_resolved; reflexivity).
  rewrite Hsame.
  destruct (resolve_form cwd cwd_absolute [src]) as (segs & Hsegs & Hs).
  destruct (resolve_form cwd cwd_absolute [target]) as (asegs & Hasegs & Ha).
  rewrite Hs, Ha, !path_segs_resolved by assumption.
  apply isSubPath_descendant; assumption.
Qed.

(** X1: [isSubPath(src, target)] holds exactly when the target, once
    resolved, lies strictly below the resolved source: its segments are
    those of the source followed by at least one more. *)
Theorem isSubPath_strict_descendant (src target : string) :
  isSubPath cwd src target = true
  <-> exists extra : list string,
        extra <> []
        /\ Path.path_segs (Path.resolve cwd [target])
           = Path.path_segs (Path.resolve cwd [src]) ++ extra.
Proof. apply isSubPath_segments. Qed.

(** X2: [isSubPath] is a strict order on directories: no directory is a
    sub path of itself, two directories are never sub paths of each other,
    and a sub path of a sub path is a sub path. *)
Theorem isSubPath_strict_order (a b c : string) :
  isSubPath cwd a a = false
  /\ (isSubPath cwd a b = true -> isSubPath cwd b a = false)
  /\ (isSubPath cwd a b = true -> isSubPath cwd b c = true ->
      isSubPath cwd a c = true).
Proof.
  assert (Hirr : forall (l extra : list string),
            extra <> [] -> l <> l ++ extra).
  { intros l extra Hne H. apply Hne.
    rewrite <- (app_nil_r l) in H at 1. apply app_inv_head in H. congruence. }
  split; [|split].
  - destruct (isSubPath cwd a a) eqn:E; [exfalso|reflexivity].
    apply isSubPath_segments in E as (extra & Hne & H).
    exact (Hirr _ _ Hne H).
  - intros Hab. destruct (isSubPath cwd b a) eqn:E; [exfalso|reflexivity].
    apply isSubPath_segments in Hab as (e1 & Hne1 & H1).
    apply isSubPath_segments in E as (e2 & Hne2 & H2).
    rewrite H1, <- app_assoc in H2.
    apply (Hirr _ (e1 ++ e2)) in H2; [exact H2|].
    intros H. apply app_eq_nil in H as [H _]. contradiction.
  - intros Hab Hbc.
    apply isSubPath_segments in Hab as (e1 & Hne1 & H1).
    apply isSubPath_segments in Hbc as (e2 & Hne2 & H2).
    apply isSubPath_segments. exists (e1 ++ e2). split.
    + intros H. apply app_eq_nil in H as [H _]. contradiction.
    + rewrite H2, H1, <- app_assoc. reflexivity.
Qed.

End SubPath.

(** The artifacts directory of a build, below the source directory. *)
Lemma isSubPath_strict_descendant_witness :
  UtilFileFilter.isSubPath "/w" "/src" "/src/web-ext-artifacts" = true
  <-> exists extra : list string,
        extra <> []
        /\ Path.path_segs (Path.resolve "/w" ["/src/web-ext-artifacts"])
           = Path.path_segs (Path.resolve "/w" ["/src"]) ++ extra.
Proof.
  exact (isSubPath_strict_descendant "/w" eq_refl "/src"
           "/src/web-ext-artifacts").
Defined.

(** A source directory, its artifacts directory, and a directory in it. *)
Lemma isSubPath_strict_order_witness :
  UtilFileFilter.isSubPath "/w" "/src" "/src" = false
  /\ (UtilFileFilter.isSubPath "/w" "/src" "/src/dist" = true ->
      UtilFileFilter.isSubPath "/w" "/src/dist" "/src" = false)
  /\ (UtilFileFilter.isSubPath "/w" "/src" "/src/dist" = true ->
      UtilFileFilter.isSubPath "/w" "/src/dist" "/src/dist/old" = true ->
      UtilFileFilter.isSubPath "/w" "/src" "/src/dist/old" = true).
Proof.
  exact (isSubPath_strict_order "/w" eq_refl "/src" "/src/dist"
           "/src/dist/old").
Defined.

(** ** The constructor and [wantFile] of [src/util/file-filter.js] *)

Section Filter.

Import UtilFileFilter.

Variable cwd : string.
Variable other_globs : string -> string -> bool.

(** X3: the constructor stores its patterns in this order: the lines of
    [.wextignore], the base patterns (the six defaults when none are
    given), the caller's [ignoreFiles], and, when the artifacts directory
    is a sub path of the source directory, that directory and all below
    it; each one resolved against the resolved source directory, which is
    kept as [sourceDir]. *)
Theorem constructor_patterns_in_order (fs : Fs) (o : FileFilterOptions) :
  let resolved := Path.resolve cwd [sourceDir o] in
  this_sourceDir (new cwd fs o) = resolved
  /\ filesToIgnore (new cwd fs o)
     = map (fun file => Path.resolve cwd [resolved; file])
         (ignore_file_lines fs resolved)
       ++ map (fun file => Path.resolve cwd [resolved; file])
            (default default_baseIgnoredPatterns (baseIgnoredPatterns o))
       ++ map (fun file => Path.resolve cwd [resolved; file])
            (default [] (ignoreFiles o))
       ++ map (fun file => Path.resolve cwd [resolved; file])
            (artifacts_patterns cwd resolved (artifactsDir o)).
Proof.
  intros resolved. rewrite new_spec. fold resolved.
  cbn [this_sourceDir filesToIgnore]. rewrite !map_app. split; reflexivity.
Qed.

(** X6: adding patterns keeps the source directory and never brings back
    a file: what [wantFile] refused before [addToIgnoreList] it refuses
    after. *)
Theorem addToIgnoreList_only_refuses_more (this : FileFilter)
  (files : list string) (filePath : string) :
  wantFile cwd other_globs this filePath = false ->
  this_sourceDir (addToIgnoreList cwd this files) = this_sourceDir this
  /\ wantFile cwd other_globs (addToIgnoreList cwd this files) filePath
     = false.
Proof.
  intros H. rewrite addToIgnoreList_spec. split; [reflexivity|].
  apply wantFile_false_iff in H as (test & Hin & Hm).
  apply wantFile_false_iff. exists test. split; [|exact Hm].
  cbn [filesToIgnore]. apply in_or_app. left. exact Hin.
Qed.

Lemma first_match_split (path : string) (tests : list string)
  (test : string) :
  first_match other_globs path tests = Some test ->
  exists before after : list string,
    tests = before ++ test :: after
    /\ Forall (fun t => Minimatch.minimatch other_globs path t = false)
         before
    /\ Minimatch.minimatch other_globs path test = true.
Proof.
  induction tests as [|t tests IH]; cbn [first_match]; [discriminate|].
  destruct (Minimatch.minimatch other_globs path t) eqn:Ht.
  - intros [= <-]. exists [], tests. repeat split; [constructor | exact Ht].
  - intros H. destruct (IH H) as (before & after & -> & Hall & Hm).
    exists (t :: before), after. repeat split; [|exact Hm].
    constructor; assumption.
Qed.

(** X7: [wantFile] writes its diagnostic exactly when it refuses the file,
    and the pattern the diagnostic names is the first one, in the order of
    insertion, that matches the resolved path. *)
Theorem diagnostic_names_first_match (this : FileFilter)
  (filePath : string) :
  (wantFile_diagnostic cwd other_globs this filePath = None
   <-> wantFile cwd other_globs this filePath = true)
  /\ forall message : string,
       wantFile_diagnostic cwd other_globs this filePath = Some message ->
       exists (before after : list string) (test : string),
         filesToIgnore this = before ++ test :: after
         /\ Forall
              (fun t =>
                 Minimatch.minimatch other_globs
                   (resolveWithSourceDir cwd this filePath) t = false)
              before
         /\ Minimatch.minimatch other_globs
              (resolveWithSourceDir cwd this filePath) test = true
         /\ message
            = "FileFilter: ignoring file "
              +:+ resolveWithSourceDir cwd this filePath
              +:+ " (it matched " +:+ test +:+ ")".
Proof.
  unfold wantFile_diagnostic, wantFile.
  destruct (first_match other_globs (resolveWithSourceDir cwd this filePath)
              (filesToIgnore this)) as [test|] eqn:Hf.
  - split; [split; discriminate|].
    intros message [= <-].
    destruct (first_match_split _ _ _ Hf) as (before & after & H1 & H2 & H3).
    exists before, after, test. repeat split; assumption.
  - split; [split; reflexivity | discriminate].
Qed.

(** X8: the constructor reads the file system only through
    [.wextignore] of the resolved source directory, and a file that is
    missing there gives the same filter as one that cannot be read. *)
Theorem constructor_reads_only_wextignore (fs1 fs2 : Fs)
  (o : FileFilterOptions) :
  readFileSync fs1
    (Path.join [Path.resolve cwd [sourceDir o]; ".wextignore"])
  = readFileSync fs2
      (Path.join [Path.resolve cwd [sourceDir o]; ".wextignore"]) ->
  new cwd fs1 o = new cwd fs2 o.
Proof.
  intros H. rewrite !new_spec. cbv zeta. f_equal. f_equal. f_equal.
  unfold ignore_file_lines, readFileSync in *.
  destruct (Str.is_empty _); [reflexivity|].
  destruct (fs1 _), (fs2 _); congruence.
Qed.

Hypothesis cwd_absolute : Path.isAbsolute cwd = true.

Lemma resolve_fixed (args : list string) :
  Path.isAbsolute (Path.resolve cwd args) = true
  /\ Path.resolve cwd [Path.resolve cwd args] = Path.resolve cwd args.
Proof.
  destruct (resolve_form cwd cwd_absolute args) as (segs & Hsegs & ->).
  split; [reflexivity | apply resolve_single; exact Hsegs].
Qed.

(** X4: every pattern that a filter made by the constructor holds, also
    after further calls of [addToIgnoreList], is an absolute path in
    resolved form; so is its source directory. *)
Theorem stored_patterns_are_absolute (fs : Fs) (o : FileFilterOptions)
  (files : list string) :
  let this := addToIgnoreList cwd (new cwd fs o) files in
  (Path.isAbsolute (this_sourceDir this) = true
   /\ Path.resolve cwd [this_sourceDir this] = this_sourceDir this)
  /\ Forall
       (fun pattern =>
          Path.isAbsolute pattern = true
          /\ Path.resolve cwd [pattern] = pattern)
       (filesToIgnore this).
Proof.
  intros this. unfold this. rewrite addToIgnoreList_spec, new_spec.
  cbn [this_sourceDir filesToIgnore]. split; [apply resolve_fixed|].
  apply Forall_app. split; apply List.Forall_forall; intros pattern Hin;
    apply in_map_iff in Hin as (file & <- & _); apply resolve_fixed.
Qed.

(** X5: [wantFile] answers for the resolved path: a path relative to the
    source directory and the absolute path it resolves to get the same
    answer. *)
Theorem wantFile_of_resolved_path (this : FileFilter) (filePath : string) :
  wantFile cwd other_globs this (resolveWithSourceDir cwd this filePath)
  = wantFile cwd other_globs this filePath.
Proof.
  unfold wantFile, resolveWithSourceDir.
  destruct (resolve_form cwd cwd_absolute [this_sourceDir this; filePath])
    as (segs & Hsegs & ->).
  rewrite resolve_absolute_arg by exact Hsegs. reflexivity.
Qed.

End Filter.

(** The default filter keeps refusing an archive when [docs] is added. *)
Lemma addToIgnoreList_only_refuses_more_witness :
  UtilFileFilter.this_sourceDir
    (UtilFileFilter.addToIgnoreList "/w" Examples.default_filter ["docs"])
  = UtilFileFilter.this_sourceDir Examples.default_filter
  /\ UtilFileFilter.wantFile "/w" Examples.no_other_globs
       (UtilFileFilter.addToIgnoreList "/w" Examples.default_filter ["docs"])
       "old.zip"
     = false.
Proof.
  apply (addToIgnoreList_only_refuses_more "/w" Examples.no_other_globs
           Examples.default_filter ["docs"] "old.zip").
  reflexivity.
Defined.

(** Two file systems without [/src/.wextignore]. *)
Lemma constructor_reads_only_wextignore_witness :
  UtilFileFilter.new "/w" Examples.empty_fs (Examples.options_for None None)
  = UtilFileFilter.new "/w" Examples.manifest_fs
      (Examples.options_for None None).
Proof.
  apply (constructor_reads_only_wextignore "/w" Examples.empty_fs
           Examples.manifest_fs (Examples.options_for None None)).
  reflexivity.
Defined.

Lemma stored_patterns_are_absolute_witness :
  Forall
    (fun pattern =>
       Path.isAbsolute pattern = true
       /\ Path.resolve "/w" [pattern] = pattern)
    (UtilFileFilter.filesToIgnore
       (UtilFileFilter.addToIgnoreList "/w" Examples.default_filter
          ["docs"; "../notes"])).
Proof.
  exact (proj2 (stored_patterns_are_absolute "/w" eq_refl Examples.empty_fs
                  (Examples.options_for None None) ["docs"; "../notes"])).
Defined.

Lemma wantFile_of_resolved_path_witness :
  UtilFileFilter.wantFile "/w" Examples.no_other_globs
    Examples.default_filter
    (UtilFileFilter.resolveWithSourceDir "/w" Examples.default_filter
       "lib/old.zip")
  = UtilFileFilter.wantFile "/w" Examples.no_other_globs
      Examples.default_filter "lib/old.zip".
Proof.
  exact (wantFile_of_resolved_path "/w" Examples.no_other_globs eq_refl
           Examples.default_filter "lib/old.zip").
Defined.

(** ** What the default patterns refuse, and what they let through *)

Section DefaultPatterns.

Import UtilFileFilter.

Variable cwd : string.
Variable other_globs : string -> string -> bool.
Hypothesis cwd_absolute : Path.isAbsolute cwd = true.

(** X9: with the default base patterns, below a source directory whose
    resolved path stands for itself as a pattern ([Minimatch.literal]: no
    control character, no star, question mark, bracket, brace,
    parenthesis, exclamation mark, plus, at sign, bar, number sign or
    backslash, no blank or no-break space at the end): a file named
    [.secret] or [old.zip], in the source directory or in directories with
    visible names below it, is refused, and so are a [node_modules] there
    and all that lies in it under visible names; whatever [.wextignore],
    [ignoreFiles] and the artifacts directory add. *)
Theorem default_patterns_refuse_visible_paths (fs : Fs)
  (o : FileFilterOptions) (dirs below : list string) :
  baseIgnoredPatterns o = None ->
  Minimatch.literal (Path.resolve cwd [sourceDir o]) = true ->
  Forall (fun seg => Minimatch.visible seg = true) dirs ->
  Forall (fun seg => Minimatch.visible seg = true) below ->
  wantFile cwd other_globs (new cwd fs o)
    (Str.join "/" (dirs ++ [".secret"])) = false
  /\ wantFile cwd other_globs (new cwd fs o)
       (Str.join "/" (dirs ++ ["old.zip"])) = false
  /\ wantFile cwd other_globs (new cwd fs o)
       (Str.join "/" (dirs ++ "node_modules" :: below)) = false.
Proof. apply default_patterns_refuse. exact cwd_absolute. Qed.

(** X10: when the artifacts directory is a sub path of the source
    directory and its resolved path stands for itself as a pattern
    ([Minimatch.literal]: no control character, no star, question mark,
    bracket, brace, parenthesis, exclamation mark, plus, at sign, bar,
    number sign or backslash, no blank or no-break space at the end),
    [wantFile] refuses every path that resolves to the artifacts directory
    or to a place below it reached through visible names. *)
Theorem artifacts_directory_is_refused (fs : Fs) (o : FileFilterOptions)
  (dir : string) (below : list string) (filePath : string) :
  artifactsDir o = Some dir ->
  Str.is_empty dir = false ->
  isSubPath cwd (Path.resolve cwd [sourceDir o]) dir = true ->
  Minimatch.literal (Path.resolve cwd [dir]) = true ->
  Forall (fun seg => Minimatch.visible seg = true) below ->
  Path.path_segs (resolveWithSourceDir cwd (new cwd fs o) filePath)
  = Path.path_segs (Path.resolve cwd [dir]) ++ below ->
  wantFile cwd other_globs (new cwd fs o) filePath = false.
Proof. apply artifacts_patterns_refuse. exact cwd_absolute. Qed.

(** X11: an artifacts directory that does not lie strictly below the
    source directory (the source directory itself, a parent, a sibling)
    adds no pattern: the filter is the one made without it. *)
Theorem artifactsDir_elsewhere_changes_nothing (fs : Fs)
  (o : FileFilterOptions) (dir : string) :
  ~ (exists extra : list string,
       extra <> []
       /\ Path.path_segs (Path.resolve cwd [dir])
          = Path.path_segs (Path.resolve cwd [sourceDir o]) ++ extra) ->
  new cwd fs
    {| baseIgnoredPatterns := baseIgnoredPatterns o;
       ignoreFiles := ignoreFiles o;
       sourceDir := sourceDir o;
       artifactsDir := Some dir |}
  = new cwd fs
      {| baseIgnoredPatterns := baseIgnoredPatterns o;
         ignoreFiles := ignoreFiles o;
         sourceDir := sourceDir o;
         artifactsDir := None |}.
Proof.
  intros Hnot. apply artifactsDir_outside_has_no_effect.
  destruct (isSubPath cwd (Path.resolve cwd [sourceDir o]) dir) eqn:E;
    [exfalso|reflexivity].
  apply (isSubPath_segments cwd cwd_absolute) in E.
  rewrite (resolve_resolved cwd cwd_absolute) in E. exact (Hnot E).
Qed.

(** What a match behind a globstar begins with: the globstar has
    swallowed the segments before. *)
Lemma globstar_sound (p : Minimatch.part) (ps : list Minimatch.part)
  (fs : list string) :
  Minimatch.matchOne (Minimatch.GLOBSTAR :: p :: ps) fs = true ->
  exists pre suf : list string,
    fs = pre ++ suf /\ Minimatch.matchOne (p :: ps) suf = true.
Proof.
  induction fs as [|x rest IH]; [discriminate|].
  rewrite globstar_unfold. intros H. apply orb_true_iff in H as [H|H].
  - exists [], (x :: rest). split; [reflexivity | exact H].
  - apply andb_true_iff in H as [_ H].
    destruct (IH H) as (pre & suf & -> & Hm).
    exists (x :: pre), suf. split; [reflexivity | exact Hm].
Qed.

Lemma re_match_literal (suffix s : string) :
  Minimatch.has_star suffix = false ->
  Minimatch.re_match (Minimatch.toks_of suffix) s = true -> s = suffix.
Proof.
  revert s. induction suffix as [|c suffix IH]; intros s Hstar H.
  - destruct s; [reflexivity | discriminate H].
  - rewrite has_star_cons in Hstar. apply orb_false_iff in Hstar as [Hc Hs].
    cbn [Minimatch.toks_of] in H. rewrite Hc in H.
    destruct s as [|d s]; [discriminate H|]. cbn [Minimatch.re_match] in H.
    apply andb_true_iff in H as [Hd H]. apply Ascii.eqb_eq in Hd. subst d.
    f_equal. exact (IH s Hs H).
Qed.

Lemma endsWith_cons (suffix : string) (c : ascii) (s : string) :
  StrMore.endsWith suffix s = true ->
  StrMore.endsWith suffix (String c s) = true.
Proof.
  intros H. cbn [StrMore.endsWith]. rewrite H. apply orb_true_r.
Qed.

(** What [*suffix] matches ends with the suffix. *)
Lemma star_suffix_match (suffix s : string) :
  Minimatch.has_star suffix = false ->
  Minimatch.re_match (Minimatch.Star :: Minimatch.toks_of suffix) s = true ->
  StrMore.endsWith suffix s = true.
Proof.
  intros Hstar. induction s as [|d s IH]; intros H.
  - change (Minimatch.re_match (Minimatch.toks_of suffix) "" || false = true)
      in H.
    rewrite orb_false_r in H.
    pose proof (re_match_literal _ _ Hstar H) as <-. reflexivity.
  - change (Minimatch.re_match (Minimatch.toks_of suffix) (String d s)
            || (negb (Ascii.eqb d "/")
                && Minimatch.re_match
                     (Minimatch.Star :: Minimatch.toks_of suffix) s) = true)
      in H.
    apply orb_true_iff in H as [H|H].
    + rewrite <- (re_match_literal _ _ Hstar H).
      cbn [StrMore.endsWith]. rewrite String.eqb_refl. reflexivity.
    + apply andb_true_iff in H as [_ H]. apply endsWith_cons, IH, H.
Qed.

Lemma visible_not_hidden (seg : string) (ts : list Minimatch.tok) :
  Minimatch.visible seg = true ->
  Minimatch.magic_match (Minimatch.Chr "." :: ts) seg = false.
Proof.
  unfold Minimatch.visible, Minimatch.magic_match.
  destruct seg as [|d seg]; [reflexivity|]. intros H.
  apply andb_true_iff in H as [H _]. apply andb_true_iff in H as [Hd _].
  apply negb_true_iff in Hd. cbn [Minimatch.re_match].
  rewrite Ascii.eqb_sym, Hd. cbn [andb]. apply andb_false_r.
Qed.

(** The patterns [**/*.xpi] and [**/*.zip] look at the last segment. *)
Lemma archive_pattern_lets_through (suffix : string)
  (dirs : list string) (file : string) :
  Minimatch.has_star suffix = false ->
  Forall (fun seg => Minimatch.visible seg = true) (dirs ++ [file]) ->
  StrMore.endsWith suffix file = false ->
  Minimatch.matchOne
    [Minimatch.GLOBSTAR;
     Minimatch.Magic (Minimatch.Star :: Minimatch.toks_of suffix)]
    (dirs ++ [file]) = false.
Proof.
  intros Hstar Hvis Hend.
  destruct (Minimatch.matchOne _ (dirs ++ [file])) eqn:E; [exfalso|reflexivity].
  apply globstar_sound in E as (pre & suf & Hsplit & Hm).
  destruct suf as [|f rest]; [discriminate Hm|].
  cbn [Minimatch.matchOne] in Hm. apply andb_true_iff in Hm as [Hf Hrest].
  assert (Hnil : rest = []).
  { destruct rest as [|r rest]; [reflexivity|].
    rewrite Hsplit in Hvis. apply Forall_app in Hvis as [_ Hvis].
    inversion Hvis as [|? ? _ Hr]; subst. inversion Hr as [|? ? Hr' _]; subst.
    destruct rest; [|discriminate Hrest].
    destruct r; [discriminate Hr' | discriminate Hrest]. }
  subst rest. apply app_inj_tail in Hsplit as [_ <-].
  unfold Minimatch.magic_match in Hf. destruct file as [|d file];
    [discriminate Hf|].
  apply andb_true_iff in Hf as [_ Hf].
  rewrite (star_suffix_match _ _ Hstar Hf) in Hend. discriminate Hend.
Qed.

(** A pattern [**/.*...] needs a hidden segment. *)
Lemma hidden_pattern_lets_through (ts : list Minimatch.tok)
  (ps : list Minimatch.part) (segs : list string) :
  Forall (fun seg => Minimatch.visible seg = true) segs ->
  Minimatch.matchOne
    (Minimatch.GLOBSTAR :: Minimatch.Magic (Minimatch.Chr "." :: ts) :: ps)
    segs = false.
Proof.
  intros Hvis.
  destruct (Minimatch.matchOne _ segs) eqn:E; [exfalso|reflexivity].
  apply globstar_sound in E as (pre & suf & -> & Hm).
  destruct suf as [|f rest]; [discriminate Hm|].
  apply Forall_app in Hvis as [_ Hvis]. inversion Hvis as [|? ? Hf _]; subst.
  cbn [Minimatch.matchOne] in Hm.
  rewrite (visible_not_hidden f ts Hf) in Hm. discriminate Hm.
Qed.

(** A pattern [**/name...] needs a segment of that name. *)
Lemma named_pattern_lets_through (name : string)
  (ps : list Minimatch.part) (segs : list string) :
  Forall (fun seg => seg <> name) segs ->
  Minimatch.matchOne
    (Minimatch.GLOBSTAR :: Minimatch.Literal name :: ps) segs = false.
Proof.
  intros Hnot.
  destruct (Minimatch.matchOne _ segs) eqn:E; [exfalso|reflexivity].
  apply globstar_sound in E as (pre & suf & -> & Hm).
  destruct suf as [|f rest]; [discriminate Hm|].
  apply Forall_app in Hnot as [_ Hnot]. inversion Hnot as [|? ? Hf _]; subst.
  cbn [Minimatch.matchOne] in Hm. apply andb_true_iff in Hm as [Hm _].
  apply String.eqb_eq in Hm. contradiction.
Qed.

(** X12: with the default options (no base patterns or [ignoreFiles]
    given, no artifacts directory, no readable [.wextignore]) and a source
    directory whose resolved path stands for itself as a pattern
    ([Minimatch.literal]: no control character, no star, question mark,
    bracket, brace, parenthesis, exclamation mark, plus, at sign, bar,
    number sign or backslash, no blank or no-break space at the end), an
    ordinary file is wanted: a path below the source directory whose
    segments are all visible, none of them [node_modules], and whose last
    one ends neither with [.xpi] nor with [.zip]. *)
Theorem ordinary_files_are_wanted (fs : Fs) (o : FileFilterOptions)
  (dirs : list string) (file : string) :
  baseIgnoredPatterns o = None ->
  ignoreFiles o = None ->
  artifactsDir o = None ->
  readFileSync fs
    (Path.join [Path.resolve cwd [sourceDir o]; ".wextignore"]) = None ->
  Minimatch.literal (Path.resolve cwd [sourceDir o]) = true ->
  Forall (fun seg => Minimatch.visible seg = true) (dirs ++ [file]) ->
  Forall (fun seg => seg <> "node_modules") (dirs ++ [file]) ->
  StrMore.endsWith ".xpi" file = false ->
  StrMore.endsWith ".zip" file = false ->
  wantFile cwd other_globs (new cwd fs o) (Str.join "/" (dirs ++ [file]))
  = true.
Proof.
  intros Hbase Hfiles Hart Hfs Hliteral Hvis Hnm Hxpi Hzip.
  destruct (resolve_form cwd cwd_absolute [sourceDir o])
    as (segs & Hsegs & Hform).
  pose proof Hliteral as Hlit. rewrite Hform in Hlit.
  destruct (literal_segments segs Hlit) as [Hfrag Hstar].
  pose proof (visible_all_clean _ Hvis) as Hclean.
  assert (Hne : dirs ++ [file] <> [])
    by (intros H; apply app_eq_nil in H as [_ H]; discriminate H).
  apply wantFile_true_iff. intros test Hin.
  unfold resolveWithSourceDir. rewrite new_spec in *.
  cbn [filesToIgnore this_sourceDir] in *.
  assert (Hlines :
    ignore_file_lines fs (Path.resolve cwd [sourceDir o]) = []).
  { unfold ignore_file_lines. unfold readFileSync in Hfs.
    destruct (Str.is_empty _); [reflexivity|].
    destruct (fs _); [reflexivity | reflexivity | discriminate Hfs]. }
  rewrite Hlines, Hbase, Hfiles, Hart in Hin.
  rewrite Hform in *. rewrite resolve_under by assumption.
  assert (Hcase : forall psuf : list string,
    Forall Path.clean psuf -> psuf <> [] ->
    forallb Minimatch.in_fragment psuf = true ->
    Minimatch.matchOne (map Minimatch.parse psuf) (dirs ++ [file]) = false ->
    Minimatch.minimatch other_globs
      ("/" +:+ Str.join "/" (segs ++ dirs ++ [file]))
      (Path.resolve cwd ["/" +:+ Str.join "/" segs; Str.join "/" psuf])
    = false).
  { intros psuf Hp Hpne Hpf Hm. rewrite resolve_under by assumption.
    unfold Minimatch.minimatch.
    rewrite in_fragment_below by assumption.
    rewrite glob_below by assumption. exact Hm. }
  cbn [default app map default_baseIgnoredPatterns artifacts_patterns In]
    in Hin.
  destruct Hin as [<-|[<-|[<-|[<-|[<-|[<-|[]]]]]]].
  - apply (Hcase ["**"; "*.xpi"]);
      [repeat constructor; discriminate | discriminate | reflexivity|].
    apply (archive_pattern_lets_through ".xpi"); [reflexivity|assumption..].
  - apply (Hcase ["**"; "*.zip"]);
      [repeat constructor; discriminate | discriminate | reflexivity|].
    apply (archive_pattern_lets_through ".zip"); [reflexivity|assumption..].
  - apply (Hcase ["**"; ".*"]);
      [repeat constructor; discriminate | discriminate | reflexivity|].
    apply hidden_pattern_lets_through. exact Hvis.
  - apply (Hcase ["**"; ".*"; "**"; "*"]);
      [repeat constructor; discriminate | discriminate | reflexivity|].
    apply hidden_pattern_lets_through. exact Hvis.
  - apply (Hcase ["**"; "node_modules"]);
      [repeat constructor; discriminate | discriminate | reflexivity|].
    apply named_pattern_lets_through. exact Hnm.
  - apply (Hcase ["**"; "node_modules"; "**"; "*"]);
      [repeat constructor; discriminate | discriminate | reflexivity|].
    apply named_pattern_lets_through. exact Hnm.
Qed.

End DefaultPatterns.

Lemma default_patterns_refuse_visible_paths_witness :
  UtilFileFilter.wantFile "/w" Examples.no_other_globs
    Examples.default_filter (Str.join "/" (["lib"] ++ [".secret"])) = false
  /\ UtilFileFilter.wantFile "/w" Examples.no_other_globs
       Examples.default_filter (Str.join "/" (["lib"] ++ ["old.zip"]))
     = false
  /\ UtilFileFilter.wantFile "/w" Examples.no_other_globs
       Examples.default_filter
       (Str.join "/" (["lib"] ++ "node_modules" :: ["a"; "b.js"]))
     = false.
Proof.
  apply (default_patterns_refuse_visible_paths "/w" Examples.no_other_globs
           eq_refl Examples.empty_fs (Examples.options_for None None)
           ["lib"] ["a"; "b.js"]);
    [reflexivity | reflexivity | repeat constructor | repeat constructor].
Defined.

Lemma artifacts_directory_is_refused_witness :
  UtilFileFilter.wantFile "/w" Examples.no_other_globs
    Examples.bare_artifacts_filter "web-ext-artifacts/old/ext.txt" = false.
Proof.
  apply (artifacts_directory_is_refused "/w" Examples.no_other_globs eq_refl
           Examples.empty_fs
           (Examples.options_for (Some []) (Some "/src/web-ext-artifacts"))
           "/src/web-ext-artifacts" ["old"; "ext.txt"]
           "web-ext-artifacts/old/ext.txt");
    [reflexivity | reflexivity | reflexivity | reflexivity
    | repeat constructor | reflexivity].
Defined.

(** An artifacts directory beside the source directory. *)
Lemma artifactsDir_elsewhere_changes_nothing_witness :
  UtilFileFilter.new "/w" Examples.empty_fs
    (Examples.options_for None (Some "/w/web-ext-artifacts"))
  = UtilFileFilter.new "/w" Examples.empty_fs
      (Examples.options_for None None).
Proof.
  apply (artifactsDir_elsewhere_changes_nothing "/w" eq_refl
           Examples.empty_fs (Examples.options_for None None)
           "/w/web-ext-artifacts").
  intros (extra & _ & H). vm_compute in H. discriminate H.
Defined.

Lemma ordinary_files_are_wanted_witness :
  UtilFileFilter.wantFile "/w" Examples.no_other_globs
    Examples.default_filter (Str.join "/" (["lib"] ++ ["main.js"])) = true.
Proof.
  apply (ordinary_files_are_wanted "/w" Examples.no_other_globs eq_refl
           Examples.empty_fs (Examples.options_for None None)
           ["lib"] "main.js");
    try reflexivity.
  - repeat constructor.
  - repeat (constructor; [discriminate|]). constructor.
Defined.

(** A source directory with a blank in its name. *)
Example sourceDir_with_blank :
  Minimatch.literal "/my ext" = true
  /\ map
       (UtilFileFilter.wantFile "/w" Examples.no_other_globs
          (UtilFileFilter.new "/w" Examples.empty_fs
             {| UtilFileFilter.baseIgnoredPatterns := None;
                UtilFileFilter.ignoreFiles := None;
                UtilFileFilter.sourceDir := "/my ext";
                UtilFileFilter.artifactsDir := Some "/my ext/dist" |}))
       ["lib/main.js"; "old.zip"; "lib/.secret"; "node_modules/a.js";
        "dist"; "dist/ext.txt"]
     = [true; false; false; false; false; false].
Proof. split; reflexivity. Qed.

(** ** [safeFileName] *)

Section SafeNames.

Import BuildCmd.

Lemma safe_or_underscore_is_lower (c : ascii) :
  safe_char c || Ascii.eqb c "_" = true -> toLowerCase_char c = c.
Proof.
  destruct c as [[] [] [] [] [] [] [] []]; intros H;
    try discriminate H; reflexivity.
Qed.

Lemma map_chars_fixed (f : ascii -> ascii) (P : ascii -> bool) (s : string) :
  (forall c, P c = true -> f c = c) ->
  Str.forall_chars P s = true -> Str.map_chars f s = s.
Proof.
  intros Hf. induction s as [|c s IH]; [reflexivity|].
  cbn [Str.forall_chars Str.map_chars]. intros H.
  apply andb_true_iff in H as [Hc Hs]. rewrite (Hf c Hc), (IH Hs).
  reflexivity.
Qed.

Lemma replace_unsafe_again (s : string) :
  replace_unsafe false (replace_unsafe false s) = replace_unsafe false s
  /\ replace_unsafe true (replace_unsafe true s) = replace_unsafe true s.
Proof.
  induction s as [|c s [IHf IHt]]; [split; reflexivity|].
  cbn [replace_unsafe]. destruct (safe_char c) eqn:Hc.
  - cbn [replace_unsafe]. rewrite Hc, IHf. split; reflexivity.
  - split; [|exact IHt].
    cbn [replace_unsafe]. rewrite underscore_unsafe, IHt. reflexivity.
Qed.

Lemma replace_unsafe_safe (in_run : bool) (s : string) :
  Str.forall_chars safe_char s = true -> replace_unsafe in_run s = s.
Proof.
  revert in_run. induction s as [|c s IH]; intros in_run H; [reflexivity|].
  cbn [Str.forall_chars] in H. apply andb_true_iff in H as [Hc Hs].
  cbn [replace_unsafe]. rewrite Hc, (IH false Hs). reflexivity.
Qed.

Lemma forall_chars_weaken (P Q : ascii -> bool) (s : string) :
  (forall c, P c = true -> Q c = true) ->
  Str.forall_chars P s = true -> Str.forall_chars Q s = true.
Proof.
  intros HPQ. induction s as [|c s IH]; [reflexivity|].
  cbn [Str.forall_chars]. intros H. apply andb_true_iff in H as [Hc Hs].
  rewrite (HPQ c Hc), (IH Hs). reflexivity.
Qed.

Lemma toLowerCase_fixed (s : string) :
  Str.forall_chars (fun c => safe_char c || Ascii.eqb c "_") s = true ->
  toLowerCase s = s.
Proof.
  apply (map_chars_fixed toLowerCase_char). apply safe_or_underscore_is_lower.
Qed.

(** X13: [safeFileName] is idempotent, and it leaves alone a name made of
    lower-case letters, digits, dots and hyphens only. *)
Theorem safeFileName_idempotent (name : string) :
  safeFileName (safeFileName name) = safeFileName name
  /\ (Str.forall_chars safe_char name = true -> safeFileName name = name).
Proof.
  unfold safeFileName. split.
  - rewrite (toLowerCase_fixed _ (replace_unsafe_chars false _)).
    apply replace_unsafe_again.
  - intros H. rewrite toLowerCase_fixed.
    + apply replace_unsafe_safe. exact H.
    + apply (forall_chars_weaken safe_char); [|exact H].
      intros c Hc. rewrite Hc. reflexivity.
Qed.

Lemma replace_unsafe_length (in_run : bool) (s : string) :
  String.length (replace_unsafe in_run s) <= String.length s.
Proof.
  revert in_run. induction s as [|c s IH]; intros in_run; [reflexivity|].
  cbn [replace_unsafe]. destruct (safe_char c).
  - simpl. specialize (IH false). lia.
  - destruct in_run; simpl; specialize (IH true); lia.
Qed.

Lemma replace_unsafe_squeezed (s : string) :
  squeeze_underscores (replace_unsafe false s) = replace_unsafe false s
  /\ squeeze_underscores (String "_" (replace_unsafe true s))
     = String "_" (replace_unsafe true s).
Proof.
  induction s as [|c s [IHf IHt]]; [split; reflexivity|].
  cbn [replace_unsafe]. destruct (safe_char c) eqn:Hc.
  - pose proof (safe_char_not_underscore c Hc) as Hu.
    rewrite (squeeze_cons_other c _ Hu), IHf. split; [reflexivity|].
    change (squeeze_underscores (String "_" (String c ?x)))
      with (if (Ascii.eqb "_" "_" && Ascii.eqb c "_")%bool
            then squeeze_underscores (String c x)
            else String "_" (squeeze_underscores (String c x))).
    rewrite Hu, andb_false_r, (squeeze_cons_other c _ Hu), IHf. reflexivity.
  - split; exact IHt.
Qed.

Lemma squeeze_length (s : string) :
  String.length (squeeze_underscores s) <= String.length s.
Proof.
  induction s as [|c s IH]; [reflexivity|].
  cbn [squeeze_underscores]. destruct s as [|d s]; [reflexivity|].
  destruct (Ascii.eqb c "_" && Ascii.eqb d "_"); cbn [String.length] in *; lia.
Qed.

(** Squeezing shortens a string with two underscores in a row. *)
Lemma squeeze_shortens (before after : string) :
  String.length (squeeze_underscores (before +:+ "__" +:+ after))
  < String.length (before +:+ "__" +:+ after).
Proof.
  induction before as [|c before IH].
  - change ("" +:+ "__" +:+ after) with (String "_" (String "_" after)).
    change (squeeze_underscores (String "_" (String "_" after)))
      with (squeeze_underscores (String "_" after)).
    pose proof (squeeze_length (String "_" after)) as H.
    cbn [String.length] in *. lia.
  - change (String c before +:+ "__" +:+ after)
      with (String c (before +:+ "__" +:+ after)).
    cbn [squeeze_underscores].
    destruct (before +:+ "__" +:+ after) as [|d rest] eqn:E.
    + destruct before; discriminate E.
    + destruct (Ascii.eqb c "_" && Ascii.eqb d "_");
        cbn [String.length] in *; lia.
Qed.

(** X14: the name [safeFileName] gives is never longer than the
    lower-cased name it is made of, and never has two underscores in a
    row: squeezing the runs of underscores leaves it as it is. *)
Theorem safeFileName_squeezed (name : string) :
  String.length (safeFileName name) <= String.length (toLowerCase name)
  /\ squeeze_underscores (safeFileName name) = safeFileName name
  /\ forall before after : string,
       safeFileName name <> before +:+ "__" +:+ after.
Proof.
  unfold safeFileName. split; [apply replace_unsafe_length|].
  pose proof (proj1 (replace_unsafe_squeezed (toLowerCase name))) as Hfix.
  split; [exact Hfix|].
  intros before after Heq. rewrite Heq in Hfix.
  pose proof (squeeze_shortens before after) as Hlt.
  rewrite Hfix in Hlt. lia.
Qed.

End SafeNames.

(** ** [getDefaultLocalizedName] *)

Section LocalizedName.

Import BuildCmd.

Lemma match_token_needs_underscore (c : ascii) (s : string) :
  Ascii.eqb c "_" = false -> match_token (String c s) = None.
Proof.
  intros H. unfold match_token. cbn [Str.startsWith].
  rewrite Ascii.eqb_sym, H. reflexivity.
Qed.

(** Text without underscore is copied. *)
Lemma replace_tokens_plain_prefix (callback : string -> Result string)
  (before rest : string) :
  Str.without "_" before = true ->
  replace_tokens callback 0 (before +:+ rest)
  = match replace_tokens callback 0 rest with
    | Ok out => Ok (before +:+ out)
    | Err e => Err e
    end.
Proof.
  induction before as [|c before IH]; intros H.
  - cbn [String.append]. destruct (replace_tokens callback 0 rest); reflexivity.
  - unfold Str.without in H. cbn [Str.forall_chars] in H.
    apply andb_true_iff in H as [Hc Hb]. apply negb_true_iff in Hc.
    cbn [String.append replace_tokens].
    rewrite (match_token_needs_underscore c _ Hc), (IH Hb).
    destruct (replace_tokens callback 0 rest); reflexivity.
Qed.

Lemma replace_tokens_plain (callback : string -> Result string)
  (s : string) :
  Str.without "_" s = true -> replace_tokens callback 0 s = Ok s.
Proof.
  intros H. rewrite <- (append_nil_r s) at 1.
  rewrite (replace_tokens_plain_prefix callback s "" H).
  cbn [replace_tokens]. rewrite append_nil_r. reflexivity.
Qed.

(** The characters of a match are passed over. *)
Lemma replace_tokens_skip (callback : string -> Result string)
  (matched rest : string) :
  replace_tokens callback (String.length matched) (matched +:+ rest)
  = replace_tokens callback 0 rest.
Proof.
  induction matched as [|c matched IH]; [reflexivity|].
  cbn [String.length String.append replace_tokens]. exact IH.
Qed.

(** A key without underscore ends where [__] follows it. *)
Lemma key_then_close_plain (key after : string) :
  key <> "" ->
  Str.forall_chars key_char key = true ->
  Str.without "_" key = true ->
  key_then_close (key +:+ "__" +:+ after) = Some (key, after).
Proof.
  induction key as [|c key IH]; intros Hne Hchars Hplain; [contradiction|].
  cbn [Str.forall_chars] in Hchars. apply andb_true_iff in Hchars as [Hc Hk].
  unfold Str.without in Hplain. cbn [Str.forall_chars] in Hplain.
  apply andb_true_iff in Hplain as [_ Hp].
  cbn [String.append key_then_close]. rewrite Hc.
  destruct key as [|d key].
  - reflexivity.
  - cbn [Str.forall_chars] in Hp. apply andb_true_iff in Hp as [Hd Hp'].
    apply negb_true_iff in Hd.
    assert (Hstart : Str.startsWith "__" (String d key +:+ "__" +:+ after)
                     = false).
    { cbn [String.append Str.startsWith]. rewrite Ascii.eqb_sym, Hd.
      reflexivity. }
    change (String "_" (String "_" after)) with ("__" +:+ after).
    rewrite Hstart.
    rewrite IH; [reflexivity | discriminate | exact Hk |].
    unfold Str.without. cbn [Str.forall_chars]. rewrite Hd, Hp'. reflexivity.
Qed.

Lemma length_append (a b : string) :
  String.length (a +:+ b) = String.length a + String.length b.
Proof. induction a as [|c a IH]; simpl; [reflexivity | now rewrite IH]. Qed.

Lemma replace_single_token (callback : string -> Result string)
  (before key after replacement : string) :
  Str.without "_" before = true ->
  Str.without "_" after = true ->
  key <> "" ->
  Str.forall_chars key_char key = true ->
  Str.without "_" key = true ->
  callback key = Ok replacement ->
  replace_tokens callback 0
    (before +:+ "__MSG_" +:+ key +:+ "__" +:+ after)
  = Ok (before +:+ replacement +:+ after).
Proof.
  intros Hb Ha Hne Hchars Hplain Hcb.
  rewrite (replace_tokens_plain_prefix _ _ _ Hb).
  change ("__MSG_" +:+ key +:+ "__" +:+ after)
    with (String "_" ("_MSG_" +:+ key +:+ "__" +:+ after)).
  cbn [replace_tokens].
  assert (Hm : match_token (String "_" ("_MSG_" +:+ key +:+ "__" +:+ after))
               = Some (key, after)).
  { unfold match_token.
    change (Str.startsWith "__MSG_"
              (String "_" ("_MSG_" +:+ key +:+ "__" +:+ after))) with true.
    cbv iota.
    change (drop 6 (String "_" ("_MSG_" +:+ key +:+ "__" +:+ after)))
      with (key +:+ "__" +:+ after).
    apply key_then_close_plain; assumption. }
  rewrite Hm, Hcb.
  assert (Hskip :
    replace_tokens callback (String.length key + 7)
      ("_MSG_" +:+ key +:+ "__" +:+ after)
    = replace_tokens callback 0 after).
  { rewrite <- (replace_tokens_skip callback ("_MSG_" +:+ key +:+ "__") after).
    rewrite !append_assoc, !length_append. f_equal.
    change (String.length "_MSG_") with 5. change (String.length "__") with 2.
    lia. }
  rewrite Hskip, (replace_tokens_plain _ _ Ha). reflexivity.
Qed.

(** The replacement only asks the callback about the keys it finds. *)
Lemma replace_tokens_agree (cb1 cb2 : string -> Result string)
  (s : string) (skip : nat) :
  (forall key, In key (scan_tokens skip s) -> cb1 key = cb2 key) ->
  replace_tokens cb1 skip s = replace_tokens cb2 skip s.
Proof.
  revert skip. induction s as [|c s IH]; intros skip H; [reflexivity|].
  destruct skip as [|n]; cbn [scan_tokens replace_tokens] in *.
  - destruct (match_token (String c s)) as [[key rest]|].
    + rewrite <- (H key (or_introl eq_refl)).
      rewrite (IH (String.length key + 7)); [reflexivity|].
      intros k Hk. apply H. right. exact Hk.
    + rewrite (IH 0 H). reflexivity.
  - apply IH. exact H.
Qed.

Lemma replace_tokens_all_ok (callback : string -> Result string)
  (s : string) (skip : nat) :
  (forall key, In key (scan_tokens skip s) ->
     exists replacement, callback key = Ok replacement) ->
  exists out, replace_tokens callback skip s = Ok out.
Proof.
  revert skip. induction s as [|c s IH]; intros skip H.
  - exists "". destruct skip; reflexivity.
  - destruct skip as [|n]; cbn [scan_tokens replace_tokens] in *.
    + destruct (match_token (String c s)) as [[key rest]|].
      * destruct (H key (or_introl eq_refl)) as [replacement ->].
        destruct (IH (String.length key + 7)) as [out ->];
          [intros k Hk; apply H; right; exact Hk|].
        eexists. reflexivity.
      * destruct (IH 0 H) as [out ->]. eexists. reflexivity.
    + apply IH. exact H.
Qed.

Lemma lookup_message_known (file : string) (md : LocalizedMessageData)
  (key : string) :
  missing_key md key = false ->
  exists replacement, lookup_message file md key = Ok replacement.
Proof.
  unfold missing_key, lookup_message.
  destruct (md !! key) as [entry|]; [|discriminate].
  destruct (truthy (message entry)); [|discriminate].
  intros _. eexists. reflexivity.
Qed.

Variable parseJSON : string -> string -> string + LocalizedMessageData.

(** X15: whatever the name of the manifest, a message file that is
    missing or cannot be read, and one that [parseJSON] refuses, make
    [getDefaultLocalizedName] fail with a UsageError that tells which: the
    path and the error of the read, or the error of the parser; nothing is
    logged or written. *)
Theorem catalog_errors_are_usage_errors (p : LocalizedNameParams)
  (w : World) :
  (w_fs w (messageFile p) = Missing ->
   getDefaultLocalizedName parseJSON p w
   = (Err (UsageError
             ("Error reading messages.json file at " +:+ messageFile p
              +:+ ": Error: ENOENT: no such file or directory, open '"
              +:+ messageFile p +:+ "'")), w))
  /\ (forall why : string,
        w_fs w (messageFile p) = Unreadable why ->
        getDefaultLocalizedName parseJSON p w
        = (Err (UsageError
                  ("Error reading messages.json file at " +:+ messageFile p
                   +:+ ": Error: " +:+ why)), w))
  /\ (forall text error : string,
        w_fs w (messageFile p) = File text ->
        parseJSON text (messageFile p) = inl error ->
        getDefaultLocalizedName parseJSON p w
        = (Err (UsageError ("Error parsing messages.json " +:+ error)), w)).
Proof.
  unfold getDefaultLocalizedName, mbind, M_bind, bind, catch, readFile, throw.
  split; [|split].
  - intros ->. reflexivity.
  - intros why ->. reflexivity.
  - intros text error -> ->. reflexivity.
Qed.

(** X16: a name with one token, [__MSG_key__] between two texts without
    underscore, the key itself without underscore: when the catalog has a
    message for the key, the result is the name with the token replaced by
    the message, taken as it is (a token inside the message is not
    replaced in turn). *)
Theorem single_token_is_replaced (p : LocalizedNameParams) (w : World)
  (text : string) (messageData : LocalizedMessageData)
  (before key after : string) (entry : LocalizedMessage)
  (replacement : string) :
  w_fs w (messageFile p) = File text ->
  parseJSON text (messageFile p) = inr messageData ->
  name (p_manifestData p)
  = before +:+ "__MSG_" +:+ key +:+ "__" +:+ after ->
  Str.without "_" before = true ->
  Str.without "_" after = true ->
  key <> "" ->
  Str.forall_chars key_char key = true ->
  Str.without "_" key = true ->
  messageData !! key = Some entry ->
  message entry = Some replacement ->
  replacement <> "" ->
  getDefaultLocalizedName parseJSON p w
  = (Ok (before +:+ replacement +:+ after), w).
Proof.
  intros Hfs Hparse Hname Hb Ha Hne Hchars Hplain Hentry Hmsg Hrep.
  unfold getDefaultLocalizedName, mbind, M_bind, bind, catch, readFile.
  rewrite Hfs, Hparse, Hname.
  rewrite (replace_single_token _ before key after replacement);
    try assumption; [reflexivity|].
  unfold lookup_message. rewrite Hentry, Hmsg.
  destruct replacement; [contradiction | reflexivity].
Qed.

(** X17: once the message file is read and parsed, the resolution
    succeeds exactly when the catalog has a message for the key of every
    token that the replacement finds in the name; the world is left as it
    was. *)
Theorem resolution_succeeds_iff_keys_known (p : LocalizedNameParams)
  (w : World) (text : string) (messageData : LocalizedMessageData) :
  w_fs w (messageFile p) = File text ->
  parseJSON text (messageFile p) = inr messageData ->
  (exists extensionName : string,
     getDefaultLocalizedName parseJSON p w = (Ok extensionName, w))
  <-> forall key : string,
        In key (scan_tokens 0 (name (p_manifestData p))) ->
        missing_key messageData key = false.
Proof.
  intros Hfs Hparse.
  unfold getDefaultLocalizedName, mbind, M_bind, bind, catch, readFile.
  rewrite Hfs, Hparse. split.
  - intros [extensionName H] key Hin.
    destruct (missing_key messageData key) eqn:Hmiss; [exfalso|reflexivity].
    destruct (find (missing_key messageData)
                (scan_tokens 0 (name (p_manifestData p))))
      as [first|] eqn:Hfind.
    + apply find_some in Hfind as Hfirst. destruct Hfirst as [_ Hfirst].
      rewrite (replace_tokens_first_error _ _ 0 first
                 (UsageError ("The locale file " +:+ messageFile p
                              +:+ " is missing key: " +:+ first))) in H.
      * discriminate H.
      * rewrite <- Hfind. apply find_pointwise. intros k.
        apply lookup_message_refuses.
      * apply lookup_message_missing. exact Hfirst.
    + pose proof (find_none _ _ Hfind key Hin). congruence.
  - intros Hall.
    destruct (replace_tokens_all_ok
                (lookup_message (messageFile p) messageData)
                (name (p_manifestData p)) 0) as [out ->].
    + intros key Hin. apply lookup_message_known, Hall, Hin.
    + exists out. reflexivity.
Qed.

End LocalizedName.

(** X18: the catalog is consulted only for the keys of the tokens that
    the replacement finds in the name: two catalogs that agree on those
    keys give the same outcome, whatever else they hold. *)
Theorem catalog_is_read_at_token_keys_only
  (parse1 parse2 : string -> string -> string + gmap string BuildCmd.LocalizedMessage)
  (p : BuildCmd.LocalizedNameParams) (w : World) (text : string)
  (catalog1 catalog2 : gmap string BuildCmd.LocalizedMessage) :
  w_fs w (BuildCmd.messageFile p) = File text ->
  parse1 text (BuildCmd.messageFile p) = inr catalog1 ->
  parse2 text (BuildCmd.messageFile p) = inr catalog2 ->
  (forall key : string,
     In key
       (BuildCmd.scan_tokens 0 (BuildCmd.name (BuildCmd.p_manifestData p))) ->
     catalog1 !! key = catalog2 !! key) ->
  BuildCmd.getDefaultLocalizedName parse1 p w
  = BuildCmd.getDefaultLocalizedName parse2 p w.
Proof.
  intros Hfs H1 H2 Hagree.
  unfold BuildCmd.getDefaultLocalizedName, mbind, M_bind, bind, catch, readFile.
  rewrite Hfs, H1, H2.
  rewrite (replace_tokens_agree
             (BuildCmd.lookup_message (BuildCmd.messageFile p) catalog1)
             (BuildCmd.lookup_message (BuildCmd.messageFile p) catalog2));
    [reflexivity|].
  intros key Hin. unfold BuildCmd.lookup_message.
  rewrite (Hagree key Hin). reflexivity.
Qed.

Lemma single_token_is_replaced_witness :
  BuildCmd.getDefaultLocalizedName Examples.parse_catalog_a
    (Examples.name_params "My __MSG_a__ ext") Examples.locale_world
  = (Ok ("My " +:+ "X" +:+ " ext"), Examples.locale_world).
Proof.
  apply (single_token_is_replaced Examples.parse_catalog_a
           (Examples.name_params "My __MSG_a__ ext") Examples.locale_world
           "{}" Examples.catalog_a "My " "a" " ext"
           {| BuildCmd.description := None; BuildCmd.message := Some "X" |}
           "X");
    try reflexivity; discriminate.
Defined.

Lemma resolution_succeeds_iff_keys_known_witness :
  (exists extensionName : string,
     BuildCmd.getDefaultLocalizedName Examples.parse_catalog_a
       (Examples.name_params "__MSG_a__ and __MSG_b__")
       Examples.locale_world
     = (Ok extensionName, Examples.locale_world))
  <-> forall key : string,
        In key (BuildCmd.scan_tokens 0 "__MSG_a__ and __MSG_b__") ->
        BuildCmd.missing_key Examples.catalog_a key = false.
Proof.
  exact (resolution_succeeds_iff_keys_known Examples.parse_catalog_a
           (Examples.name_params "__MSG_a__ and __MSG_b__")
           Examples.locale_world "{}" Examples.catalog_a eq_refl eq_refl).
Defined.

(** Two catalogs that differ at [b], for a name with the token of [a]. *)
Lemma catalog_is_read_at_token_keys_only_witness :
  Examples.catalog_a !! "b" <> Samples.catalog_ab !! "b"
  /\ BuildCmd.getDefaultLocalizedName Examples.parse_catalog_a
       (Examples.name_params "__MSG_a__") Examples.locale_world
     = BuildCmd.getDefaultLocalizedName Samples.parse_catalog_ab
         (Examples.name_params "__MSG_a__") Examples.locale_world.
Proof.
  split; [vm_compute; discriminate|].
  apply (catalog_is_read_at_token_keys_only Examples.parse_catalog_a
           Samples.parse_catalog_ab (Examples.name_params "__MSG_a__")
           Examples.locale_world "{}" Examples.catalog_a Samples.catalog_ab);
    try reflexivity.
  intros key [<-|[]]. vm_compute. reflexivity.
Defined.

(** ** [defaultPackageCreator], [build] and the [FileFilter] of the build
    module *)

Section PackagePath.

Import BuildCmd.

Lemma map_chars_app (f : ascii -> ascii) (a b : string) :
  Str.map_chars f (a +:+ b) = Str.map_chars f a +:+ Str.map_chars f b.
Proof.
  induction a as [|c a IH]; [reflexivity|].
  cbn [String.append Str.map_chars]. rewrite IH. reflexivity.
Qed.

Lemma replace_unsafe_app_safe (in_run : bool) (a b : string) :
  Str.forall_chars safe_char b = true ->
  replace_unsafe in_run (a +:+ b) = replace_unsafe in_run a +:+ b.
Proof.
  intros Hb. revert in_run. induction a as [|c a IH]; intros in_run.
  - cbn [String.append replace_unsafe]. apply replace_unsafe_safe. exact Hb.
  - cbn [String.append replace_unsafe].
    destruct (safe_char c); [|destruct in_run]; rewrite IH; reflexivity.
Qed.

Lemma packageName_suffix (extensionName version : string) :
  packageName_of extensionName version
  = safeFileName (extensionName +:+ "-" +:+ version) +:+ ".zip".
Proof.
  assert (Happ : extensionName +:+ "-" +:+ version +:+ ".zip"
                 = (extensionName +:+ "-" +:+ version) +:+ ".zip")
    by (rewrite !append_assoc; reflexivity).
  unfold packageName_of, safeFileName, toLowerCase.
  rewrite Happ, map_chars_app.
  change (Str.map_chars toLowerCase_char ".zip") with ".zip".
  apply replace_unsafe_app_safe. reflexivity.
Qed.

Lemma safe_or_underscore_no_slash (c : ascii) :
  safe_char c || Ascii.eqb c "_" = true -> negb (Ascii.eqb c "/") = true.
Proof.
  destruct c as [[] [] [] [] [] [] [] []]; intros H;
    try discriminate H; reflexivity.
Qed.

Lemma append_zip_clean (stem : string) :
  Str.without "/" (stem +:+ ".zip") = true -> Path.clean (stem +:+ ".zip").
Proof.
  intros Hw. repeat split; try exact Hw.
  - destruct stem; discriminate.
  - destruct stem as [|c [|d stem]]; discriminate.
  - destruct stem as [|c [|d [|e stem]]]; discriminate.
Qed.

Lemma packageName_clean (extensionName version : string) :
  Path.clean (packageName_of extensionName version).
Proof.
  pose proof (replace_unsafe_chars false
                (toLowerCase (extensionName +:+ "-" +:+ version +:+ ".zip")))
    as Hchars.
  change (replace_unsafe false
            (toLowerCase (extensionName +:+ "-" +:+ version +:+ ".zip")))
    with (packageName_of extensionName version) in Hchars.
  apply (forall_chars_weaken _ (fun c => negb (Ascii.eqb c "/")) _
           safe_or_underscore_no_slash) in Hchars.
  rewrite packageName_suffix in *. apply append_zip_clean. exact Hchars.
Qed.

Lemma without_no_trailing (sep : ascii) (s : string) :
  Str.without sep s = true -> Str.ends_with_char sep s = false.
Proof.
  induction s as [|c s IH]; [reflexivity|].
  unfold Str.without. cbn [Str.forall_chars]. intros H.
  apply andb_true_iff in H as [Hc Hs]. apply negb_true_iff in Hc.
  cbn [Str.ends_with_char]. destruct s; [exact Hc | apply IH, Hs].
Qed.

(** [path.join(dir, file)] for a resolved directory and a file name. *)
Lemma join_file_below (segs : list string) (file : string) :
  Forall Path.clean segs -> Path.clean file ->
  Path.join ["/" +:+ Str.join "/" segs; file]
  = "/" +:+ Str.join "/" (segs ++ [file]).
Proof.
  intros Hsegs Hfile. pose proof Hfile as (Hne & _ & _ & Hw).
  assert (Hclean : Forall Path.clean [file])
    by (constructor; [exact Hfile | constructor]).
  unfold Path.join.
  destruct file as [|c file]; [contradiction|].
  cbn [List.filter Str.is_empty negb String.append].
  unfold Path.normalize.
  set (joined := Str.join "/" [String "/" (Str.join "/" segs); String c file]).
  assert (Hnorm :
    Path.normalizeString joined false
    = Str.join "/" (segs ++ [String c file])).
  { unfold Path.normalizeString.
    change joined
      with (("/" +:+ Str.join "/" segs) +:+ "/" +:+ String c file).
    rewrite (normalize_after_resolved _ _ Hsegs).
    rewrite (split_without "/" _ Hw).
    rewrite (normalize_segs_clean false _ _ Hclean), rev_involutive.
    reflexivity. }
  assert (Hend : Str.ends_with_char "/" joined = false).
  { change joined
      with (("/" +:+ Str.join "/" segs) +:+ String "/" (String c file)).
    rewrite ends_with_char_app.
    change (Str.ends_with_char "/" (String "/" (String c file)))
      with (Str.ends_with_char "/" (String c file)).
    apply without_no_trailing. exact Hw. }
  change (Str.is_empty joined) with false.
  change (Path.isAbsolute joined) with true.
  cbn [negb]. rewrite Hnorm, Hend.
  destruct (join_clean_relative (segs ++ [String c file])) as [Hne' _].
  - apply Forall_app. split; assumption.
  - intros H. apply app_eq_nil in H as [_ H]. discriminate.
  - rewrite Hne'. reflexivity.
Qed.

Variable parseJSON : string -> string -> string + LocalizedMessageData.
Variable getManifestId : ExtensionManifest -> option string.
Variable getValidatedManifest : string -> M ExtensionManifest.
Variable zipDir : string -> (string -> bool) -> M string.
Variable writeStream : string -> string -> M unit.

Local Abbreviation creator :=
  (defaultPackageCreator parseJSON getManifestId getValidatedManifest zipDir
     writeStream).

(** What a successful run of [defaultPackageCreator] went through. *)
Lemma defaultPackageCreator_ok (p : PackageCreatorParams) (w w' : World)
  (result : ExtensionBuildResult) :
  creator p w = (Ok result, w') ->
  exists (manifestData : ExtensionManifest) (buffer extensionName : string)
         (w1 w2 w3 w4 : World),
    match pc_manifestData p with
    | Some given => manifestData = given
    | None => getValidatedManifest (pc_sourceDir p) w = (Ok manifestData, w1)
    end
    /\ zipDir (pc_sourceDir p) (pc_fileFilter p) w1 = (Ok buffer, w2)
    /\ extensionName_of parseJSON (pc_sourceDir p) manifestData w2
       = (Ok extensionName, w3)
    /\ extensionPath result
       = Path.join [pc_artifactsDir p;
                    packageName_of extensionName (version manifestData)]
    /\ writeStream (extensionPath result) buffer w3 = (Ok tt, w4)
    /\ w' = (if pc_showReadyMessage p
             then logged Info ("Your web extension is ready: "
                               +:+ extensionPath result) w4
             else w4).
Proof.
  unfold defaultPackageCreator, mbind, M_bind, bind, mret, M_ret, ret, log.
  intros H.
  destruct (pc_manifestData p) as [given|].
  - set (w1 := logged Debug _ w) in H.
    destruct (zipDir (pc_sourceDir p) (pc_fileFilter p) w1)
      as [[buffer|e] w2] eqn:Hzip; [|discriminate H].
    destruct (extensionName_of parseJSON (pc_sourceDir p) given w2)
      as [[extensionName|e] w3] eqn:Hname; [|discriminate H].
    destruct (writeStream _ buffer w3) as [[[]|e] w4] eqn:Hwrite;
      [|discriminate H].
    exists given, buffer, extensionName, w1, w2, w3, w4.
    destruct (pc_showReadyMessage p); injection H as <- <-;
      repeat split; assumption.
  - destruct (getValidatedManifest (pc_sourceDir p) w)
      as [[manifestData|e] w1] eqn:Hmanifest; [|discriminate H].
    destruct (zipDir (pc_sourceDir p) (pc_fileFilter p) w1)
      as [[buffer|e] w2] eqn:Hzip; [|discriminate H].
    destruct (extensionName_of parseJSON (pc_sourceDir p) manifestData w2)
      as [[extensionName|e] w3] eqn:Hname; [|discriminate H].
    destruct (writeStream _ buffer w3) as [[[]|e] w4] eqn:Hwrite;
      [|discriminate H].
    exists manifestData, buffer, extensionName, w1, w2, w3, w4.
    destruct (pc_showReadyMessage p); injection H as <- <-;
      repeat split; assumption.
Qed.

(** X19: when [defaultPackageCreator] succeeds, the path it returns is the
    path it has written, and what it wrote there is the buffer that
    [zipDir] made of the source directory with the file filter of the
    parameters; the only trace it leaves after the write is the ready
    message, and only when [showReadyMessage] holds. *)
Theorem returned_path_is_the_written_one (p : PackageCreatorParams)
  (w w' : World) (result : ExtensionBuildResult) :
  creator p w = (Ok result, w') ->
  exists (buffer : string) (w1 w2 w3 w4 : World),
    zipDir (pc_sourceDir p) (pc_fileFilter p) w1 = (Ok buffer, w2)
    /\ writeStream (extensionPath result) buffer w3 = (Ok tt, w4)
    /\ w' = (if pc_showReadyMessage p
             then logged Info ("Your web extension is ready: "
                               +:+ extensionPath result) w4
             else w4).
Proof.
  intros H.
  destruct (defaultPackageCreator_ok p w w' result H)
    as (manifestData & buffer & extensionName & w1 & w2 & w3 & w4
        & _ & Hzip & _ & _ & Hwrite & Hlog).
  exists buffer, w1, w2, w3, w4. repeat split; assumption.
Qed.

(** X20: whatever the name and the version of the manifest (and whatever
    the catalog makes of the name), the package is a file of the artifacts
    directory itself: for an artifacts directory given as a normalized
    absolute path, the path returned is that directory and one more
    segment, which ends in [.zip] and holds no slash. *)
Theorem package_is_written_inside_artifactsDir (p : PackageCreatorParams)
  (w w' : World) (result : ExtensionBuildResult) (segs : list string) :
  Forall Path.clean segs ->
  pc_artifactsDir p = "/" +:+ Str.join "/" segs ->
  creator p w = (Ok result, w') ->
  exists stem : string,
    extensionPath result = "/" +:+ Str.join "/" (segs ++ [stem +:+ ".zip"])
    /\ Path.path_segs (extensionPath result) = segs ++ [stem +:+ ".zip"]
    /\ Str.without "/" stem = true.
Proof.
  intros Hsegs Hdir H.
  destruct (defaultPackageCreator_ok p w w' result H)
    as (manifestData & buffer & extensionName & w1 & w2 & w3 & w4
        & _ & _ & _ & Hpath & _).
  pose proof (packageName_clean extensionName (version manifestData))
    as Hclean.
  rewrite Hdir, (join_file_below _ _ Hsegs Hclean) in Hpath.
  rewrite packageName_suffix in Hpath, Hclean.
  exists (safeFileName (extensionName +:+ "-" +:+ version manifestData)).
  split; [exact Hpath|]. split.
  - rewrite Hpath. apply path_segs_resolved.
    apply Forall_app. split; [exact Hsegs|].
    constructor; [exact Hclean | constructor].
  - apply (forall_chars_weaken _ (fun c => negb (Ascii.eqb c "/")) _
             safe_or_underscore_no_slash).
    apply replace_unsafe_chars.
Qed.

End PackagePath.

Section ManifestSource.

Import BuildCmd.

Variable parseJSON : string -> string -> string + LocalizedMessageData.
Variable getManifestId : ExtensionManifest -> option string.
Variable getValidatedManifest : string -> M ExtensionManifest.
Variable zipDir : string -> (string -> bool) -> M string.
Variable writeStream : string -> string -> M unit.

Local Abbreviation creator :=
  (defaultPackageCreator parseJSON getManifestId getValidatedManifest zipDir
     writeStream).

(** X21: a manifest given in the parameters is the one the package is
    made of: its id is logged, the archive is made next, and the name and
    the version of the file are its own; [getValidatedManifest] is not
    called.  Without one, the manifest is what
    [getValidatedManifest(sourceDir)] gives: its failure is the failure of
    the package creator, its name and version make the file name, and
    [getManifestId] is not called. *)
Theorem manifest_is_given_or_validated (p : PackageCreatorParams)
  (w : World) :
  (forall given : ExtensionManifest,
     pc_manifestData p = Some given ->
     (forall validate : string -> M ExtensionManifest,
        defaultPackageCreator parseJSON getManifestId validate zipDir
          writeStream p w
        = creator p w)
     /\ forall (result : ExtensionBuildResult) (w' : World),
          creator p w = (Ok result, w') ->
          exists (buffer extensionName : string) (w2 w3 : World),
            zipDir (pc_sourceDir p) (pc_fileFilter p)
              (logged Debug
                 ("Using manifest id="
                  +:+ (if truthy (getManifestId given)
                       then default "" (getManifestId given)
                       else "[not specified]")) w)
            = (Ok buffer, w2)
            /\ extensionName_of parseJSON (pc_sourceDir p) given w2
               = (Ok extensionName, w3)
            /\ extensionPath result
               = Path.join [pc_artifactsDir p;
                            packageName_of extensionName (version given)])
  /\ (pc_manifestData p = None ->
      (forall id : ExtensionManifest -> option string,
         defaultPackageCreator parseJSON id getValidatedManifest zipDir
           writeStream p w
         = creator p w)
      /\ (forall (e : Error) (w1 : World),
            getValidatedManifest (pc_sourceDir p) w = (Err e, w1) ->
            creator p w = (Err e, w1))
      /\ forall (result : ExtensionBuildResult) (w' : World),
           creator p w = (Ok result, w') ->
           exists (manifestData : ExtensionManifest)
                  (buffer extensionName : string) (w1 w2 w3 : World),
             getValidatedManifest (pc_sourceDir p) w = (Ok manifestData, w1)
             /\ zipDir (pc_sourceDir p) (pc_fileFilter p) w1
                = (Ok buffer, w2)
             /\ extensionName_of parseJSON (pc_sourceDir p) manifestData w2
                = (Ok extensionName, w3)
             /\ extensionPath result
                = Path.join [pc_artifactsDir p;
                             packageName_of extensionName
                               (version manifestData)]).
Proof.
  split.
  - intros given Hgiven. split.
    + intros validate. unfold defaultPackageCreator. rewrite Hgiven.
      reflexivity.
    + intros result w'.
      unfold defaultPackageCreator, mbind, M_bind, bind, mret, M_ret, ret,
        log.
      rewrite Hgiven. intros H.
      destruct (zipDir (pc_sourceDir p) (pc_fileFilter p) _)
        as [[buffer|e] w2] eqn:Hzip; [|discriminate H].
      destruct (extensionName_of parseJSON (pc_sourceDir p) given w2)
        as [[extensionName|e] w3] eqn:Hname; [|discriminate H].
      destruct (writeStream _ buffer w3) as [[[]|e] w4]; [|discriminate H].
      exists buffer, extensionName, w2, w3.
      destruct (pc_showReadyMessage p); injection H as <- <-;
        repeat split; assumption.
  - intros Hnone. split; [|split].
    + intros id. unfold defaultPackageCreator. rewrite Hnone. reflexivity.
    + intros e w1 Hfail.
      unfold defaultPackageCreator, mbind, M_bind, bind.
      rewrite Hnone, Hfail. reflexivity.
    + intros result w'.
      unfold defaultPackageCreator, mbind, M_bind, bind, mret, M_ret, ret,
        log.
      rewrite Hnone. intros H.
      destruct (getValidatedManifest (pc_sourceDir p) w)
        as [[manifestData|e] w1]; [|discriminate H].
      destruct (zipDir (pc_sourceDir p) (pc_fileFilter p) w1)
        as [[buffer|e] w2] eqn:Hzip; [|discriminate H].
      destruct (extensionName_of parseJSON (pc_sourceDir p) manifestData w2)
        as [[extensionName|e] w3] eqn:Hname; [|discriminate H].
      destruct (writeStream _ buffer w3) as [[[]|e] w4]; [|discriminate H].
      exists manifestData, buffer, extensionName, w1, w2, w3.
      destruct (pc_showReadyMessage p); injection H as <- <-;
        repeat split; assumption.
Qed.

End ManifestSource.

(** X22: when the artifacts directory cannot be prepared, [build] fails
    with the error of [prepareArtifactsDir], whatever the options: no
    package is created and no watcher is called. *)
Theorem prepare_failure_stops_build
  (parseJSON : string -> string -> string + gmap string BuildCmd.LocalizedMessage)
  (ignores : list string -> string -> bool)
  (getManifestId : BuildCmd.ExtensionManifest -> option string)
  (getValidatedManifest : string -> M BuildCmd.ExtensionManifest)
  (zipDir : string -> (string -> bool) -> M string)
  (writeStream : string -> string -> M unit)
  (prepareArtifactsDir : string -> M string)
  (defaultSourceWatcher : BuildCmd.OnSourceChangeFn)
  (stack : Error -> string)
  (params : BuildCmd.BuildCmdParams) (options : BuildCmd.BuildCmdOptions)
  (w w1 : World) (e : Error) :
  prepareArtifactsDir (BuildCmd.b_artifactsDir params)
    (logged Info ("Building web extension from "
                  +:+ BuildCmd.b_sourceDir params) w)
  = (Err e, w1) ->
  BuildCmd.build parseJSON ignores getManifestId getValidatedManifest zipDir
    writeStream prepareArtifactsDir defaultSourceWatcher stack params options w
  = (Err e, w1).
Proof.
  intros H. unfold BuildCmd.build, mbind, M_bind, bind, log.
  rewrite H. reflexivity.
Qed.

(** X23: the constructor of the [FileFilter] of the build module puts the
    given patterns (or the four default ones) first, and after them only
    the lines of [<sourceDir>/.xpiignore]: nothing when no source
    directory is given or when that file is missing or cannot be read. *)
Theorem xpiignore_lines_follow_the_patterns (fs : Fs)
  (o : BuildCmd.FileFilterOptions) :
  exists lines : list string,
    BuildCmd._ignore (BuildCmd.new fs o)
    = default BuildCmd.default_filesToIgnore (BuildCmd.o_filesToIgnore o)
      ++ lines
    /\ (BuildCmd.truthy (BuildCmd.o_sourceDir o) = false -> lines = [])
    /\ forall dir : string,
         BuildCmd.o_sourceDir o = Some dir -> dir <> "" ->
         lines
         = match readFileSync fs (Path.join [dir; ".xpiignore"]) with
           | Some text => Str.split "010" text
           | None => []
           end.
Proof.
  unfold BuildCmd.new, BuildCmd.add. cbn [BuildCmd._ignore app].
  destruct (BuildCmd.truthy (BuildCmd.o_sourceDir o)) eqn:Hdir.
  - destruct (BuildCmd.o_sourceDir o) as [dir|]; [|discriminate Hdir].
    change (default "" (Some dir)) with dir.
    unfold existsSync, readFileSync.
    destruct (fs (Path.join [dir; ".xpiignore"])) as [|why|text] eqn:Hfs.
    + exists []. rewrite app_nil_r.
      split; [reflexivity|]. split; [discriminate|].
      intros d [= <-] _. rewrite Hfs. reflexivity.
    + exists []. rewrite app_nil_r.
      split; [reflexivity|]. split; [discriminate|].
      intros d [= <-] _. rewrite Hfs. reflexivity.
    + exists (Str.split "010" text). cbn [BuildCmd._ignore].
      split; [reflexivity|]. split; [discriminate|].
      intros d [= <-] _. rewrite Hfs. reflexivity.
  - exists []. rewrite app_nil_r.
    split; [reflexivity|]. split; [reflexivity|].
    intros dir Hsome Hne. rewrite Hsome in Hdir.
    destruct dir; [contradiction | discriminate Hdir].
Qed.

Lemma returned_path_is_the_written_one_witness :
  exists (buffer : string) (w1 w2 w3 w4 : World),
    Examples.empty_zip "/src" (fun _ => true) w1 = (Ok buffer, w2)
    /\ Examples.write_nothing "/src/web-ext-artifacts/my_ext-1.0.zip" buffer
         w3 = (Ok tt, w4)
    /\ Samples.packaged_world
       = logged Info
           "Your web extension is ready: /src/web-ext-artifacts/my_ext-1.0.zip"
           w4.
Proof.
  exact (returned_path_is_the_written_one Examples.parse_catalog_a
           Examples.no_manifest_id Examples.no_validated_manifest
           Examples.empty_zip Examples.write_nothing Samples.creator_params
           Examples.locale_world Samples.packaged_world
           {| BuildCmd.extensionPath :=
                "/src/web-ext-artifacts/my_ext-1.0.zip" |}
           eq_refl).
Defined.

Lemma package_is_written_inside_artifactsDir_witness :
  exists stem : string,
    "/src/web-ext-artifacts/my_ext-1.0.zip"
    = "/" +:+ Str.join "/" (["src"; "web-ext-artifacts"] ++ [stem +:+ ".zip"])
    /\ Path.path_segs "/src/web-ext-artifacts/my_ext-1.0.zip"
       = ["src"; "web-ext-artifacts"] ++ [stem +:+ ".zip"]
    /\ Str.without "/" stem = true.
Proof.
  apply (package_is_written_inside_artifactsDir Examples.parse_catalog_a
           Examples.no_manifest_id Examples.no_validated_manifest
           Examples.empty_zip Examples.write_nothing Samples.creator_params
           Examples.locale_world Samples.packaged_world
           {| BuildCmd.extensionPath :=
                "/src/web-ext-artifacts/my_ext-1.0.zip" |}
           ["src"; "web-ext-artifacts"]);
    [|reflexivity|reflexivity].
  repeat (constructor; [repeat split; try discriminate; reflexivity|]).
  constructor.
Defined.

Lemma prepare_failure_stops_build_witness :
  BuildCmd.build Examples.parse_catalog_a Examples.literal_ignores
    Examples.no_manifest_id Examples.no_validated_manifest Examples.empty_zip
    Examples.write_nothing Samples.prepare_fails Examples.quiet_watcher
    error_toString Examples.build_params Examples.sample_options
    Examples.manifest_world
  = (Err (OtherError "Error"
            "EACCES: permission denied, mkdir '/src/web-ext-artifacts'"),
     logged Info "Building web extension from /src" Examples.manifest_world).
Proof.
  apply (prepare_failure_stops_build Examples.parse_catalog_a
           Examples.literal_ignores Examples.no_manifest_id
           Examples.no_validated_manifest Examples.empty_zip
           Examples.write_nothing Samples.prepare_fails
           Examples.quiet_watcher error_toString Examples.build_params
           Examples.sample_options Examples.manifest_world).
  reflexivity.
Defined.
